(** * Medical Telegram warehouse: ingestion pipeline

    A shallow embedding of the ingestion code of the repository
    (scripts/load_raw_to_postgres.py, src/datalake.py, src/scraper.py and
    dagster_pipeline/pipeline.py) together with the properties its
    specification states about it.

    Python dictionaries are finite maps from strings to Python values,
    exceptions are explicit results, and everything the code observes from
    the outside (files, the upstream client, sub-processes, the clock) is an
    argument of the function that observes it. *)

From Stdlib Require Import ZArith QArith String Ascii List SpecFloat.
From stdpp Require Import base option list gmap strings fin_maps pretty sorting.

Set Warnings "-register-all".

Local Open Scope string_scope.
Local Open Scope list_scope.
Local Open Scope Z_scope.

(** ** Python values and the builtins the code relies on *)

Module Py.

(** The exception classes the code raises or names in a handler.
    [OtherError] stands for any other subclass of [Exception]. *)
Inductive exn : Type :=
| ValueError
| TypeError
| OverflowError
| KeyError
| AttributeError
| FloodWaitError (seconds : Z)
| ChannelPrivateError
| UsernameNotOccupiedError
| OtherError (msg : string).

(** A computation that returns or raises, with exceptions of type [E]. *)
Inductive result (E A : Type) : Type :=
| Ok (a : A)
| Raise (e : E).
Arguments Ok {E A} a.
Arguments Raise {E A} e.

#[global] Instance result_bind {E} : MBind (result E) :=
  fun A B (k : A -> result E B) (r : result E A) =>
    match r with
    | Ok a => k a
    | Raise e => Raise e
    end.

#[global] Instance result_ret {E} : MRet (result E) := fun A a => Ok a.

(** [for x in xs: acc = f(acc, x)], stopping at the first exception. *)
Fixpoint foldM {E A B} (f : A -> B -> result E A) (acc : A) (xs : list B)
  : result E A :=
  match xs with
  | [] => Ok acc
  | x :: xs' => acc' ← f acc x; foldM f acc' xs'
  end.

(** What [json.load] and [csv.DictReader] can put in a record: JSON values.
    Floats are IEEE values in the [spec_float] form (zero, infinity, NaN
    or sign, mantissa, exponent). *)
Inductive pyval : Type :=
| VNone
| VBool (b : bool)
| VInt (n : Z)
| VFloat (f : spec_float)
| VStr (s : string)
| VList (l : list pyval)
| VDict (d : gmap string pyval).

Definition is_dict (v : pyval) : bool :=
  match v with VDict _ => true | _ => false end.

Definition is_none (v : pyval) : bool :=
  match v with VNone => true | _ => false end.

(** Truth value of an object, as [if data:] tests it. *)
Definition truthy (v : pyval) : bool :=
  match v with
  | VNone => false
  | VBool b => b
  | VInt n => negb (n =? 0)
  | VFloat (S754_zero _) => false
  | VFloat _ => true
  | VStr s => negb (String.eqb s EmptyString)
  | VList l => match l with [] => false | _ => true end
  | VDict d => negb (bool_decide (d = ∅))
  end.

(** [o or d] for an optional string attribute: [None] and the empty
    string are falsy. *)
Definition str_or (o : option string) (d : string) : string :=
  match o with
  | Some s => if String.eqb s EmptyString then d else s
  | None => d
  end.

(** [o or 0] for an optional integer attribute. *)
Definition int_or (o : option Z) (d : Z) : Z :=
  match o with
  | Some n => if n =? 0 then d else n
  | None => d
  end.

(** *** [int(x)] *)

(** The whitespace [int] skips around the digits of an ASCII string. *)
Definition is_space (c : ascii) : bool :=
  let n := N_of_ascii c in
  (N.leb 9 n && N.leb n 13) || N.eqb n 32.

Definition digit_of (c : ascii) : option Z :=
  let n := Z.of_N (N_of_ascii c) in
  if (48 <=? n) && (n <=? 57) then Some (n - 48) else None.

Fixpoint drop_space (l : list ascii) : list ascii :=
  match l with
  | [] => []
  | c :: l' => if is_space c then drop_space l' else l
  end.

Definition strip (l : list ascii) : list ascii :=
  rev (drop_space (rev (drop_space l))).

(** Decimal digits, with single underscores allowed between two digits.
    Returns the value and the number of digits read. *)
Fixpoint parse_digits (acc : Z) (count : nat) (after_digit : bool)
         (l : list ascii) : option (Z * nat) :=
  match l with
  | [] => if after_digit then Some (acc, count) else None
  | c :: l' =>
      match digit_of c with
      | Some d => parse_digits (10 * acc + d) (S count) true l'
      | None =>
          if Ascii.eqb c "_"%char && after_digit
          then parse_digits acc count false l'
          else None
      end
  end.

Definition parse_signed (l : list ascii) : option (Z * nat) :=
  match l with
  | "-"%char :: l' =>
      match parse_digits 0 0%nat false l' with
      | Some (n, k) => Some (- n, k)
      | None => None
      end
  | "+"%char :: l' => parse_digits 0 0%nat false l'
  | _ => parse_digits 0 0%nat false l
  end.

Section IntConversion.

(** [sys.get_int_max_str_digits()]: the interpreter's bound on the number
    of digits [int] accepts in a string; [0] switches the bound off. *)
Variable int_max_str_digits : nat.

(** [int(s)] for an ASCII string, base 10; [None] is [ValueError].
    Digits and spaces outside ASCII are not part of this model. *)
Definition int_of_string (s : string) : option Z :=
  match parse_signed (strip (list_ascii_of_string s)) with
  | Some (n, k) =>
      if negb (Nat.eqb int_max_str_digits 0) && Nat.ltb int_max_str_digits k
      then None
      else Some n
  | None => None
  end.

(** [int(f)] for a float: truncation towards zero. *)
Definition int_of_float (f : spec_float) : result exn Z :=
  match f with
  | S754_zero _ => Ok 0
  | S754_infinity _ => Raise OverflowError
  | S754_nan => Raise ValueError
  | S754_finite s m e =>
      let a := Z.shiftl (Z.pos m) e in
      Ok (if s then - a else a)
  end.

Definition int (v : pyval) : result exn Z :=
  match v with
  | VNone => Raise TypeError
  | VBool b => Ok (if b then 1 else 0)
  | VInt n => Ok n
  | VFloat f => int_of_float f
  | VStr s =>
      match int_of_string s with
      | Some n => Ok n
      | None => Raise ValueError
      end
  | VList _ => Raise TypeError
  | VDict _ => Raise TypeError
  end.

End IntConversion.

(** [s.endswith(suffix)] *)
Definition endswith (s suffix : string) : bool :=
  let n := String.length s in
  let k := String.length suffix in
  Nat.leb k n && String.eqb (String.substring (n - k) k s) suffix.

(** [s.endswith((a, b, ...))] *)
Definition endswith_any (s : string) (suffixes : list string) : bool :=
  existsb (endswith s) suffixes.

(** [len(x)] *)
Definition len (v : pyval) : result exn Z :=
  match v with
  | VStr s => Ok (Z.of_nat (String.length s))
  | VList l => Ok (Z.of_nat (length l))
  | VDict d => Ok (Z.of_nat (size d))
  | _ => Raise TypeError
  end.

End Py.

Import Py.

(** ** scripts/load_raw_to_postgres.py *)

Module Loader.

(** Rename table of [normalize_record], in iteration order. *)
Definition mapping : list (string * string) :=
  [ ("text", "message_text");
    ("file_path", "media_file");
    ("date", "message_date");
    ("url", "message_url") ].

Definition required_keys : list string :=
  [ "message_id"; "channel_id"; "channel_username"; "channel_title";
    "message_date"; "message_text"; "views"; "forwards"; "replies";
    "media_type"; "media_file"; "message_url"; "scraped_at" ].

Definition int_fields : list string :=
  [ "views"; "forwards"; "replies"; "channel_id"; "message_id" ].

Definition ts_fields : list string := [ "message_date"; "scraped_at" ].

(** [if k in record: record[v] = record.pop(k)] *)
Definition rename_key (record : gmap string pyval) (kv : string * string)
  : gmap string pyval :=
  match record !! kv.1 with
  | Some x => <[kv.2 := x]> (delete kv.1 record)
  | None => record
  end.

(** [if key not in record or record[key] is None: record[key] = None] *)
Definition ensure_key (record : gmap string pyval) (key : string)
  : gmap string pyval :=
  match record !! key with
  | None => <[key := VNone]> record
  | Some v => if is_none v then <[key := VNone]> record else record
  end.

(** [if record[ts_field] == '': record[ts_field] = None] *)
Definition blank_to_none (record : gmap string pyval) (ts_field : string)
  : result exn (gmap string pyval) :=
  match record !! ts_field with
  | None => Raise KeyError
  | Some (VStr s) =>
      Ok (if String.eqb s EmptyString then <[ts_field := VNone]> record else record)
  | Some _ => Ok record
  end.

Section Normalizer.

Variable int_max_str_digits : nat.

(** The body of the loop over the numeric fields: [int(...)] guarded by
    [except (ValueError, TypeError)]. *)
Definition convert_int (record : gmap string pyval) (int_field : string)
  : result exn (gmap string pyval) :=
  match record !! int_field with
  | None => Raise KeyError
  | Some v =>
      if is_none v then Ok (<[int_field := VInt 0]> record)
      else
        match int int_max_str_digits v with
        | Ok n => Ok (<[int_field := VInt n]> record)
        | Raise ValueError => Ok (<[int_field := VInt 0]> record)
        | Raise TypeError => Ok (<[int_field := VInt 0]> record)
        | Raise e => Raise e
        end
  end.

Definition normalize_dict (record : gmap string pyval)
  : result exn (gmap string pyval) :=
  let record := fold_left rename_key mapping record in
  let record := fold_left ensure_key required_keys record in
  record ← foldM convert_int record int_fields;
  foldM blank_to_none record ts_fields.

Definition normalize_record (record : pyval) : result exn pyval :=
  match record with
  | VDict d => d' ← normalize_dict d; Ok (VDict d')
  | _ => Ok (VDict ∅)
  end.

End Normalizer.

(** *** The warehouse table [raw.telegram_messages] *)

(** One row: the thirteen columns of the [INSERT], in its order.  The
    table's definition is not part of the sources; the five numeric columns
    are integer columns, the others hold whatever value they are given. *)
Record row : Type := Row {
  message_id : Z;
  channel_id : Z;
  channel_username : pyval;
  channel_title : pyval;
  message_date : pyval;
  message_text : pyval;
  views : Z;
  forwards : Z;
  replies : Z;
  media_type : pyval;
  media_file : pyval;
  message_url : pyval;
  scraped_at : pyval
}.

(** What an [INSERT] does with a row whose key is already there. *)
Inductive on_conflict : Type :=
| NoConflictClause
| DoNothing.

(** The statement [SQL]: thirteen named parameters and
    [ON CONFLICT (message_id) DO NOTHING]. *)
Definition SQL : on_conflict := DoNothing.

(** A named parameter [%(key)s]: the record must have the key. *)
Definition param (record : gmap string pyval) (key : string)
  : result exn pyval :=
  match record !! key with
  | Some v => Ok v
  | None => Raise KeyError
  end.

(** A parameter bound to an integer column. *)
Definition int_param (record : gmap string pyval) (key : string)
  : result exn Z :=
  v ← param record key;
  match v with
  | VInt n => Ok n
  | _ => Raise (OtherError "psycopg2.Error")
  end.

Definition bind_params (record : gmap string pyval) : result exn row :=
  c1 ← int_param record "message_id";
  c2 ← int_param record "channel_id";
  c3 ← param record "channel_username";
  c4 ← param record "channel_title";
  c5 ← param record "message_date";
  c6 ← param record "message_text";
  c7 ← int_param record "views";
  c8 ← int_param record "forwards";
  c9 ← int_param record "replies";
  c10 ← param record "media_type";
  c11 ← param record "media_file";
  c12 ← param record "message_url";
  c13 ← param record "scraped_at";
  Ok (Row c1 c2 c3 c4 c5 c6 c7 c8 c9 c10 c11 c12 c13).

(** Is there a committed row with this [message_id]? *)
Definition has_key (table : list row) (key : Z) : bool :=
  existsb (fun r => message_id r =? key) table.

(** One [INSERT] into a table whose [message_id] column is unique. *)
Definition insert (oc : on_conflict) (table : list row) (r : row)
  : result exn (list row) :=
  if has_key table (message_id r) then
    match oc with
    | DoNothing => Ok table
    | NoConflictClause => Raise (OtherError "psycopg2.errors.UniqueViolation")
    end
  else Ok (table ++ [r]).

(** [execute_batch(cur, sql, records, page_size)]: the statement is run
    once per record, in order; pages only group the round trips. *)
Definition execute_batch (sql : on_conflict) (table : list row)
           (records : list (gmap string pyval)) : result exn (list row) :=
  foldM (fun t record => r ← bind_params record; insert sql t r)
        table records.

(** *** Reading the input files *)

(** A file under [DATA_PATH]: its name, what [json.load] makes of it and
    the rows [csv.DictReader] reads from it. *)
Record file : Type := File {
  file_name : string;
  json_data : result exn pyval;
  csv_rows : result exn (list (gmap string pyval))
}.

Section Main.

Variable int_max_str_digits : nat.

(** The loop of [load_json] over the parsed document. *)
Fixpoint normalize_items (items : list pyval)
  : result exn (list (gmap string pyval)) :=
  match items with
  | [] => Ok []
  | VDict d :: items' =>
      r ← normalize_dict int_max_str_digits d;
      rs ← normalize_items items';
      Ok (r :: rs)
  | _ :: items' => normalize_items items'
  end.

Definition load_json (f : file) : result exn (list (gmap string pyval)) :=
  data ← json_data f;
  match data with
  | VDict d => normalize_items [VDict d]
  | VList l => normalize_items l
  | VStr _ => Ok []
  | _ => Raise TypeError
  end.

Fixpoint normalize_rows (rows : list (gmap string pyval))
  : result exn (list (gmap string pyval)) :=
  match rows with
  | [] => Ok []
  | d :: rows' =>
      r ← normalize_dict int_max_str_digits d;
      rs ← normalize_rows rows';
      Ok (r :: rs)
  end.

Definition load_csv (f : file) : result exn (list (gmap string pyval)) :=
  rows ← csv_rows f;
  normalize_rows rows.

Fixpoint load_records (files : list file)
  : result exn (list (gmap string pyval)) :=
  match files with
  | [] => Ok []
  | f :: files' =>
      here ← (if endswith (file_name f) ".json" then load_json f
              else if endswith (file_name f) ".csv" then load_csv f
              else Ok []);
      rest ← load_records files';
      Ok (here ++ rest)
  end.

(** What [main] prints last. *)
Inductive report : Type :=
| NoRecordsFound
| LoadedMessages (n : nat).

(** [main()]: the files found, whether the database accepts the
    connection, and the committed table before the run; returns the
    committed table after the run and the report. *)
Definition main (files : list file) (db_up : bool) (table : list row)
  : result exn (list row * report) :=
  records ← load_records files;
  match records with
  | [] => Ok (table, NoRecordsFound)
  | _ =>
      if db_up then
        table' ← execute_batch SQL table records;
        Ok (table', LoadedMessages (length records))
      else Raise (OtherError "psycopg2.OperationalError")
  end.

End Main.

End Loader.

(** ** src/datalake.py *)

Module Datalake.

(** [os.path.join(a, b)] on a POSIX system. *)
Definition join2 (a b : string) : string :=
  if String.prefix "/" b then b
  else if String.eqb a EmptyString || endswith a "/" then a +:+ b
  else a +:+ "/" +:+ b.

(** [os.path.join(a, *parts)] *)
Definition path_join (a : string) (parts : list string) : string :=
  fold_left join2 parts a.

(** The part of the disk the writer touches: the directories that exist
    and the JSON document each file holds.  Writes are taken to succeed. *)
Record disk : Type := Disk {
  dirs : gset string;
  files : gmap string pyval
}.

(** [os.makedirs(path, exist_ok=True)] *)
Definition ensure_dir (path : string) (d : disk) : disk :=
  {| dirs := {[ path ]} ∪ dirs d; files := files d |}.

Definition raw_partition_dir (base_path date_str : string) : string :=
  path_join base_path [ "raw"; "telegram_messages"; date_str ].

Definition processed_partition_dir (base_path date_str : string) : string :=
  path_join base_path [ "processed"; "telegram_messages"; date_str ].

(** [sum(channel_message_counts.values())] *)
Definition sum_values (counts : gmap string Z) : Z :=
  map_fold (fun _ v acc => acc + v) 0 counts.

(** [payload.update(extra)] when [extra] is given and not empty. *)
Definition update_with (extra : option (gmap string pyval))
           (payload : gmap string pyval) : gmap string pyval :=
  match extra with
  | Some e => if bool_decide (e = ∅) then payload else e ∪ payload
  | None => payload
  end.

(** The dictionary [write_manifest] serializes; [run_utc] is the clock
    reading [datetime.now(timezone.utc).isoformat()]. *)
Definition manifest_payload (date_str run_utc : string)
           (channel_message_counts : gmap string Z)
           (extra : option (gmap string pyval)) : gmap string pyval :=
  let payload : gmap string pyval :=
    <[ "date" := VStr date_str ]>
      (<[ "run_utc" := VStr run_utc ]>
         (<[ "channels" := VDict (VInt <$> channel_message_counts) ]>
            (<[ "total_messages" := VInt (sum_values channel_message_counts) ]>
               ∅))) in
  update_with extra payload.

(** [write_manifest(base_path=..., date_str=..., channel_message_counts=...,
    extra=...)]: the disk afterwards and the path returned. *)
Definition write_manifest (base_path date_str : string)
           (channel_message_counts : gmap string Z)
           (extra : option (gmap string pyval))
           (run_utc : string) (d : disk) : disk * string :=
  let d := ensure_dir (raw_partition_dir base_path date_str) d in
  let payload :=
    manifest_payload date_str run_utc channel_message_counts extra in
  let path :=
    path_join (raw_partition_dir base_path date_str) [ "_manifest.json" ] in
  ({| dirs := dirs d; files := <[ path := VDict payload ]> (files d) |}, path).

End Datalake.

(** ** src/scraper.py *)

Module Scraper.

Definition SCRAPE_LIMIT : nat := 200.
Definition MESSAGE_DELAY : Q := 1 # 2.
Definition CHANNEL_DELAY : Q := 3 # 1.

Inductive MediaType : Type := PHOTO | VIDEO | AUDIO | DOCUMENT | OTHER.

Definition MediaType_value (m : MediaType) : string :=
  match m with
  | PHOTO => "photo"
  | VIDEO => "video"
  | AUDIO => "audio"
  | DOCUMENT => "document"
  | OTHER => "other"
  end.

Record TelegramMessage : Type := {
  message_id : Z;
  channel_id : Z;
  channel_username : string;
  channel_title : string;
  date : string;
  text : string;
  views : Z;
  forwards : Z;
  replies : Z;
  edit_date : option string;
  media_type : option string;
  file_path : option string;
  url : string;
  scraped_at : string
}.

(** *** What the upstream client hands to the scraper *)

Inductive attribute : Type :=
| DocumentAttributeFilename (file_name : string)
| DocumentAttributeOther.

(** [msg.media]: nothing, a photo, a document (whose [document] can be
    missing) or any other kind of media. *)
Inductive media : Type :=
| NoMedia
| MessageMediaPhoto
| MessageMediaDocument (document : option (list attribute))
| MessageMediaOther.

(** [message.replies]: reading it fails, it is [None], or it is an object
    with a [replies] count. *)
Inductive replies_attr : Type :=
| RepliesFails
| RepliesNone
| RepliesObject (count : Z).

(** A post; [post_date] and [post_edit_date] are the [isoformat()] of the
    respective timestamps. *)
Record post : Type := Post {
  post_id : Z;
  post_media : media;
  post_date : option string;
  post_text : option string;
  post_views : option Z;
  post_forwards : option Z;
  post_replies : replies_attr;
  post_edit_date : option string
}.

Record entity : Type := Entity {
  entity_id : Z;
  entity_username : option string;
  entity_title : option string
}.

(** One step of [client.iter_messages]: it yields a post, together with
    the reading of [datetime.now().isoformat()] while that post is handled,
    or the request behind it raises.  The end of the list is the end of the
    channel.  Steps listed after a raising one are what the channel still
    holds at that point. *)
Inductive iter_step : Type :=
| Yield (msg : post) (clock : string)
| IterRaise (e : exn).

Record client : Type := Client {
  get_entity : string -> result exn entity;
  iter_messages : entity -> list iter_step;
  client_download_media : post -> string -> result exn (option string)
}.

(** *** Helpers *)

Definition invalid : list ascii :=
  list_ascii_of_string "<>:" ++ [ "034"%char ] ++ list_ascii_of_string "/\|?*".

Definition sanitize_char (c : ascii) : ascii :=
  if existsb (Ascii.eqb c) invalid then "_"%char else c.

(** [sanitize_filename]: every invalid character becomes an underscore
    and the result is cut to 200 characters. *)
Definition sanitize_filename (name : string) : string :=
  string_of_list_ascii
    (firstn 200 (map sanitize_char (list_ascii_of_string name))).

Definition extract_replies (message : post) : Z :=
  match post_replies message with
  | RepliesObject count => count
  | RepliesNone => 0
  | RepliesFails => 0
  end.

(** [str.lower] on ASCII letters. *)
Definition lower_char (c : ascii) : ascii :=
  let n := N_of_ascii c in
  if N.leb 65 n && N.leb n 90 then ascii_of_N (n + 32) else c.

Definition lower (s : string) : string :=
  string_of_list_ascii (map lower_char (list_ascii_of_string s)).

(** The loop of [detect_media_type] over a document's attributes. *)
Fixpoint classify (attributes : list attribute) : MediaType :=
  match attributes with
  | [] => DOCUMENT
  | DocumentAttributeFilename file_name :: rest =>
      let name := lower file_name in
      if endswith_any name [ ".mp4"; ".mkv" ] then VIDEO
      else if endswith_any name [ ".mp3"; ".wav" ] then AUDIO
      else classify rest
  | DocumentAttributeOther :: rest => classify rest
  end.

Definition detect_media_type (m : media) : result exn (option MediaType) :=
  match m with
  | MessageMediaPhoto => Ok (Some PHOTO)
  | MessageMediaDocument (Some attributes) => Ok (Some (classify attributes))
  | MessageMediaDocument None => Raise AttributeError
  | NoMedia => Ok None
  | MessageMediaOther => Ok None
  end.

Definition download_media (c : client) (message : post) (out_dir : string)
  : option string :=
  match post_media message with
  | NoMedia => None
  | _ =>
      match client_download_media c message out_dir with
      | Ok path => path
      | Raise _ => None
      end
  end.

(** *** Scraping one channel *)

(** The body of the [try] inside the loop: the record built for one post.
    It raises when [detect_media_type] does. *)
Definition build_message (c : client) (channel : string) (e : entity)
           (image_dir : string) (msg : post) (clock : string)
  : result exn TelegramMessage :=
  mt ← detect_media_type (post_media msg);
  let path :=
    match mt with
    | Some _ => download_media c msg image_dir
    | None => None
    end in
  Ok {| message_id := post_id msg;
        channel_id := entity_id e;
        channel_username := str_or (entity_username e) channel;
        channel_title := str_or (entity_title e) EmptyString;
        date := default EmptyString (post_date msg);
        text := str_or (post_text msg) EmptyString;
        views := int_or (post_views msg) 0;
        forwards := int_or (post_forwards msg) 0;
        replies := extract_replies msg;
        edit_date := post_edit_date msg;
        media_type := MediaType_value <$> mt;
        file_path := path;
        url := match entity_username e with
               | Some u =>
                   if String.eqb u EmptyString then EmptyString
                   else "https://t.me/" +:+ u +:+ "/" +:+ pretty (post_id msg)
               | None => EmptyString
               end;
        scraped_at := clock |}.

(** What the coroutine has done so far: the messages appended to
    [messages] and the durations it has slept, oldest first. *)
Record progress : Type := Progress {
  messages : list TelegramMessage;
  sleeps : list Q
}.

(** [async for msg in client.iter_messages(entity, limit=limit)]: the
    progress when the loop is left and the exception that leaves it, if
    one does.  A post whose record cannot be built is logged and skipped. *)
Fixpoint enumerate (c : client) (channel : string) (e : entity)
         (image_dir : string) (limit : nat) (steps : list iter_step)
         (p : progress) : progress * option exn :=
  match limit, steps with
  | O, _ => (p, None)
  | _, [] => (p, None)
  | _, IterRaise err :: _ => (p, Some err)
  | S limit', Yield msg clock :: steps' =>
      match build_message c channel e image_dir msg clock with
      | Ok message =>
          enumerate c channel e image_dir limit' steps'
            {| messages := messages p ++ [ message ];
               sleeps := sleeps p ++ [ MESSAGE_DELAY ] |}
      | Raise _ => enumerate c channel e image_dir limit' steps' p
      end
  end.

(** The two [except] clauses of [scrape_channel], then [return messages]. *)
Definition handle (err : exn) (p : progress)
  : list Q * result exn (list TelegramMessage) :=
  match err with
  | FloodWaitError seconds =>
      (sleeps p ++ [ inject_Z seconds ], Ok (messages p))
  | ChannelPrivateError => (sleeps p, Ok (messages p))
  | UsernameNotOccupiedError => (sleeps p, Ok (messages p))
  | _ => (sleeps p, Raise err)
  end.

(** [scrape_channel(client, channel, base_path)]: the durations slept, in
    order, and the list returned or the exception that escapes. *)
Definition scrape_channel (c : client) (channel base_path : string)
  : list Q * result exn (list TelegramMessage) :=
  let start := {| messages := []; sleeps := [] |} in
  match get_entity c channel with
  | Raise err => handle err start
  | Ok e =>
      let image_dir :=
        Datalake.path_join base_path
          [ "raw"; "images"; sanitize_filename channel ] in
      match enumerate c channel e image_dir SCRAPE_LIMIT
                      (iter_messages c e) start with
      | (p, None) => (sleeps p, Ok (messages p))
      | (p, Some err) => handle err p
      end
  end.

End Scraper.

(** ** dagster_pipeline/pipeline.py *)

Module Pipeline.

(** A stage summary is a dictionary; an exception is identified by its
    message [str(e)], since no handler of this module looks at its class. *)
Abbreviation summary := (gmap string pyval).
Abbreviation error := string.

(** [try: body except Exception as e: handler(e)] *)
Definition catch {A} (body : result error A) (handler : error -> result error A)
  : result error A :=
  match body with
  | Ok a => Ok a
  | Raise e => handler e
  end.

(** [d.get(key, default)] *)
Definition get (d : summary) (key : string) (dflt : pyval) : pyval :=
  default dflt (d !! key).

(** [d[key]] *)
Definition item (d : summary) (key : string) : result error pyval :=
  match d !! key with
  | Some v => Ok v
  | None => Raise ("KeyError: " +:+ key)
  end.

(** [v == 0] *)
Definition eq_zero (v : pyval) : bool :=
  match v with
  | VInt n => n =? 0
  | VBool b => negb b
  | VFloat (S754_zero _) => true
  | _ => false
  end.

(** [str(cmd)] for a list of strings without quotes or escapes in them. *)
Definition repr_list (cmd : list string) : string :=
  "[" +:+ String.concat ", " (map (fun s => "'" +:+ s +:+ "'") cmd) +:+ "]".

(** [try: body finally: cleanup]: the cleanup runs whatever the body did,
    and an exception it raises takes the place of the body's outcome, be
    that a returned value or an exception. *)
Definition try_finally {A} (body : result error A) (cleanup : result error unit)
  : result error A :=
  match cleanup with
  | Ok _ => body
  | Raise e => Raise e
  end.

(** *** What the ops observe *)

Record scrape_world : Type := ScrapeWorld {
  getenv : string -> option string;
  scraper_run : result error unit;
  raw_dir_exists : bool;
  raw_dir_rglob_json : list string
}.

(** The Load stage sees the files under the output directory, the database
    connection and the [DataLoader] built on it, whose class is imported
    from outside this module; [L] is the state behind the loader. *)
Record load_world (L : Type) : Type := LoadWorld {
  rglob_json : string -> list string;
  get_connection : result error L;
  read_json : string -> result error pyval;
  load_to_raw : L -> pyval -> L * result error Z
}.
Arguments rglob_json {L}.
Arguments get_connection {L}.
Arguments read_json {L}.
Arguments load_to_raw {L}.

(** The Transform stage reads the working directory before its [try],
    changes it at the head of the [try], runs the commands, and changes it
    back in the [finally] clause; the two calls of [os.chdir] are apart in
    time and each has its own answer. *)
Record dbt_world : Type := DbtWorld {
  getcwd : result error string;
  chdir : string -> result error unit;
  subprocess_run : list string -> result error Z;
  chdir_back : string -> result error unit
}.

(** The data frame of detections, as far as the Enrich stage reads it. *)
Record dataframe : Type := DataFrame {
  df_len : Z;
  df_columns : option (list string);
  df_value_counts : string -> gmap string pyval;
  df_head : nat -> pyval
}.

Record yolo_world : Type := YoloWorld {
  images_dir_exists : bool;
  process_directory : string -> result error dataframe;
  save_results : result error unit;
  load_yolo_results : dataframe -> result error unit;
  dbt_run_select : result error Z
}.

(** What the Load stage did with the files, in order. *)
Inductive load_event : Type :=
| Open (json_file : string)
| LoadToRaw (json_file : string).

Section Ops.

(** The flags set by the guarded imports at the top of the module, the
    project root and the interpreter's digit bound for [int]. *)
Variables HAS_SCRAPER HAS_LOADER HAS_YOLO : bool.
Variable PROJECT_ROOT : string.
Variable int_max_str_digits : nat.

(** **** Scrape *)

Definition scrape_telegram_data (w : scrape_world) : result error summary :=
  if negb HAS_SCRAPER then
    Raise "TelegramScraper module not found. Check your src/ directory."
  else
    api_id ← match getenv w "Tg_API_ID" with
             | None => Raise "int() argument must be a string, a bytes-like object or a real number, not 'NoneType'"
             | Some s =>
                 match int_of_string int_max_str_digits s with
                 | Some n => Ok n
                 | None => Raise ("invalid literal for int() with base 10: '" +:+ s +:+ "'")
                 end
             end;
    let api_hash := getenv w "Tg_API_HASH" in
    if (api_id =? 0) || String.eqb (default EmptyString api_hash) EmptyString then
      Raise "Tg_API_ID and Tg_API_HASH must be set in environment"
    else
      _ ← scraper_run w;
      let raw_dir :=
        Datalake.path_join PROJECT_ROOT [ "data"; "raw"; "telegram_messages" ] in
      if raw_dir_exists w then
        let json_files := raw_dir_rglob_json w in
        Ok (<[ "scraped_files" := VInt (Z.of_nat (length json_files)) ]>
              (<[ "output_dir" := VStr raw_dir ]>
                 (<[ "file_list" := VList (VStr <$> firstn 10 json_files) ]> ∅)))
      else
        Ok (<[ "scraped_files" := VInt 0 ]>
              (<[ "output_dir" := VNone ]>
                 (<[ "file_list" := VList [] ]> ∅))).

(** **** Load *)

Section Load.

Context {L : Type}.
Variable w : load_world L.

(** The body of the loop over the files: the loader's state, the
    running total and the events so far. *)
Definition load_file (st : L * Z * list load_event) (json_file : string)
  : L * Z * list load_event :=
  let '(loader, total_records, events) := st in
  match read_json w json_file with
  | Raise _ => (loader, total_records, events ++ [ Open json_file ])
  | Ok data =>
      if truthy data then
        match load_to_raw w loader data with
        | (loader', Ok records) =>
            (loader', total_records + records,
             events ++ [ Open json_file; LoadToRaw json_file ])
        | (loader', Raise _) =>
            (loader', total_records,
             events ++ [ Open json_file; LoadToRaw json_file ])
        end
      else (loader, total_records, events ++ [ Open json_file ])
  end.

(** [load_raw_to_postgres(context, scrape_result)]: the summary
    returned or the exception raised, and what was done to the files. *)
Definition load_raw_to_postgres (scrape_result : summary)
  : result error summary * list load_event :=
  if negb HAS_LOADER then
    (Ok (<[ "loaded_records" := VInt 0 ]> (<[ "status" := VStr "skipped" ]> ∅)), [])
  else
    match item scrape_result "scraped_files" with
    | Raise e => (Raise e, [])
    | Ok scraped_files =>
        if eq_zero scraped_files then
          (Ok (<[ "loaded_records" := VInt 0 ]> (<[ "status" := VStr "no_files" ]> ∅)), [])
        else
          match item scrape_result "output_dir" with
          | Raise e => (Raise e, [])
          | Ok (VStr raw_dir) =>
              let json_files := rglob_json w raw_dir in
              match get_connection w with
              | Raise e => (Raise e, [])
              | Ok loader =>
                  let '(_, total_records, events) :=
                    fold_left load_file (firstn 50 json_files) (loader, 0, []) in
                  (Ok (<[ "loaded_records" := VInt total_records ]>
                         (<[ "status" := VStr "success" ]> ∅)), events)
              end
          | Ok _ =>
              (Raise "expected str, bytes or os.PathLike object", [])
          end
    end.

End Load.

(** **** Transform *)

Definition commands : list (list string) :=
  [ [ "dbt"; "run" ]; [ "dbt"; "test" ]; [ "dbt"; "docs"; "generate" ] ].

(** The loop over the dbt commands. *)
Fixpoint run_commands (w : dbt_world) (cmds : list (list string))
  : result error unit :=
  match cmds with
  | [] => Ok ()
  | cmd :: rest =>
      returncode ← subprocess_run w cmd;
      if negb (returncode =? 0) then
        match cmd !! 1%nat with
        | None => Raise "list index out of range"
        | Some sub =>
            if String.eqb sub "test" then run_commands w rest
            else Raise ("dbt command failed: " +:+ repr_list cmd)
        end
      else run_commands w rest
  end.

(** [run_dbt_transformations(context, load_result)]: [os.getcwd()] is
    called before the [try], so an exception of it leaves the op; the
    [try] has a handler for every [Exception], and [os.chdir(original_dir)]
    is in its [finally] clause, so an exception of it leaves the op too. *)
Definition run_dbt_transformations (w : dbt_world) (load_result : summary)
  : result error summary :=
  let dbt_project_dir := Datalake.path_join PROJECT_ROOT [ "medical_warehouse" ] in
  original_dir ← getcwd w;
  try_finally
    (catch
       (_ ← chdir w dbt_project_dir;
        _ ← run_commands w commands;
        Ok (<[ "dbt_status" := VStr "success" ]>
              (<[ "loaded_records" := get load_result "loaded_records" (VInt 0) ]>
                 (<[ "tests_passed" := VBool true ]> ∅))))
       (fun e =>
          Ok (<[ "dbt_status" := VStr "failed" ]>
                (<[ "loaded_records" := get load_result "loaded_records" (VInt 0) ]>
                   (<[ "error" := VStr e ]>
                      (<[ "tests_passed" := VBool false ]> ∅))))))
    (chdir_back w original_dir).

(** **** Enrich *)

Definition skipped (reason : string) : summary :=
  <[ "detected_images" := VInt 0 ]>
    (<[ "yolo_status" := VStr "skipped" ]>
       (<[ "category_counts" := VDict ∅ ]>
          (<[ "error" := VStr reason ]> ∅))).

(** The [if len(results_df) > 0 and hasattr(results_df, 'columns')]
    block. *)
Definition count_categories (results_df : dataframe) : gmap string pyval :=
  if 0 <? df_len results_df then
    match df_columns results_df with
    | Some columns =>
        if existsb (String.eqb "image_category") columns
        then df_value_counts results_df "image_category"
        else if existsb (String.eqb "category") columns
        then df_value_counts results_df "category"
        else ∅
    | None => ∅
    end
  else ∅.

Definition run_yolo_enrichment (w : yolo_world) (dbt_result : summary)
  : result error summary :=
  if negb HAS_YOLO then Ok (skipped "Module not found")
  else
    let images_dir := Datalake.path_join PROJECT_ROOT [ "data"; "raw"; "images" ] in
    if negb (images_dir_exists w) then Ok (skipped "Images directory not found")
    else
      catch
        (results_df ← process_directory w images_dir;
         _ ← save_results w;
         _ ← (if HAS_LOADER then
                _ ← load_yolo_results w results_df;
                _ ← dbt_run_select w;
                Ok ()
              else Ok ());
         Ok (<[ "detected_images" := VInt (df_len results_df) ]>
               (<[ "yolo_status" := VStr "success" ]>
                  (<[ "category_counts" := VDict (count_categories results_df) ]>
                     (<[ "sample_results" :=
                           (if 0 <? df_len results_df
                            then df_head results_df 3%nat
                            else VList []) ]> ∅)))))
        (fun e =>
           Ok (<[ "detected_images" := VInt 0 ]>
                 (<[ "yolo_status" := VStr "failed" ]>
                    (<[ "category_counts" := VDict ∅ ]>
                       (<[ "error" := VStr e ]> ∅))))).

(** **** Publish *)

Definition endpoints : list string :=
  [ "GET /api/reports/top-products";
    "GET /api/channels/{channel_name}/activity";
    "GET /api/search/messages";
    "GET /api/reports/visual-content" ].

Definition start_fastapi (yolo_result : summary) : result error summary :=
  Ok (<[ "api_status" := VStr "ready" ]>
        (<[ "endpoints" := VList (VStr <$> endpoints) ]>
           (<[ "total_processed" := get yolo_result "detected_images" (VInt 0) ]>
              (<[ "category_counts" := get yolo_result "category_counts" (VDict ∅) ]>
                 (<[ "yolo_status" := get yolo_result "yolo_status" (VStr "unknown") ]>
                    ∅))))).

(** **** The jobs *)

(** The three jobs of the module ([medical_telegram_pipeline],
    [daily_scrape_job], [analysis_job]) are composition functions handed to
    [@job]; each body ends in a [return] of an op's output.  What becomes of
    them is decided by [@job], which is no part of this module: they are
    not modelled, and every statement below is about the ops. *)

End Ops.

End Pipeline.

(** * Reference values and sample inputs *)

Module Samples.

Import Loader.

(** What the loop over the numeric fields stores for a value that is
    present: zero for [None] and for a value [int] rejects. *)
Definition int_or_zero (mx : nat) (v : pyval) : Z :=
  if is_none v then 0
  else match int mx v with
       | Ok n => n
       | Raise _ => 0
       end.

(** The five numeric fields hold integers that are not negative. *)
Definition non_negative_ints (r : gmap string pyval) : Prop :=
  ∀ f, f ∈ int_fields → ∃ n, r !! f = Some (VInt n) ∧ 0 ≤ n.

(** No numeric field holds an infinite float. *)
Definition no_infinite_ints (d : gmap string pyval) : Prop :=
  ∀ f s, f ∈ int_fields → d !! f ≠ Some (VFloat (S754_infinity s)).

(** Membership in a list given in full. *)
Ltac in_list := apply (bool_decide_unpack _); by vm_compute.

(** The interpreter's default for [sys.get_int_max_str_digits()]. *)
Definition default_max_str_digits : nat := 4300%nat.

(** [{"views": -5}] *)
Definition negative_views : gmap string pyval := {[ "views" := VInt (-5) ]}.

(** [{"views": "abc"}] *)
Definition unparsable_views : gmap string pyval := {[ "views" := VStr "abc" ]}.

(** A record is normalized when [normalize_record] returns it for some
    mapping. *)
Definition normalized (mx : nat) (r : gmap string pyval) : Prop :=
  ∃ d, normalize_dict mx d = Ok r.

(** The key a record is inserted under. *)
Definition record_id (r : gmap string pyval) : pyval :=
  default VNone (r !! "message_id").

(** Rows a run added to the table. *)
Definition inserted (before after : list row) : nat :=
  (length after - length before)%nat.

(** C5 as stated, for one run of [main]: the number reported is the number
    of rows added. *)
Definition reports_inserted (before : list row)
           (outcome : result exn (list row * report)) : Prop :=
  match outcome with
  | Ok (after, LoadedMessages n) => n = inserted before after
  | _ => True
  end.

(** What [normalize_record] makes of the empty mapping. *)
Definition blank_record : gmap string pyval :=
  match normalize_dict default_max_str_digits ∅ with
  | Ok r => r
  | Raise _ => ∅
  end.

(** A JSON file holding [[{}, {}]]. *)
Definition two_blank_records : file :=
  {| file_name := "channel.json";
     json_data := Ok (VList [ VDict ∅; VDict ∅ ]);
     csv_rows := Ok [] |}.

(** [{"A": 3, "B": 0, "C": 7}] *)
Definition counts_abc : gmap string Z :=
  <[ "A" := 3 ]> (<[ "B" := 0 ]> (<[ "C" := 7 ]> ∅)).

(** [{"total_messages": 0}], given as [extra]. *)
Definition extra_total : gmap string pyval := {[ "total_messages" := VInt 0 ]}.

Definition empty_disk : Datalake.disk :=
  {| Datalake.dirs := ∅; Datalake.files := ∅ |}.

(** C7 as stated, for the document found at the manifest's path: its
    [total_messages] is the sum of the counts and its [channels] is the
    mapping of the counts. *)
Definition manifest_correct (counts : gmap string Z) (written : option pyval)
  : Prop :=
  ∃ payload : gmap string pyval,
    written = Some (VDict payload)
    ∧ payload !! "total_messages" = Some (VInt (Datalake.sum_values counts))
    ∧ payload !! "channels" = Some (VDict (VInt <$> counts)).

(** [extra] does not carry a key of its own for the two fields. *)
Definition keeps_totals (extra : option (gmap string pyval)) : Prop :=
  ∀ e, extra = Some e → e !! "total_messages" = None ∧ e !! "channels" = None.

(** An optional string attribute that is [None] or empty. *)
Definition missing (o : option string) : Prop :=
  o = None ∨ o = Some EmptyString.

(** An entity without a username and without a title. *)
Definition bare_entity : Scraper.entity :=
  {| Scraper.entity_id := 42;
     Scraper.entity_username := None;
     Scraper.entity_title := None |}.

Definition post_one : Scraper.post :=
  {| Scraper.post_id := 1;
     Scraper.post_media := Scraper.NoMedia;
     Scraper.post_date := Some "2026-01-16T10:00:00+00:00";
     Scraper.post_text := None;
     Scraper.post_views := Some 10;
     Scraper.post_forwards := None;
     Scraper.post_replies := Scraper.RepliesFails;
     Scraper.post_edit_date := None |}.

Definition post_two : Scraper.post :=
  {| Scraper.post_id := 2;
     Scraper.post_media := Scraper.NoMedia;
     Scraper.post_date := Some "2026-01-16T09:00:00+00:00";
     Scraper.post_text := Some "second";
     Scraper.post_views := None;
     Scraper.post_forwards := None;
     Scraper.post_replies := Scraper.RepliesNone;
     Scraper.post_edit_date := None |}.

(** A client whose channel yields one post, then signals a wait of five
    seconds, and still holds a second post. *)
Definition throttled_client : Scraper.client :=
  {| Scraper.get_entity := fun _ => Ok bare_entity;
     Scraper.iter_messages := fun _ =>
       [ Scraper.Yield post_one "2026-01-16T12:00:00";
         Scraper.IterRaise (FloodWaitError 5);
         Scraper.Yield post_two "2026-01-16T12:00:06" ];
     Scraper.client_download_media := fun _ _ => Ok None |}.

(** C8 as stated, for one emitted message. *)
Definition claimed_defaults (channel : string) (e : Scraper.entity)
           (msg : Scraper.post) (m : Scraper.TelegramMessage) : Prop :=
  (missing (Scraper.entity_username e) → Scraper.channel_username m = channel)
  ∧ (missing (Scraper.entity_title e) → Scraper.channel_title m = channel)
  ∧ (Scraper.post_replies msg = Scraper.RepliesFails → Scraper.replies m = 0)
  ∧ (missing (Scraper.post_text msg) → Scraper.text m = EmptyString).

(** C3 as stated, as far as resuming goes: when the channel holds a post
    right after a wait signal, that post has its message in what is
    returned. *)
Definition resumes (c : Scraper.client) (channel base_path : string) : Prop :=
  ∀ e before seconds msg clock rest,
    Scraper.get_entity c channel = Ok e →
    Scraper.iter_messages c e
    = before ++ Scraper.IterRaise (FloodWaitError seconds)
             :: Scraper.Yield msg clock :: rest →
    ∃ msgs m,
      (Scraper.scrape_channel c channel base_path).2 = Ok msgs
      ∧ m ∈ msgs
      ∧ Scraper.message_id m = Scraper.post_id msg.

(** The messages of the posts among [steps] whose record can be built, in
    order. *)
Definition built (c : Scraper.client) (channel : string) (e : Scraper.entity)
           (image_dir : string) (steps : list Scraper.iter_step)
  : list Scraper.TelegramMessage :=
  omap (fun s =>
          match s with
          | Scraper.Yield msg clock =>
              match Scraper.build_message c channel e image_dir msg clock with
              | Ok m => Some m
              | Raise _ => None
              end
          | Scraper.IterRaise _ => None
          end) steps.

(** A list of iterator steps that only yields. *)
Definition only_yields (steps : list Scraper.iter_step) : Prop :=
  Forall (fun s => ∃ msg clock, s = Scraper.Yield msg clock) steps.

(** The coroutine's progress when it starts on a channel. *)
Definition start : Scraper.progress :=
  {| Scraper.messages := []; Scraper.sleeps := [] |}.

(** A run of the dbt commands in which [dbt run] and [dbt docs generate]
    exit with 0 and [dbt test] exits with 1; the working directory is read
    and changed without an error. *)
Definition tests_fail : Pipeline.dbt_world :=
  {| Pipeline.getcwd := Ok "/opt/pipeline";
     Pipeline.chdir := fun _ => Ok ();
     Pipeline.subprocess_run := fun cmd =>
       Ok (if bool_decide (cmd = [ "dbt"; "test" ]) then 1 else 0);
     Pipeline.chdir_back := fun _ => Ok () |}.

(** The files the Load stage tried to open, in order. *)
Definition opened (events : list Pipeline.load_event) : list string :=
  omap (fun ev => match ev with
                  | Pipeline.Open f => Some f
                  | Pipeline.LoadToRaw _ => None
                  end) events.

(** The files whose content the Load stage handed to the loader. *)
Definition submitted (events : list Pipeline.load_event) : list string :=
  omap (fun ev => match ev with
                  | Pipeline.Open _ => None
                  | Pipeline.LoadToRaw f => Some f
                  end) events.

(** Fifty-one JSON files under one directory, one record in each, and a
    loader that reports the number of records it is given. *)
Definition fifty_one_files : Pipeline.load_world unit :=
  {| Pipeline.rglob_json := fun _ =>
       (fun i : nat => "channel_" +:+ pretty i +:+ ".json") <$> seq 0 51;
     Pipeline.get_connection := Ok ();
     Pipeline.read_json := fun _ => Ok (VList [ VDict ∅ ]);
     Pipeline.load_to_raw := fun l data =>
       (l, match len data with
           | Ok n => Ok n
           | Raise _ => Raise "object has no len()"
           end) |}.

(** The summary of a Scrape stage that found files. *)
Definition scraped_some : gmap string pyval :=
  <[ "scraped_files" := VInt 51 ]>
    (<[ "output_dir" := VStr "data/raw/telegram_messages" ]>
       (<[ "file_list" := VList [] ]> ∅)).

(** An Enrich stage without an images directory. *)
Definition no_images : Pipeline.yolo_world :=
  {| Pipeline.images_dir_exists := false;
     Pipeline.process_directory := fun _ => Raise "not reached";
     Pipeline.save_results := Raise "not reached";
     Pipeline.load_yolo_results := fun _ => Raise "not reached";
     Pipeline.dbt_run_select := Raise "not reached" |}.

End Samples.

(** ** src/datalake.py: the combined export *)

Module CombinedCsv.

(** [a <= b] on strings, as [sorted] compares them (code point by code
    point; the strings here are ASCII). *)
Definition str_le (a b : string) : Prop := String.leb a b = true.

#[global] Instance str_le_dec (a b : string) : Decision (str_le a b) :=
  decide (String.leb a b = true).

(** A CSV file: the header line and, for every data line, the values handed
    to the writer, in the header's order. *)
Record csv_file : Type := CsvFile {
  csv_header : list string;
  csv_lines : list (list pyval)
}.

(** The JSON side of the disk and the CSV files. *)
Record lake : Type := Lake {
  lake_disk : Datalake.disk;
  lake_csv : gmap string csv_file
}.

(** [sorted(rows[0].keys())] *)
Definition fieldnames_of (row : gmap string pyval) : list string :=
  merge_sort str_le (elements (dom row)).

(** [DictWriter._dict_to_list] with the default [extrasaction='raise'] and
    [restval='']: a key outside the field names is a [ValueError], a field
    the row lacks is written as the empty string. *)
Definition dict_to_list (fieldnames : list string) (rowdict : gmap string pyval)
  : result exn (list pyval) :=
  if bool_decide (dom rowdict ⊆ list_to_set fieldnames)
  then Ok ((fun key => default (VStr EmptyString) (rowdict !! key)) <$> fieldnames)
  else Raise ValueError.

(** [writer.writerows(rows)]: the lines written and the exception that
    stops the writing, if one does. *)
Fixpoint writerows (fieldnames : list string) (rows : list (gmap string pyval))
         (written : list (list pyval)) : list (list pyval) * option exn :=
  match rows with
  | [] => (written, None)
  | rowdict :: rows' =>
      match dict_to_list fieldnames rowdict with
      | Ok line => writerows fieldnames rows' (written ++ [ line ])
      | Raise e => (written, Some e)
      end
  end.

(** [write_combined_csv(base_path=..., date_str=..., rows=...)] *)
Definition write_combined_csv (base_path date_str : string)
           (rows : list (gmap string pyval)) (l : lake)
  : lake * result exn string :=
  match rows with
  | [] => (l, Ok EmptyString)
  | first :: _ =>
      let out_dir := Datalake.processed_partition_dir base_path date_str in
      let d := Datalake.ensure_dir out_dir (lake_disk l) in
      let path := Datalake.path_join out_dir [ "telegram_messages.csv" ] in
      let fieldnames := fieldnames_of first in
      let '(lines, err) := writerows fieldnames rows [] in
      ({| lake_disk := d;
          lake_csv := <[ path := CsvFile fieldnames lines ]> (lake_csv l) |},
       match err with
       | None => Ok path
       | Some e => Raise e
       end)
  end.

End CombinedCsv.

(** ** src/scraper.py: the run over all channels *)

Module Run.

Import Scraper.

Definition opt_str (o : option string) : pyval :=
  match o with
  | Some s => VStr s
  | None => VNone
  end.

(** [TelegramMessage.to_dict] *)
Definition to_dict (m : TelegramMessage) : gmap string pyval :=
  <[ "message_id" := VInt (message_id m) ]>
    (<[ "channel_id" := VInt (channel_id m) ]>
    (<[ "channel_username" := VStr (channel_username m) ]>
    (<[ "channel_title" := VStr (channel_title m) ]>
    (<[ "date" := VStr (date m) ]>
    (<[ "text" := VStr (text m) ]>
    (<[ "views" := VInt (views m) ]>
    (<[ "forwards" := VInt (forwards m) ]>
    (<[ "replies" := VInt (replies m) ]>
    (<[ "edit_date" := opt_str (edit_date m) ]>
    (<[ "media_type" := opt_str (media_type m) ]>
    (<[ "file_path" := opt_str (file_path m) ]>
    (<[ "url" := VStr (url m) ]>
    (<[ "scraped_at" := VStr (scraped_at m) ]> ∅))))))))))))).

(** What [run_scraper] holds while it goes through the channels. *)
Record run_state : Type := RunState {
  run_lake : CombinedCsv.lake;
  run_sleeps : list Q;
  all_counts : gmap string Z;
  combined_rows : list (gmap string pyval)
}.

(** The JSON file written for a channel that has messages. *)
Definition write_channel_json (base_path today channel : string)
           (msgs : list TelegramMessage) (l : CombinedCsv.lake) : CombinedCsv.lake :=
  let json_dir := Datalake.path_join base_path [ "raw"; "telegram_messages"; today ] in
  let d := Datalake.ensure_dir json_dir (CombinedCsv.lake_disk l) in
  let json_path := Datalake.path_join json_dir [ sanitize_filename channel +:+ ".json" ] in
  {| CombinedCsv.lake_disk :=
       {| Datalake.dirs := Datalake.dirs d;
          Datalake.files :=
            <[ json_path := VList ((fun m => VDict (to_dict m)) <$> msgs) ]>
              (Datalake.files d) |};
     CombinedCsv.lake_csv := CombinedCsv.lake_csv l |}.

(** The body of the loop of [run_scraper] for one channel. *)
Definition scrape_one (c : client) (base_path today : string)
           (st : run_state) (channel : string) : run_state * option exn :=
  match scrape_channel c channel base_path with
  | (naps, Raise e) =>
      ({| run_lake := run_lake st;
          run_sleeps := run_sleeps st ++ naps;
          all_counts := all_counts st;
          combined_rows := combined_rows st |}, Some e)
  | (naps, Ok msgs) =>
      ({| run_lake :=
            match msgs with
            | [] => run_lake st
            | _ => write_channel_json base_path today channel msgs (run_lake st)
            end;
          run_sleeps := run_sleeps st ++ naps ++ [ CHANNEL_DELAY ];
          all_counts := <[ channel := Z.of_nat (length msgs) ]> (all_counts st);
          combined_rows := combined_rows st ++ (to_dict <$> msgs) |}, None)
  end.

Fixpoint scrape_all (c : client) (base_path today : string)
         (channels : list string) (st : run_state) : run_state * option exn :=
  match channels with
  | [] => (st, None)
  | channel :: rest =>
      match scrape_one c base_path today st channel with
      | (st', None) => scrape_all c base_path today rest st'
      | (st', Some e) => (st', Some e)
      end
  end.

(** [run_scraper(channels, base_path)] with the module's client, the date
    [TODAY] and the clock reading taken by [write_manifest]: the lake and
    the sleeps afterwards, and whether the coroutine returns or raises. *)
Definition run_scraper (c : client) (channels : list string)
           (base_path today run_utc : string) (l : CombinedCsv.lake)
  : CombinedCsv.lake * list Q * result exn unit :=
  let start := {| run_lake := l; run_sleeps := [];
                  all_counts := ∅; combined_rows := [] |} in
  match scrape_all c base_path today channels start with
  | (st, Some e) => (run_lake st, run_sleeps st, Raise e)
  | (st, None) =>
      match CombinedCsv.write_combined_csv base_path today (combined_rows st) (run_lake st) with
      | (l1, Raise e) => (l1, run_sleeps st, Raise e)
      | (l1, Ok _) =>
          let d2 :=
            (Datalake.write_manifest base_path today (all_counts st) None
                                     run_utc (CombinedCsv.lake_disk l1)).1 in
          ({| CombinedCsv.lake_disk := d2; CombinedCsv.lake_csv := CombinedCsv.lake_csv l1 |},
           run_sleeps st, Ok ())
      end
  end.

End Run.

(** ** dagster_pipeline/pipeline.py: the requirements *)

Module Requirements.

(** The [requirements] dictionary of [check_requirements], in its order. *)
Definition requirements (HAS_SCRAPER HAS_LOADER HAS_YOLO : bool)
  : list (string * bool) :=
  [ ("TelegramScraper", HAS_SCRAPER);
    ("DataLoader", HAS_LOADER);
    ("YOLODetector", HAS_YOLO) ].

Definition missing_modules (HAS_SCRAPER HAS_LOADER HAS_YOLO : bool) : list string :=
  fst <$> List.filter (fun kv : string * bool => negb kv.2)
                      (requirements HAS_SCRAPER HAS_LOADER HAS_YOLO).

(** [check_requirements()] *)
Definition check_requirements (HAS_SCRAPER HAS_LOADER HAS_YOLO : bool)
  : gmap string pyval :=
  <[ "requirements_met" :=
       VBool (forallb snd (requirements HAS_SCRAPER HAS_LOADER HAS_YOLO)) ]>
    (<[ "missing" :=
          VList (VStr <$> missing_modules HAS_SCRAPER HAS_LOADER HAS_YOLO) ]> ∅).

End Requirements.

(** ** scripts/detect_objects.py: the image index *)

Module DetectObjects.

Definition IMAGE_EXTENSIONS : list string := [ ".jpg"; ".jpeg"; ".png" ].

(** The body of the inner loop of [build_image_index]. *)
Definition index_file (root : string) (index : gmap string string) (f : string)
  : gmap string string :=
  if endswith_any (Scraper.lower f) IMAGE_EXTENSIONS
  then <[ f := Datalake.join2 root f ]> index
  else index.

(** The body of the outer loop, for one directory of the walk. *)
Definition index_dir (index : gmap string string) (entry : string * list string)
  : gmap string string :=
  fold_left (index_file entry.1) entry.2 index.

(** [build_image_index(base_dir)], given what [os.walk(base_dir)] yields:
    every directory with the files in it, in the order of the walk. *)
Definition build_image_index (walk : list (string * list string))
  : gmap string string :=
  fold_left index_dir walk ∅.

End DetectObjects.

(** ** scripts/load_image_detections.py *)

Module Detections.

(** A row of [raw.image_detections]: the seven columns of [SQL_INSERT].
    [SQL_CREATE] declares no key and no constraint on them. *)
Record row : Type := Row {
  message_id : pyval;
  channel_username : pyval;
  message_date : pyval;
  image_path : pyval;
  detected_object : pyval;
  confidence : pyval;
  detected_at : pyval
}.

(** The data frame [pd.read_csv] returns: its columns and its rows, every
    row a mapping from the columns to the cells. *)
Record frame : Type := Frame {
  columns : list string;
  rows : list (gmap string pyval)
}.

(** A named parameter of [SQL_INSERT]. *)
Definition param (record : gmap string pyval) (key : string) : result exn pyval :=
  match record !! key with
  | Some v => Ok v
  | None => Raise KeyError
  end.

Definition bind_params (record : gmap string pyval) : result exn row :=
  c1 ← param record "message_id";
  c2 ← param record "channel_username";
  c3 ← param record "message_date";
  c4 ← param record "image_path";
  c5 ← param record "detected_object";
  c6 ← param record "confidence";
  c7 ← param record "detected_at";
  Ok (Row c1 c2 c3 c4 c5 c6 c7).

(** [execute_batch(cur, SQL_INSERT, records, page_size=500)]: a plain
    [INSERT] per record. *)
Definition execute_batch (table : list row) (records : list (gmap string pyval))
  : result exn (list row) :=
  foldM (fun t record => r ← bind_params record; Ok (t ++ [ r ])) table records.

Section Main.

(** [pd.to_datetime(cell, errors="coerce")]: the timestamp read from a
    cell, [None] for [NaT]; and the date of a timestamp, [.dt.date]. *)
Variable to_datetime : pyval -> option string.
Variable date_of : string -> string.

(** The three data-frame steps of [main] on one row: the timestamp is
    parsed, a row without one is dropped, [message_date] is added. *)
Definition prepare (record : gmap string pyval) : option (gmap string pyval) :=
  match to_datetime (default VNone (record !! "detected_at")) with
  | Some ts =>
      Some (<[ "message_date" := VStr (date_of ts) ]>
              (<[ "detected_at" := VStr ts ]> record))
  | None => None
  end.

(** [main()]: the frame read from [CSV_PATH], whether the database accepts
    the connection and the committed table before the run (empty when the
    table does not exist yet); returns the committed table afterwards and
    the number printed. *)
Definition main (df : result exn frame) (db_up : bool) (table : list row)
  : result exn (list row * nat) :=
  df ← df;
  if bool_decide ("detected_at" ∈ columns df) then
    let records := omap prepare (rows df) in
    if db_up then
      table' ← execute_batch table records;
      Ok (table', length records)
    else Raise (OtherError "psycopg2.OperationalError")
  else Raise KeyError.

End Main.

End Detections.

(** * Cases and predicates for the further properties *)

Module Cases.

Import Loader Samples.

(** What the loop over the timestamp fields makes of a value. *)
Definition blank (v : pyval) : pyval :=
  match v with
  | VStr s => if String.eqb s EmptyString then VNone else v
  | _ => v
  end.

(** The mappings among the items of a JSON array. *)
Definition dicts (items : list pyval) : list (gmap string pyval) :=
  omap (fun v => match v with
                 | VDict d => Some d
                 | _ => None
                 end) items.

(** A file [load_records] reads: its name ends in [.json] or [.csv]. *)
Definition is_data_file (f : file) : bool :=
  endswith (file_name f) ".json" || endswith (file_name f) ".csv".

(** A scraped post with both [text] and [message_text], an empty [date],
    a null [edit_date] and a key the normalizer does not know, [lang]. *)
Definition raw_post : gmap string pyval :=
  <[ "text" := VStr "hi" ]>
    (<[ "message_text" := VStr "old" ]>
       (<[ "date" := VStr EmptyString ]>
          (<[ "edit_date" := VNone ]>
             (<[ "lang" := VStr "am" ]> ∅)))).

(** What [normalize_record] makes of [raw_post]. *)
Definition normalized_post : gmap string pyval :=
  match normalize_dict default_max_str_digits raw_post with
  | Ok r => r
  | Raise _ => ∅
  end.

(** A JSON file holding [[{}, 7, "x", {}]]. *)
Definition mixed_items : file :=
  {| file_name := "mixed.json";
     json_data := Ok (VList [ VDict ∅; VInt 7; VStr "x"; VDict ∅ ]);
     csv_rows := Ok [] |}.

(** A file that is neither JSON nor CSV and cannot be read as either. *)
Definition log_file : file :=
  {| file_name := "scrape.log";
     json_data := Raise ValueError;
     csv_rows := Raise ValueError |}.

(** Two records with the same [message_id] and different texts. *)
Definition first_seven : gmap string pyval :=
  <[ "message_id" := VInt 7 ]> (<[ "message_text" := VStr "first" ]> blank_record).

Definition second_seven : gmap string pyval :=
  <[ "message_id" := VInt 7 ]> (<[ "message_text" := VStr "second" ]> blank_record).

(** The row bound from a record that has all parameters. *)
Definition row_of (record : gmap string pyval) : row :=
  match bind_params record with
  | Ok r => r
  | Raise _ => Row 0 0 VNone VNone VNone VNone 0 0 0 VNone VNone VNone VNone
  end.

(** The line written for a row under the given field names. *)
Definition line_of (fieldnames : list string) (rowdict : gmap string pyval)
  : list pyval :=
  (fun key => default (VStr EmptyString) (rowdict !! key)) <$> fieldnames.

Definition empty_lake : CombinedCsv.lake :=
  {| CombinedCsv.lake_disk := empty_disk; CombinedCsv.lake_csv := ∅ |}.

(** [{"b": 1, "a": 2}], [{"a": 3}] and [{"a": 4, "c": 5}] *)
Definition row_ba : gmap string pyval := <[ "b" := VInt 1 ]> (<[ "a" := VInt 2 ]> ∅).
Definition row_a : gmap string pyval := <[ "a" := VInt 3 ]> ∅.
Definition row_ac : gmap string pyval := <[ "a" := VInt 4 ]> (<[ "c" := VInt 5 ]> ∅).

(** The exceptions [scrape_channel] has an [except] clause for. *)
Definition is_handled (err : exn) : bool :=
  match err with
  | FloodWaitError _ => true
  | ChannelPrivateError => true
  | UsernameNotOccupiedError => true
  | _ => false
  end.

(** The two access errors. *)
Definition is_access_error (err : exn) : bool :=
  match err with
  | ChannelPrivateError => true
  | UsernameNotOccupiedError => true
  | _ => false
  end.

(** A post with a photo. *)
Definition photo_post : Scraper.post :=
  {| Scraper.post_id := 3;
     Scraper.post_media := Scraper.MessageMediaPhoto;
     Scraper.post_date := Some "2026-01-16T08:00:00+00:00";
     Scraper.post_text := Some "photo";
     Scraper.post_views := Some 4;
     Scraper.post_forwards := Some 1;
     Scraper.post_replies := Scraper.RepliesObject 2;
     Scraper.post_edit_date := None |}.

(** A post whose media is a document without its [document]. *)
Definition broken_post : Scraper.post :=
  {| Scraper.post_id := 4;
     Scraper.post_media := Scraper.MessageMediaDocument None;
     Scraper.post_date := None;
     Scraper.post_text := None;
     Scraper.post_views := None;
     Scraper.post_forwards := None;
     Scraper.post_replies := Scraper.RepliesNone;
     Scraper.post_edit_date := None |}.

Definition named_entity : Scraper.entity :=
  {| Scraper.entity_id := 7;
     Scraper.entity_username := Some "cheMed123";
     Scraper.entity_title := Some "CheMed" |}.

(** A client with three kinds of channel: [@private] cannot be accessed;
    every other channel yields a photo post whose download fails, a post
    that cannot be built and a plain post. *)
Definition three_channels : Scraper.client :=
  {| Scraper.get_entity := fun channel =>
       if String.eqb channel "@private" then Raise ChannelPrivateError
       else Ok named_entity;
     Scraper.iter_messages := fun _ =>
       [ Scraper.Yield photo_post "2026-01-16T12:00:00";
         Scraper.Yield broken_post "2026-01-16T12:00:01";
         Scraper.Yield post_two "2026-01-16T12:00:02" ];
     Scraper.client_download_media := fun _ _ => Raise (OtherError "timeout") |}.

(** A client whose channel breaks with a connection error after one post. *)
Definition broken_client : Scraper.client :=
  {| Scraper.get_entity := fun _ => Ok named_entity;
     Scraper.iter_messages := fun _ =>
       [ Scraper.Yield post_one "2026-01-16T12:00:00";
         Scraper.IterRaise (OtherError "connection reset");
         Scraper.Yield post_two "2026-01-16T12:00:02" ];
     Scraper.client_download_media := fun _ _ => Ok None |}.

(** A client whose channel turns private after one post. *)
Definition closing_client : Scraper.client :=
  {| Scraper.get_entity := fun _ => Ok named_entity;
     Scraper.iter_messages := fun _ =>
       [ Scraper.Yield post_one "2026-01-16T12:00:00";
         Scraper.IterRaise ChannelPrivateError ];
     Scraper.client_download_media := fun _ _ => Ok None |}.

(** The directory [scrape_channel] downloads a channel's media into. *)
Definition image_dir_of (base_path channel : string) : string :=
  Datalake.path_join base_path
    [ "raw"; "images"; Scraper.sanitize_filename channel ].

(** [scrape_channel] returns for this channel. *)
Definition returns (c : Scraper.client) (base_path channel : string) : Prop :=
  ∃ msgs, (Scraper.scrape_channel c channel base_path).2 = Ok msgs.

(** The messages [scrape_channel] returns for a channel (none if it
    raises). *)
Definition scraped (c : Scraper.client) (base_path channel : string)
  : list Scraper.TelegramMessage :=
  match (Scraper.scrape_channel c channel base_path).2 with
  | Ok msgs => msgs
  | Raise _ => []
  end.

(** The messages of all the channels, in the order of the run. *)
Definition all_scraped (c : Scraper.client) (base_path : string)
           (channels : list string) : list Scraper.TelegramMessage :=
  concat (scraped c base_path <$> channels).

(** The paths [run_scraper] writes to. *)
Definition json_path_of (base_path today channel : string) : string :=
  Datalake.path_join
    (Datalake.path_join base_path [ "raw"; "telegram_messages"; today ])
    [ Scraper.sanitize_filename channel +:+ ".json" ].

Definition manifest_path_of (base_path today : string) : string :=
  Datalake.path_join (Datalake.raw_partition_dir base_path today)
                     [ "_manifest.json" ].

Definition csv_path_of (base_path today : string) : string :=
  Datalake.path_join (Datalake.processed_partition_dir base_path today)
                     [ "telegram_messages.csv" ].

(** The JSON document written for a channel's messages. *)
Definition channel_json (msgs : list Scraper.TelegramMessage) : pyval :=
  VList ((fun m => VDict (Run.to_dict m)) <$> msgs).

(** The state [run_scraper] starts from. *)
Definition run_start (l : CombinedCsv.lake) : Run.run_state :=
  {| Run.run_lake := l; Run.run_sleeps := [];
     Run.all_counts := ∅; Run.combined_rows := [] |}.

(** A frame read from a detections CSV: two rows with a timestamp, one
    without. *)
Definition detections_frame : Detections.frame :=
  {| Detections.columns :=
       [ "message_id"; "channel_username"; "image_path"; "detected_object";
         "confidence"; "detected_at" ];
     Detections.rows :=
       [ <[ "message_id" := VInt 1 ]>
           (<[ "channel_username" := VStr "@open" ]>
           (<[ "image_path" := VStr "data/raw/images/@open/a.jpg" ]>
           (<[ "detected_object" := VStr "bottle" ]>
           (<[ "confidence" := VStr "0.91" ]>
           (<[ "detected_at" := VStr "2026-01-16 12:00:00" ]> ∅)))));
         <[ "message_id" := VInt 2 ]>
           (<[ "channel_username" := VStr "@open" ]>
           (<[ "image_path" := VStr "data/raw/images/@open/b.jpg" ]>
           (<[ "detected_object" := VStr "cup" ]>
           (<[ "confidence" := VStr "0.40" ]>
           (<[ "detected_at" := VStr "not a date" ]> ∅)))));
         <[ "message_id" := VInt 1 ]>
           (<[ "channel_username" := VStr "@open" ]>
           (<[ "image_path" := VStr "data/raw/images/@open/a.jpg" ]>
           (<[ "detected_object" := VStr "person" ]>
           (<[ "confidence" := VStr "0.55" ]>
           (<[ "detected_at" := VStr "2026-01-16 12:00:00" ]> ∅))))) ] |}.

(** A reading of timestamps that accepts the one well-formed cell above. *)
Definition sample_to_datetime (v : pyval) : option string :=
  match v with
  | VStr s => if String.eqb s "2026-01-16 12:00:00" then Some s else None
  | _ => None
  end.

Definition sample_date_of (ts : string) : string := String.substring 0 10 ts.

(** A walk over two directories in which [a.jpg] occurs twice. *)
Definition sample_walk : list (string * list string) :=
  [ ("data/raw/images/@one", [ "a.jpg"; "notes.txt"; "B.PNG" ]);
    ("data/raw/images/@two", [ "a.jpg"; "clip.mp4" ]) ].

(** Is the file an image, by its extension? *)
Definition is_image (f : string) : bool :=
  endswith_any (Scraper.lower f) DetectObjects.IMAGE_EXTENSIONS.

(** A Scrape stage that finds twelve files. *)
Definition scrape_twelve : Pipeline.scrape_world :=
  {| Pipeline.getenv := fun name =>
       if String.eqb name "Tg_API_ID" then Some "12345"
       else if String.eqb name "Tg_API_HASH" then Some "0123456789abcdef"
       else None;
     Pipeline.scraper_run := Ok ();
     Pipeline.raw_dir_exists := true;
     Pipeline.raw_dir_rglob_json :=
       (fun i : nat => "channel_" +:+ pretty i +:+ ".json") <$> seq 0 12 |}.

(** An Enrich stage that detects two images. *)
Definition two_detections : Pipeline.dataframe :=
  {| Pipeline.df_len := 2;
     Pipeline.df_columns := Some [ "image_path"; "image_category" ];
     Pipeline.df_value_counts := fun _ => <[ "product" := VInt 2 ]> ∅;
     Pipeline.df_head := fun _ => VList [] |}.

Definition yolo_detects (returncode : Z) : Pipeline.yolo_world :=
  {| Pipeline.images_dir_exists := true;
     Pipeline.process_directory := fun _ => Ok two_detections;
     Pipeline.save_results := Ok ();
     Pipeline.load_yolo_results := fun _ => Ok ();
     Pipeline.dbt_run_select := Ok returncode |}.

(** The last directory of a walk that lists the file. *)
Definition holder (walk : list (string * list string)) (f : string) : option string :=
  fst <$> last (List.filter (fun entry : string * list string =>
                               bool_decide (f ∈ entry.2)) walk).

End Cases.

(** * Properties *)

(** ** The record normalizer *)

Module NormalizerFacts.

Import Loader.

Section WithDigitBound.

Variable mx : nat.

Lemma rename_key_other (r : gmap string pyval) kv k :
  k ≠ kv.1 → k ≠ kv.2 → rename_key r kv !! k = r !! k.
Proof.
  intros H1 H2. unfold rename_key.
  destruct (r !! kv.1); [ | done ].
  rewrite lookup_insert_ne by done. by rewrite lookup_delete_ne.
Qed.

Lemma fold_rename_other kvs (r : gmap string pyval) k :
  Forall (fun kv => k ≠ kv.1 ∧ k ≠ kv.2) kvs →
  fold_left rename_key kvs r !! k = r !! k.
Proof.
  intros H. revert r. induction H as [ | kv kvs [H1 H2] _ IH ]; intros r.
  - done.
  - simpl. rewrite IH. by apply rename_key_other.
Qed.

Lemma int_fields_not_renamed :
  Forall (fun f => Forall (fun kv : string * string => f ≠ kv.1 ∧ f ≠ kv.2) mapping)
         int_fields.
Proof. repeat (constructor; try (split; discriminate)). Qed.

Lemma ensure_key_lookup (r : gmap string pyval) key k :
  ensure_key r key !! k =
  if decide (key = k) then Some (default VNone (r !! k)) else r !! k.
Proof.
  unfold ensure_key. case_decide as Hk.
  - subst k. destruct (r !! key) as [ v | ] eqn:E.
    + destruct v; simpl; rewrite ?lookup_insert_eq; done.
    + by rewrite lookup_insert_eq.
  - destruct (r !! key) as [ v | ] eqn:E.
    + destruct (is_none v); [ by rewrite lookup_insert_ne | done ].
    + by rewrite lookup_insert_ne.
Qed.

Lemma fold_ensure_lookup keys (r : gmap string pyval) k :
  fold_left ensure_key keys r !! k =
  if decide (k ∈ keys) then Some (default VNone (r !! k)) else r !! k.
Proof.
  revert r. induction keys as [ | key keys IH ]; intros r; cbn [fold_left].
  - rewrite decide_False; [ done | apply not_elem_of_nil ].
  - rewrite IH. rewrite ensure_key_lookup.
    destruct (decide (k ∈ keys)) as [ Hin | Hin ];
      destruct (decide (key = k)) as [ Hk | Hk ];
      destruct (decide (k ∈ key :: keys)) as [ Hc | Hc ];
      try done;
      try (exfalso; apply Hc, elem_of_cons; by auto).
    apply elem_of_cons in Hc as [ -> | ? ]; done.
Qed.

Lemma convert_int_shape (r r' : gmap string pyval) f :
  convert_int mx r f = Ok r' → ∃ n, r' = <[ f := VInt n ]> r.
Proof.
  unfold convert_int. destruct (r !! f) as [ v | ]; [ | done ].
  destruct (is_none v); [ intros [= <-]; eauto | ].
  destruct (int mx v) as [ n | [] ]; intros [= <-]; eauto.
Qed.

Lemma foldM_convert_shape fs (r r' : gmap string pyval) :
  foldM (convert_int mx) r fs = Ok r' →
  (∀ k, k ∈ fs → ∃ n, r' !! k = Some (VInt n))
  ∧ (∀ k, k ∉ fs → r' !! k = r !! k)
  ∧ (∀ k, is_Some (r !! k) → is_Some (r' !! k)).
Proof.
  revert r. induction fs as [ | f fs IH ]; intros r; simpl.
  - intros [= <-]. split_and!; [ | done | done ].
    intros k H. by apply elem_of_nil in H.
  - destruct (convert_int mx r f) as [ r1 | e ] eqn:E; [ | done ].
    simpl. intros H. apply convert_int_shape in E as [ n -> ].
    destruct (IH _ H) as (IH1 & IH2 & IH3). split_and!.
    + intros k [ -> | Hk ]%elem_of_cons; [ | by apply IH1 ].
      destruct (decide (f ∈ fs)) as [ Hin | Hin ]; [ by apply IH1 | ].
      rewrite IH2 by done. rewrite lookup_insert_eq. eauto.
    + intros k Hk. rewrite IH2 by (intros ?; apply Hk; by right).
      rewrite lookup_insert_ne; [ done | ]. intros ->. apply Hk. by left.
    + intros k Hk. apply IH3. destruct (decide (f = k)) as [ -> | ].
      * rewrite lookup_insert_eq. eauto.
      * by rewrite lookup_insert_ne.
Qed.

Lemma blank_to_none_shape (r r' : gmap string pyval) f :
  blank_to_none r f = Ok r' →
  (∀ k, k ≠ f → r' !! k = r !! k)
  ∧ (∀ k, is_Some (r !! k) → is_Some (r' !! k)).
Proof.
  unfold blank_to_none. destruct (r !! f) as [ v | ] eqn:E; [ | done ].
  intros H.
  assert (r' = r ∨ r' = <[ f := VNone ]> r) as [ -> | -> ].
  { destruct v; simplify_eq; eauto.
    destruct (String.eqb _ _); simplify_eq; eauto. }
  - done.
  - split.
    + intros k Hk. by rewrite lookup_insert_ne.
    + intros k Hk. destruct (decide (f = k)) as [ -> | ].
      * rewrite lookup_insert_eq. eauto.
      * by rewrite lookup_insert_ne.
Qed.

Lemma blank_to_none_ok (r : gmap string pyval) f :
  is_Some (r !! f) → ∃ r', blank_to_none r f = Ok r'.
Proof.
  intros [ v E ]. unfold blank_to_none. rewrite E. destruct v; eauto.
Qed.

Lemma foldM_blank_shape fs (r r' : gmap string pyval) :
  foldM blank_to_none r fs = Ok r' →
  (∀ k, k ∉ fs → r' !! k = r !! k)
  ∧ (∀ k, is_Some (r !! k) → is_Some (r' !! k)).
Proof.
  revert r. induction fs as [ | f fs IH ]; intros r; simpl.
  - by intros [= <-].
  - destruct (blank_to_none r f) as [ r1 | e ] eqn:E; [ | done ].
    simpl. intros H. apply blank_to_none_shape in E as [ E1 E2 ].
    destruct (IH _ H) as [ IH1 IH2 ]. split.
    + intros k Hk. rewrite IH1 by (intros ?; apply Hk; by right).
      apply E1. intros ->. apply Hk. by left.
    + intros k Hk. by apply IH2, E2.
Qed.

Lemma foldM_blank_ok fs (r : gmap string pyval) :
  (∀ f, f ∈ fs → is_Some (r !! f)) → ∃ r', foldM blank_to_none r fs = Ok r'.
Proof.
  revert r. induction fs as [ | f fs IH ]; intros r H; simpl; [ eauto | ].
  destruct (blank_to_none_ok r f) as [ r1 E ]; [ apply H; by left | ].
  rewrite E. simpl. apply IH. intros k Hk.
  apply blank_to_none_shape in E as [ _ E2 ]. apply E2, H. by right.
Qed.

(** Whatever [normalize_record] returns for a mapping has the thirteen
    keys, with integers in the five numeric ones. *)
Lemma normalize_dict_shape (d r : gmap string pyval) :
  normalize_dict mx d = Ok r →
  (∀ k, k ∈ required_keys → is_Some (r !! k))
  ∧ (∀ f, f ∈ int_fields → ∃ n, r !! f = Some (VInt n)).
Proof.
  unfold normalize_dict.
  set (r2 := fold_left ensure_key required_keys _).
  destruct (foldM (convert_int mx) r2 int_fields) as [ r3 | e ] eqn:E3; [ | done ].
  intros E4. change (foldM blank_to_none r3 ts_fields = Ok r) in E4.
  apply foldM_convert_shape in E3 as (C1 & C2 & C3).
  apply foldM_blank_shape in E4 as (B1 & B2).
  split.
  - intros k Hk. apply B2, C3. unfold r2.
    rewrite fold_ensure_lookup, decide_True by done. eauto.
  - intros f Hf. rewrite B1; [ by apply C1 | ].
    revert Hf. unfold int_fields, ts_fields.
    rewrite !elem_of_cons, !elem_of_nil. intros H1 H2.
    destruct H1 as [ -> | [ -> | [ -> | [ -> | [ -> | [] ] ] ] ] ];
      destruct H2 as [ H2 | [ H2 | [] ] ]; discriminate H2.
Qed.

Lemma convert_int_ok (r : gmap string pyval) f v :
  r !! f = Some v →
  (∀ s, v ≠ VFloat (S754_infinity s)) →
  convert_int mx r f = Ok (<[ f := VInt (Samples.int_or_zero mx v) ]> r).
Proof.
  intros E Hinf. unfold convert_int, Samples.int_or_zero. rewrite E.
  destruct v as [ | b | n | x | s | l | m ]; simpl; try done.
  - destruct x; simpl; try done. by destruct (Hinf s).
  - by destruct (int_of_string mx s).
Qed.

Lemma foldM_convert_ok fs (r : gmap string pyval) :
  NoDup fs →
  (∀ f, f ∈ fs → ∃ v, r !! f = Some v ∧ ∀ s, v ≠ VFloat (S754_infinity s)) →
  ∃ r', foldM (convert_int mx) r fs = Ok r'
        ∧ ∀ f v, f ∈ fs → r !! f = Some v →
                 r' !! f = Some (VInt (Samples.int_or_zero mx v)).
Proof.
  intros Hnd. revert r.
  induction Hnd as [ | f fs Hf Hnd IH ]; intros r H.
  - exists r. split; [ done | ]. intros f v Hin. by apply elem_of_nil in Hin.
  - destruct (H f) as (v & E & Hinf); [ by left | ].
    cbn [foldM]. rewrite (convert_int_ok r f v E Hinf). cbn.
    destruct (IH (<[ f := VInt (Samples.int_or_zero mx v) ]> r)) as (r' & E' & Hr').
    { intros g Hg. rewrite lookup_insert_ne by (intros ->; done).
      apply H. by right. }
    exists r'. split; [ done | ].
    intros g w [ -> | Hg ]%elem_of_cons Eg.
    + apply foldM_convert_shape in E' as (_ & C2 & _).
      rewrite C2 by done. rewrite lookup_insert_eq. congruence.
    + apply Hr'; [ done | ]. rewrite lookup_insert_ne by (intros ->; done). done.
Qed.

Lemma int_fields_NoDup : NoDup int_fields.
Proof. apply (bool_decide_unpack _). by vm_compute. Qed.

Lemma int_field_not_ts f : f ∈ int_fields → f ∉ ts_fields.
Proof.
  unfold int_fields, ts_fields. rewrite !elem_of_cons, !elem_of_nil.
  intros H1 H2.
  destruct H1 as [ -> | [ -> | [ -> | [ -> | [ -> | [] ] ] ] ] ];
    destruct H2 as [ H2 | [ H2 | [] ] ]; discriminate H2.
Qed.

Lemma int_field_required f : f ∈ int_fields → f ∈ required_keys.
Proof.
  unfold int_fields, required_keys. rewrite !elem_of_cons, !elem_of_nil.
  intros [ -> | [ -> | [ -> | [ -> | [ -> | [] ] ] ] ] ]; auto 20.
Qed.

(** A mapping without an infinite float in a numeric field is
    normalized, and each numeric field ends as the conversion of what
    the mapping had there. *)
Lemma normalize_dict_ok (d : gmap string pyval) :
  Samples.no_infinite_ints d →
  ∃ r, normalize_dict mx d = Ok r
       ∧ ∀ f, f ∈ int_fields →
              r !! f = Some (VInt (Samples.int_or_zero mx (default VNone (d !! f)))).
Proof.
  intros Hinf. unfold normalize_dict.
  set (r1 := fold_left rename_key mapping d).
  set (r2 := fold_left ensure_key required_keys r1).
  assert (∀ f, f ∈ int_fields → r2 !! f = Some (default VNone (d !! f))) as H2.
  { intros f Hf. unfold r2.
    rewrite fold_ensure_lookup, decide_True by (by apply int_field_required).
    unfold r1. rewrite fold_rename_other; [ done | ].
    pose proof int_fields_not_renamed as Hall.
    rewrite Forall_forall in Hall. by apply Hall. }
  destruct (foldM_convert_ok int_fields r2 int_fields_NoDup) as (r3 & E3 & H3).
  { intros f Hf. eexists. split; [ by apply H2 | ].
    intros s Hs. destruct (d !! f) as [ v | ] eqn:E; simpl in Hs; [ | done ].
    subst v. by apply (Hinf f s). }
  rewrite E3.
  change (Ok r3 ≫= _) with (foldM blank_to_none r3 ts_fields).
  destruct (foldM_blank_ok ts_fields r3) as (r4 & E4).
  { intros f Hf. apply foldM_convert_shape in E3 as (_ & _ & C3).
    apply C3. unfold r2. rewrite fold_ensure_lookup.
    rewrite decide_True; [ eauto | ].
    revert Hf. unfold ts_fields, required_keys.
    rewrite !elem_of_cons, !elem_of_nil.
    intros [ -> | [ -> | [] ] ]; auto 20. }
  exists r4. split; [ done | ].
  intros f Hf. apply foldM_blank_shape in E4 as (B1 & _).
  rewrite B1 by (by apply int_field_not_ts). by apply H3, H2.
Qed.

End WithDigitBound.

End NormalizerFacts.

Module NormalizerSpec.

Import Loader Samples NormalizerFacts.

(** C2 as stated fails: a negative number in the input stays negative.
    For [{"views": -5}] the normalizer returns a record whose [views] is
    [-5], so its numeric fields are not all non-negative. *)
Lemma normalize_record_keeps_negative :
  ∃ r, normalize_record default_max_str_digits (VDict negative_views) = Ok (VDict r)
       ∧ ¬ non_negative_ints r.
Proof.
  destruct (normalize_dict_ok default_max_str_digits negative_views)
    as (r & E & Hr).
  { intros f s _. unfold negative_views.
    intros [ _ [=] ]%lookup_singleton_Some. }
  exists r. split.
  - unfold normalize_record. by rewrite E.
  - intros H. destruct (H "views") as (n & En & Hn).
    { unfold int_fields. by left. }
    rewrite Hr in En by (by left). vm_compute in En.
    injection En as <-. lia.
Qed.

(** C2, amended: for every input mapping in which no numeric field holds
    an infinite float, the normalizer returns, without raising, a record
    with all thirteen required keys; each of the five numeric fields holds
    an integer, which is 0 when the field is absent or null or when its
    value fails integer parsing, and the integer conversion of the value
    otherwise (negative for a negative input). *)
Theorem normalize_record_total (mx : nat) (d : gmap string pyval) :
  no_infinite_ints d →
  ∃ r, normalize_record mx (VDict d) = Ok (VDict r)
       ∧ (∀ k, k ∈ required_keys → is_Some (r !! k))
       ∧ (∀ f, f ∈ int_fields →
            ∃ n, r !! f = Some (VInt n)
                 ∧ (d !! f = None ∨ d !! f = Some VNone → n = 0)
                 ∧ (∀ v e, d !! f = Some v → int mx v = Raise e → n = 0)
                 ∧ (∀ v m, d !! f = Some v → v ≠ VNone → int mx v = Ok m → n = m)).
Proof.
  intros Hinf. destruct (normalize_dict_ok mx d Hinf) as (r & E & Hr).
  exists r. split; [ unfold normalize_record; by rewrite E | ].
  split; [ by apply (normalize_dict_shape mx d r E) | ].
  intros f Hf. eexists. split; [ by apply Hr | ].
  unfold int_or_zero. split_and!.
  - by intros [ -> | -> ].
  - intros v e -> Hv. simpl. rewrite Hv. by destruct (is_none v).
  - intros v m -> Hne Hv. simpl. rewrite Hv. by destruct v.
Qed.

Lemma normalize_record_total_witness :
  no_infinite_ints unparsable_views
  ∧ ∃ r, normalize_record default_max_str_digits (VDict unparsable_views) = Ok (VDict r)
         ∧ (∀ k, k ∈ required_keys → is_Some (r !! k))
         ∧ r !! "views" = Some (VInt 0).
Proof.
  assert (no_infinite_ints unparsable_views) as Hinf.
  { intros f s _. unfold unparsable_views.
    intros [ _ [=] ]%lookup_singleton_Some. }
  split; [ exact Hinf | ].
  destruct (normalize_record_total default_max_str_digits unparsable_views Hinf)
    as (r & E & Hkeys & Hints).
  exists r. split; [ exact E | ]. split; [ exact Hkeys | ].
  destruct (Hints "views") as (n & En & _ & Hbad & _); [ by left | ].
  rewrite En. f_equal. f_equal.
  apply (Hbad (VStr "abc") ValueError); reflexivity.
Defined.

(** C10: given an input that is not a mapping, the normalizer returns the
    empty record, which has none of the thirteen required keys; it neither
    fills in defaults nor raises. *)
Theorem normalize_record_non_mapping (mx : nat) (v : pyval) :
  is_dict v = false →
  ∃ r : gmap string pyval,
    normalize_record mx v = Ok (VDict r)
    ∧ r = ∅
    ∧ ∀ k, k ∈ required_keys → r !! k = None.
Proof.
  intros H. exists ∅. split; [ by destruct v | ]. split; [ done | ].
  intros k _. apply lookup_empty.
Qed.

Lemma normalize_record_non_mapping_witness :
  is_dict (VList []) = false
  ∧ ∃ r : gmap string pyval,
      normalize_record default_max_str_digits (VList []) = Ok (VDict r)
      ∧ r = ∅
      ∧ ∀ k, k ∈ required_keys → r !! k = None.
Proof.
  split; [ reflexivity | ].
  apply (normalize_record_non_mapping default_max_str_digits (VList [])).
  reflexivity.
Defined.

End NormalizerSpec.

(** ** The warehouse loader *)

Module WarehouseFacts.

Import Loader Samples NormalizerFacts.

Lemma result_bind_ok {E A B} (a : A) (k : A → result E B) : Ok a ≫= k = k a.
Proof. reflexivity. Qed.

Lemma has_key_snoc t r k :
  has_key (t ++ [ r ]) k = has_key t k || (message_id r =? k).
Proof. unfold has_key. rewrite existsb_app. simpl. by rewrite orb_false_r. Qed.

Lemma insert_SQL t r :
  insert SQL t r = Ok (if has_key t (message_id r) then t else t ++ [ r ]).
Proof. unfold insert, SQL. by destruct (has_key t (message_id r)). Qed.

Lemma execute_batch_cons t rec recs row :
  bind_params rec = Ok row →
  execute_batch SQL t (rec :: recs) =
  execute_batch SQL (if has_key t (message_id row) then t else t ++ [ row ]) recs.
Proof.
  intros E. unfold execute_batch. cbn [foldM]. rewrite E. cbn.
  by rewrite insert_SQL.
Qed.

Lemma bind_params_message_id rec row :
  bind_params rec = Ok row → rec !! "message_id" = Some (VInt (message_id row)).
Proof.
  unfold bind_params, int_param, param.
  destruct (rec !! "message_id") as [ [ | | n | | | | ] | ]; try done.
  cbn. intros H.
  repeat match type of H with
         | context [ match ?v with VNone => _ | _ => _ end ] =>
             is_var v; destruct v; try done; cbn in H
         | context [ rec !! ?k ] =>
             destruct (rec !! k) as [ ? | ]; [ | done ]; cbn in H
         end.
  by injection H as <-.
Qed.

Lemma normalized_bindable mx r : normalized mx r → ∃ row, bind_params r = Ok row.
Proof.
  intros [ d E ]. apply normalize_dict_shape in E as [ Hkeys Hints ].
  destruct (Hints "message_id") as [ n1 E1 ]; [ in_list | ].
  destruct (Hints "channel_id") as [ n2 E2 ]; [ in_list | ].
  destruct (Hkeys "channel_username") as [ v3 E3 ]; [ in_list | ].
  destruct (Hkeys "channel_title") as [ v4 E4 ]; [ in_list | ].
  destruct (Hkeys "message_date") as [ v5 E5 ]; [ in_list | ].
  destruct (Hkeys "message_text") as [ v6 E6 ]; [ in_list | ].
  destruct (Hints "views") as [ n7 E7 ]; [ in_list | ].
  destruct (Hints "forwards") as [ n8 E8 ]; [ in_list | ].
  destruct (Hints "replies") as [ n9 E9 ]; [ in_list | ].
  destruct (Hkeys "media_type") as [ v10 E10 ]; [ in_list | ].
  destruct (Hkeys "media_file") as [ v11 E11 ]; [ in_list | ].
  destruct (Hkeys "message_url") as [ v12 E12 ]; [ in_list | ].
  destruct (Hkeys "scraped_at") as [ v13 E13 ]; [ in_list | ].
  unfold bind_params, int_param, param.
  rewrite E1, E2, E3, E4, E5, E6, E7, E8, E9, E10, E11, E12, E13.
  cbn. eauto.
Qed.

(** A batch of bindable records is loaded without an error. *)
Lemma execute_batch_total t batch :
  Forall (fun rec => ∃ row, bind_params rec = Ok row) batch →
  ∃ t', execute_batch SQL t batch = Ok t'.
Proof.
  intros H. revert t. induction H as [ | rec recs [ row E ] _ IH ]; intros t.
  - by exists t.
  - rewrite (execute_batch_cons _ _ _ _ E). apply IH.
Qed.

(** Loading never removes a key, and every record of the batch has its
    key in the table afterwards. *)
Lemma execute_batch_keys t batch t' :
  execute_batch SQL t batch = Ok t' →
  (∀ k, has_key t k = true → has_key t' k = true)
  ∧ (∀ rec row, rec ∈ batch → bind_params rec = Ok row →
                has_key t' (message_id row) = true).
Proof.
  revert t. induction batch as [ | rec recs IH ]; intros t.
  - intros [= <-]. split; [ done | ].
    intros rec row H. by apply elem_of_nil in H.
  - destruct (bind_params rec) as [ row | e ] eqn:E.
    2:{ unfold execute_batch. cbn [foldM]. by rewrite E. }
    rewrite (execute_batch_cons _ _ _ _ E). intros H.
    destruct (IH _ H) as [ IH1 IH2 ].
    assert (∀ k, has_key t k = true →
                 has_key (if has_key t (message_id row) then t else t ++ [ row ]) k = true)
      as Hmono.
    { intros k Hk. destruct (has_key t (message_id row)); [ done | ].
      rewrite has_key_snoc, Hk. done. }
    split.
    + intros k Hk. by apply IH1, Hmono.
    + intros rec' row' [ -> | Hin ]%elem_of_cons E'; [ | by eapply IH2 ].
      rewrite E in E'. injection E' as <-. apply IH1.
      destruct (has_key t (message_id row)) eqn:Ek; [ done | ].
      rewrite has_key_snoc, Z.eqb_refl. by rewrite orb_true_r.
Qed.

(** A batch whose keys are all in the table leaves the table as it is. *)
Lemma execute_batch_absorbed t batch :
  (∀ rec, rec ∈ batch →
          ∃ row, bind_params rec = Ok row ∧ has_key t (message_id row) = true) →
  execute_batch SQL t batch = Ok t.
Proof.
  induction batch as [ | rec recs IH ]; intros H; [ done | ].
  destruct (H rec) as (row & E & Hk); [ by left | ].
  rewrite (execute_batch_cons _ _ _ _ E), Hk. apply IH.
  intros rec' Hin. apply H. by right.
Qed.

(** Keys stay unique. *)
Lemma execute_batch_unique t batch t' :
  execute_batch SQL t batch = Ok t' →
  NoDup (message_id <$> t) → NoDup (message_id <$> t').
Proof.
  revert t. induction batch as [ | rec recs IH ]; intros t.
  - by intros [= <-].
  - destruct (bind_params rec) as [ row | e ] eqn:E.
    2:{ unfold execute_batch. cbn [foldM]. by rewrite E. }
    rewrite (execute_batch_cons _ _ _ _ E). intros H Hnd. apply (IH _ H).
    destruct (has_key t (message_id row)) eqn:Ek; [ done | ].
    rewrite fmap_app. apply NoDup_app. split; [ done | ]. split.
    + intros k Hk [ -> | [] %elem_of_nil ]%elem_of_cons.
      apply list_elem_of_fmap in Hk as (r' & Hr' & Hin).
      assert (has_key t (message_id row) = true) as Hc; [ | congruence ].
      unfold has_key. apply existsb_exists. exists r'. split.
      * by apply list_elem_of_In.
      * rewrite Hr'. apply Z.eqb_refl.
    + apply NoDup_singleton.
Qed.

(** The table grows by at most one row per record. *)
Lemma execute_batch_length t batch t' :
  execute_batch SQL t batch = Ok t' →
  (length t ≤ length t' ≤ length t + length batch)%nat.
Proof.
  revert t. induction batch as [ | rec recs IH ]; intros t.
  - intros [= <-]. simpl. lia.
  - destruct (bind_params rec) as [ row | e ] eqn:E.
    2:{ unfold execute_batch. cbn [foldM]. by rewrite E. }
    rewrite (execute_batch_cons _ _ _ _ E). intros H. apply IH in H.
    destruct (has_key t (message_id row)); simpl;
      rewrite ?length_app in H; simpl in H; lia.
Qed.

(** Records with pairwise different keys, none of them in the table, are
    all inserted. *)
Lemma execute_batch_fresh t batch t' :
  execute_batch SQL t batch = Ok t' →
  NoDup (record_id <$> batch) →
  (∀ rec n, rec ∈ batch → record_id rec = VInt n → has_key t n = false) →
  length t' = (length t + length batch)%nat.
Proof.
  revert t. induction batch as [ | rec recs IH ]; intros t.
  - intros [= <-] _ _. simpl. lia.
  - destruct (bind_params rec) as [ row | e ] eqn:E.
    2:{ unfold execute_batch. cbn [foldM]. by rewrite E. }
    rewrite (execute_batch_cons _ _ _ _ E). intros H Hnd Hfresh.
    pose proof (bind_params_message_id _ _ E) as Eid.
    assert (record_id rec = VInt (message_id row)) as Erec.
    { unfold record_id. by rewrite Eid. }
    rewrite (Hfresh rec (message_id row)) in H by (done || by left).
    rewrite fmap_cons in Hnd. apply NoDup_cons in Hnd as [ Hnot Hnd ].
    apply IH in H; [ rewrite H, length_app; simpl; lia | done | ].
    intros rec' n Hin En. rewrite has_key_snoc.
    rewrite (Hfresh rec' n) by (done || by right). simpl.
    apply Z.eqb_neq. intros Heq. apply Hnot.
    apply list_elem_of_fmap. exists rec'. split; [ | done ].
    rewrite Erec, En. by rewrite Heq.
Qed.

Section Reading.

Variable mx : nat.

Lemma normalize_items_normalized items records :
  normalize_items mx items = Ok records → Forall (normalized mx) records.
Proof.
  revert records. induction items as [ | v items IH ]; intros records.
  - by intros [= <-].
  - cbn [normalize_items].
    destruct v as [ | | | | | | d ]; try apply IH.
    destruct (normalize_dict mx d) as [ r | ] eqn:E; [ | done ].
    destruct (normalize_items mx items) as [ rs | ]; [ | done ].
    cbn. intros [= <-]. constructor; [ by exists d | by apply IH ].
Qed.

Lemma normalize_rows_normalized rows records :
  normalize_rows mx rows = Ok records → Forall (normalized mx) records.
Proof.
  revert records. induction rows as [ | d rows IH ]; intros records.
  - by intros [= <-].
  - cbn [normalize_rows].
    destruct (normalize_dict mx d) as [ r | ] eqn:E; [ | done ].
    destruct (normalize_rows mx rows) as [ rs | ]; [ | done ].
    cbn. intros [= <-]. constructor; [ by exists d | by apply IH ].
Qed.

(** Everything [load_records] returns went through the normalizer. *)
Lemma load_records_normalized files records :
  load_records mx files = Ok records → Forall (normalized mx) records.
Proof.
  revert records. induction files as [ | f files IH ]; intros records.
  - by intros [= <-].
  - cbn [load_records].
    set (here := if endswith (file_name f) ".json" then _ else _).
    assert (∀ rs, here = Ok rs → Forall (normalized mx) rs) as Hhere.
    { intros rs. unfold here.
      destruct (endswith (file_name f) ".json").
      - unfold load_json. destruct (json_data f) as [ data | ]; [ | done ].
        rewrite result_bind_ok. destruct data; try done.
        + by intros [= <-].
        + apply normalize_items_normalized.
        + apply normalize_items_normalized.
      - destruct (endswith (file_name f) ".csv").
        + unfold load_csv. destruct (csv_rows f); [ | done ].
          rewrite result_bind_ok. apply normalize_rows_normalized.
        + by intros [= <-]. }
    destruct here as [ rs | ]; [ | done ].
    destruct (load_records mx files) as [ rest | ]; [ | done ].
    cbn. intros [= <-]. apply Forall_app. split; [ by apply Hhere | by apply IH ].
Qed.

End Reading.

End WarehouseFacts.

Module WarehouseSpec.

Import Loader Samples NormalizerFacts WarehouseFacts.

Lemma blank_record_normalized : normalized default_max_str_digits blank_record.
Proof.
  exists ∅. unfold blank_record.
  destruct (normalize_dict_ok default_max_str_digits ∅) as (r & E & _).
  - intros f s _. by rewrite lookup_empty.
  - by rewrite E.
Qed.

(** C1: loading a batch of normalized records a second time changes
    nothing, so the table has the same number of rows as after the first
    load; no load raises, no [message_id] ends up twice in the table, and
    an insert whose [message_id] is already committed returns the table as
    it was. *)
Theorem load_twice_same_rows (mx : nat) (table : list row)
        (batch : list (gmap string pyval)) :
  Forall (normalized mx) batch →
  ∃ once twice,
    execute_batch SQL table batch = Ok once
    ∧ execute_batch SQL once batch = Ok twice
    ∧ twice = once
    ∧ length twice = length once
    ∧ (NoDup (message_id <$> table) → NoDup (message_id <$> twice))
    ∧ (∀ t r, has_key t (message_id r) = true → insert SQL t r = Ok t).
Proof.
  intros Hnorm.
  assert (Forall (fun rec => ∃ row, bind_params rec = Ok row) batch) as Hbind.
  { eapply Forall_impl; [ exact Hnorm | ]. intros rec. apply normalized_bindable. }
  destruct (execute_batch_total table batch Hbind) as [ once E1 ].
  assert (execute_batch SQL once batch = Ok once) as E2.
  { apply execute_batch_absorbed. intros rec Hin.
    rewrite Forall_forall in Hbind. destruct (Hbind rec Hin) as [ row E ].
    exists row. split; [ done | ].
    destruct (execute_batch_keys _ _ _ E1) as [ _ Hk ]. by apply (Hk rec). }
  exists once, once. split_and!; try done.
  - by apply (execute_batch_unique table batch).
  - intros t r Hk. by rewrite insert_SQL, Hk.
Qed.

Lemma load_twice_same_rows_witness :
  Forall (normalized default_max_str_digits) [ blank_record; blank_record ]
  ∧ ∃ once twice,
      execute_batch SQL [] [ blank_record; blank_record ] = Ok once
      ∧ execute_batch SQL once [ blank_record; blank_record ] = Ok twice
      ∧ twice = once
      ∧ length twice = length once
      ∧ (NoDup (message_id <$> []) → NoDup (message_id <$> twice))
      ∧ (∀ t r, has_key t (message_id r) = true → insert SQL t r = Ok t).
Proof.
  assert (Forall (normalized default_max_str_digits) [ blank_record; blank_record ])
    as H by (repeat constructor; apply blank_record_normalized).
  split; [ exact H | ].
  exact (load_twice_same_rows default_max_str_digits [] _ H).
Defined.

(** C5 as stated fails: a file with two empty records makes [main] report
    two loaded messages although the second one collides with the first
    and only one row is added. *)
Lemma main_counts_dropped_records :
  ¬ reports_inserted [] (main default_max_str_digits [ two_blank_records ] true []).
Proof. vm_compute. intros H. discriminate H. Qed.

(** C5, amended: the loader's run reports the number of records it
    submitted, whether or not they were inserted; the rows actually
    inserted are at most that many, and exactly that many when the
    [message_id]s of the batch are pairwise different and none of them is
    in the table yet. *)
Theorem main_reports_batch_size (mx : nat) (files : list file)
        (table : list row) (records : list (gmap string pyval)) :
  load_records mx files = Ok records →
  records ≠ [] →
  ∃ table',
    main mx files true table = Ok (table', LoadedMessages (length records))
    ∧ (inserted table table' ≤ length records)%nat
    ∧ (NoDup (record_id <$> records) →
       (∀ rec n, rec ∈ records → record_id rec = VInt n → has_key table n = false) →
       inserted table table' = length records).
Proof.
  intros Hload Hne.
  assert (Forall (fun rec => ∃ row, bind_params rec = Ok row) records) as Hbind.
  { eapply Forall_impl; [ by apply (load_records_normalized mx files) | ].
    intros rec. apply normalized_bindable. }
  destruct (execute_batch_total table records Hbind) as [ table' E ].
  exists table'. split_and!.
  - unfold main. rewrite Hload, result_bind_ok.
    destruct records; [ done | ]. by rewrite E.
  - apply execute_batch_length in E. unfold inserted. lia.
  - intros Hnd Hfresh. unfold inserted.
    rewrite (execute_batch_fresh _ _ _ E Hnd Hfresh). lia.
Qed.

Lemma main_reports_batch_size_witness :
  load_records default_max_str_digits [ two_blank_records ]
  = Ok [ blank_record; blank_record ]
  ∧ ∃ table',
      main default_max_str_digits [ two_blank_records ] true []
      = Ok (table', LoadedMessages 2)
      ∧ (inserted [] table' ≤ 2)%nat.
Proof.
  assert (load_records default_max_str_digits [ two_blank_records ]
          = Ok [ blank_record; blank_record ]) as H by (vm_compute; reflexivity).
  split; [ exact H | ].
  destruct (main_reports_batch_size default_max_str_digits
              [ two_blank_records ] [] _ H ltac:(discriminate))
    as (table' & E & Hle & _).
  exists table'. split; [ exact E | exact Hle ].
Defined.

End WarehouseSpec.

(** ** The manifest writer *)

Module ManifestSpec.

Import Datalake Samples.

Lemma sum_values_empty : sum_values ∅ = 0.
Proof. reflexivity. Qed.

Lemma sum_values_insert (counts : gmap string Z) channel n :
  counts !! channel = None →
  sum_values (<[ channel := n ]> counts) = sum_values counts + n.
Proof.
  intros H. unfold sum_values.
  rewrite map_fold_insert_L; [ done | intros; lia | done ].
Qed.

Lemma sum_values_abc : sum_values counts_abc = 10.
Proof. by vm_compute. Qed.

(** The document at the returned path is the payload. *)
Lemma write_manifest_file base_path date_str counts extra run_utc d :
  files (write_manifest base_path date_str counts extra run_utc d).1
    !! (write_manifest base_path date_str counts extra run_utc d).2
  = Some (VDict (manifest_payload date_str run_utc counts extra)).
Proof. unfold write_manifest. simpl. apply lookup_insert_eq. Qed.

(** C7 as stated fails: with [extra = {"total_messages": 0}] the manifest
    written for [{"A": 3, "B": 0, "C": 7}] has [total_messages] 0, not
    10. *)
Lemma write_manifest_extra_overrides :
  ¬ manifest_correct counts_abc
      (files (write_manifest "data" "2026-01-16" counts_abc (Some extra_total)
                             "2026-01-16T00:00:00+00:00" empty_disk).1
         !! (write_manifest "data" "2026-01-16" counts_abc (Some extra_total)
                            "2026-01-16T00:00:00+00:00" empty_disk).2).
Proof.
  rewrite write_manifest_file. intros (payload & E & Htotal & _).
  assert (manifest_payload "2026-01-16" "2026-01-16T00:00:00+00:00"
                           counts_abc (Some extra_total) = payload) as <-
    by congruence.
  rewrite sum_values_abc in Htotal.
  vm_compute in Htotal. discriminate Htotal.
Qed.

(** C7, amended: for every per-channel counts mapping, when the optional
    [extra] metadata is absent or has no [total_messages] or [channels]
    key of its own, the written manifest's [total_messages] is the sum of
    the mapping's values and its [channels] is the input mapping. *)
Theorem write_manifest_totals base_path date_str (counts : gmap string Z)
        extra run_utc d :
  keeps_totals extra →
  manifest_correct counts
    (files (write_manifest base_path date_str counts extra run_utc d).1
       !! (write_manifest base_path date_str counts extra run_utc d).2).
Proof.
  intros Hextra. rewrite write_manifest_file. eexists. split; [ done | ].
  unfold manifest_payload, update_with.
  destruct extra as [ e | ].
  - destruct (Hextra e eq_refl) as [ Ht Hc ]. case_bool_decide.
    + split; by simplify_map_eq.
    + rewrite !lookup_union_r by done. split; by simplify_map_eq.
  - split; by simplify_map_eq.
Qed.

Lemma write_manifest_totals_witness :
  keeps_totals None
  ∧ ∃ payload : gmap string pyval,
      files (write_manifest "data" "2026-01-16" counts_abc None
                            "2026-01-16T00:00:00+00:00" empty_disk).1
        !! (write_manifest "data" "2026-01-16" counts_abc None
                           "2026-01-16T00:00:00+00:00" empty_disk).2
      = Some (VDict payload)
      ∧ payload !! "total_messages" = Some (VInt 10)
      ∧ payload !! "channels" = Some (VDict (VInt <$> counts_abc)).
Proof.
  assert (keeps_totals None) as H by (intros e He; discriminate He).
  split; [ exact H | ].
  destruct (write_manifest_totals "data" "2026-01-16" counts_abc None
              "2026-01-16T00:00:00+00:00" empty_disk H)
    as (payload & E & Ht & Hc).
  exists payload. split; [ exact E | ]. split; [ | exact Hc ].
  rewrite Ht. reflexivity.
Defined.

End ManifestSpec.

(** ** The channel scraper *)

Module ScraperSpec.

Import Scraper Samples.

(** A signal met after fewer posts than the limit leaves the loop with
    the progress made on the posts before it. *)
Lemma enumerate_until_raise c channel e image_dir before err rest :
  only_yields before →
  ∀ limit p,
    (length before < limit)%nat →
    enumerate c channel e image_dir limit (before ++ IterRaise err :: rest) p
    = ((enumerate c channel e image_dir limit before p).1, Some err)
    ∧ (enumerate c channel e image_dir limit before p).2 = None.
Proof.
  intros H. induction H as [ | s before (msg & clock & ->) _ IH ];
    intros limit p Hlen.
  - destruct limit; [ simpl in Hlen; lia | done ].
  - destruct limit as [ | limit ]; [ simpl in Hlen; lia | ].
    simpl in Hlen. cbn [enumerate app].
    destruct (build_message c channel e image_dir msg clock);
      apply IH; lia.
Qed.

(** The loop only ever appends to the messages and to the sleeps. *)
Lemma enumerate_extends c channel e image_dir steps :
  ∀ limit p,
    ∃ more naps,
      (enumerate c channel e image_dir limit steps p).1
      = {| messages := messages p ++ more; sleeps := sleeps p ++ naps |}.
Proof.
  induction steps as [ | s steps IH ]; intros limit p.
  - exists [], []. rewrite !app_nil_r. by destruct limit, p.
  - destruct limit as [ | limit ].
    { exists [], []. rewrite !app_nil_r. by destruct p. }
    destruct s as [ msg clock | err ]; cbn [enumerate].
    + destruct (build_message c channel e image_dir msg clock) as [ m | ].
      * destruct (IH limit {| messages := messages p ++ [ m ];
                              sleeps := sleeps p ++ [ MESSAGE_DELAY ] |})
          as (more & naps & ->).
        exists (m :: more), (MESSAGE_DELAY :: naps). simpl.
        by rewrite <- !app_assoc.
      * apply IH.
    + exists [], []. rewrite !app_nil_r. by destruct p.
Qed.

(** Within the limit, the loop collects the message of every post whose
    record can be built. *)
Lemma enumerate_collects c channel e image_dir steps :
  only_yields steps →
  ∀ limit p,
    (length steps ≤ limit)%nat →
    messages (enumerate c channel e image_dir limit steps p).1
    = messages p ++ built c channel e image_dir steps.
Proof.
  intros H. induction H as [ | s steps (msg & clock & ->) _ IH ];
    intros limit p Hlen.
  - cbn. rewrite app_nil_r. by destruct limit.
  - destruct limit as [ | limit ]; [ simpl in Hlen; lia | ].
    simpl in Hlen. cbn [enumerate].
    destruct (build_message c channel e image_dir msg clock) as [ m | ] eqn:E;
      rewrite IH by lia; unfold built; cbn; rewrite E;
      [ by rewrite <- app_assoc | done ].
Qed.

(** A wait signal met while the channel is resolved: the scraper sleeps and
    returns no message. *)
Lemma scrape_channel_flood_wait_on_entity c channel base_path seconds :
  get_entity c channel = Raise (FloodWaitError seconds) →
  scrape_channel c channel base_path = ([ inject_Z seconds ], Ok []).
Proof. intros E. unfold scrape_channel. by rewrite E. Qed.




(** C8 as stated fails: for an entity without a title the emitted
    message has the empty string as [channel_title], not the configured
    channel identifier. *)
Lemma missing_title_becomes_empty :
  ∃ m,
    build_message throttled_client "@cheMed123" bare_entity "data/raw/images"
                  post_one "2026-01-16T12:00:00" = Ok m
    ∧ ¬ claimed_defaults "@cheMed123" bare_entity post_one m.
Proof.
  eexists. split; [ reflexivity | ].
  intros (_ & Htitle & _). specialize (Htitle (or_introl eq_refl)).
  discriminate Htitle.
Qed.

(** C8, amended: every post yields a message unless its media is a
    document whose [document] is missing (that post is skipped); in the
    emitted message a missing username falls back to the configured
    channel identifier, a missing title falls back to the empty string, a
    missing or failing reply count gives [replies = 0], and missing text
    gives the empty string. *)
Theorem build_message_defaults c channel e image_dir msg clock :
  match build_message c channel e image_dir msg clock with
  | Ok m =>
      (missing (entity_username e) → channel_username m = channel)
      ∧ (missing (entity_title e) → channel_title m = EmptyString)
      ∧ (post_replies msg = RepliesFails ∨ post_replies msg = RepliesNone →
         replies m = 0)
      ∧ (missing (post_text msg) → text m = EmptyString)
  | Raise _ => post_media msg = MessageMediaDocument None
  end.
Proof.
  unfold build_message.
  destruct (detect_media_type (post_media msg)) as [ mt | err ] eqn:E.
  - cbn. split_and!.
    + by intros [ -> | -> ].
    + by intros [ -> | -> ].
    + unfold extract_replies. by intros [ -> | -> ].
    + by intros [ -> | -> ].
  - cbn. destruct (post_media msg) as [ | | [ attrs | ] | ]; done.
Qed.

End ScraperSpec.

(** ** The pipeline *)

Module PipelineSpec.

Import Pipeline Samples.

(** *** Transform *)

(** Once the working directory could be read, and as long as it can be
    returned to, the Transform stage returns a summary whatever the first
    [chdir] and the commands do. *)
Lemma run_dbt_transformations_returns PROJECT_ROOT w load_result original_dir :
  getcwd w = Ok original_dir →
  chdir_back w original_dir = Ok () →
  ∃ s, run_dbt_transformations PROJECT_ROOT w load_result = Ok s
       ∧ (s !! "dbt_status" = Some (VStr "success")
          ∨ s !! "dbt_status" = Some (VStr "failed")
            ∧ s !! "tests_passed" = Some (VBool false)).
Proof.
  intros Hcwd Hback. unfold run_dbt_transformations, try_finally, catch.
  rewrite Hcwd. cbn [mbind result_bind]. rewrite Hback.
  destruct (chdir w _) as [ [] | e ]; cbn -[run_commands].
  - destruct (run_commands w commands) as [ [] | e ]; cbn;
      eexists; (split; [ reflexivity | ]); [ left | right ]; by simplify_map_eq.
  - eexists. split; [ reflexivity | ]. right. by simplify_map_eq.
Qed.

(** A failing [dbt run] gives the failed summary. *)
Lemma run_dbt_transformations_run_fails PROJECT_ROOT w load_result original_dir code :
  getcwd w = Ok original_dir →
  chdir_back w original_dir = Ok () →
  chdir w (Datalake.path_join PROJECT_ROOT [ "medical_warehouse" ]) = Ok () →
  subprocess_run w [ "dbt"; "run" ] = Ok code →
  code ≠ 0 →
  ∃ s, run_dbt_transformations PROJECT_ROOT w load_result = Ok s
       ∧ s !! "dbt_status" = Some (VStr "failed")
       ∧ s !! "error" = Some (VStr "dbt command failed: ['dbt', 'run']").
Proof.
  intros Hcwd Hback Hcd Hrun Hcode. unfold run_dbt_transformations, try_finally, catch.
  rewrite Hcwd. cbn [mbind result_bind]. rewrite Hback, Hcd. cbn. rewrite Hrun. cbn.
  apply Z.eqb_neq in Hcode. rewrite Hcode. cbn.
  eexists. split; [ reflexivity | ]. split; by simplify_map_eq.
Qed.

(** C4, where the code departs from the claim: [dbt run] and
    [dbt docs generate] succeed and [dbt test] fails.  The stage goes on,
    as the claim says, but its summary says [tests_passed = True] where
    the claim has [tests_passed = false]. *)
Theorem failed_tests_reported_as_passed PROJECT_ROOT (load_result : gmap string pyval) :
  subprocess_run tests_fail [ "dbt"; "test" ] = Ok 1
  ∧ run_dbt_transformations PROJECT_ROOT tests_fail load_result
    = Ok (<[ "dbt_status" := VStr "success" ]>
            (<[ "loaded_records" := get load_result "loaded_records" (VInt 0) ]>
               (<[ "tests_passed" := VBool true ]> ∅))).
Proof. split; reflexivity. Qed.

(** *** Load *)

Section LoadFacts.

Context {L : Type}.
Variable w : load_world L.

Lemma load_file_events st json_file :
  opened (load_file w st json_file).2 = opened st.2 ++ [ json_file ]
  ∧ submitted (load_file w st json_file).2 `sublist_of` submitted st.2 ++ [ json_file ].
Proof.
  destruct st as [ [ loader total ] events ]. unfold load_file, opened, submitted.
  destruct (read_json w json_file) as [ data | e ]; cbn.
  - destruct (truthy data); cbn.
    + destruct (load_to_raw w loader data) as [ loader' [ n | e ] ]; cbn;
        rewrite !omap_app; cbn; split; [ done | done | done | done ].
    + rewrite !omap_app; cbn. rewrite app_nil_r. split; [ done | ].
      by apply sublist_inserts_r.
  - rewrite !omap_app; cbn. rewrite app_nil_r. split; [ done | ].
    by apply sublist_inserts_r.
Qed.

(** The loop opens every file it is given, once and in order, and hands
    no other file to the loader. *)
Lemma fold_load_file_events json_files :
  ∀ st,
    opened (fold_left (load_file w) json_files st).2 = opened st.2 ++ json_files
    ∧ submitted (fold_left (load_file w) json_files st).2
        `sublist_of` submitted st.2 ++ json_files.
Proof.
  induction json_files as [ | f fs IH ]; intros st.
  - cbn. by rewrite !app_nil_r.
  - cbn [fold_left]. destruct (IH (load_file w st f)) as [ IH1 IH2 ].
    destruct (load_file_events st f) as [ E1 E2 ].
    split.
    + rewrite IH1, E1. by rewrite <- app_assoc.
    + etrans; [ exact IH2 | ].
      replace (submitted st.2 ++ f :: fs)
        with ((submitted st.2 ++ [ f ]) ++ fs) by (by rewrite <- app_assoc).
      by apply sublist_app.
Qed.

End LoadFacts.

(** Whatever path the stage takes, the files it opens are the first files
    of a directory listing, fifty at most. *)
Lemma load_stage_opens_at_most_fifty {L : Type} HAS_LOADER (w : load_world L)
      (scrape_result : gmap string pyval) :
  (length (opened (load_raw_to_postgres HAS_LOADER w scrape_result).2) ≤ 50)%nat.
Proof.
  unfold load_raw_to_postgres.
  destruct HAS_LOADER; cbn [negb]; [ | cbn; lia ].
  destruct (item scrape_result "scraped_files") as [ n | ]; [ | cbn; lia ].
  destruct (eq_zero n); [ cbn; lia | ].
  destruct (item scrape_result "output_dir") as [ [ | | | | raw_dir | | ] | ];
    try (cbn; lia).
  destruct (get_connection w) as [ loader | ]; [ | cbn; lia ].
  destruct (fold_load_file_events w (firstn 50 (rglob_json w raw_dir)) (loader, 0, []))
    as [ E _ ].
  destruct (fold_left _ _ _) as [ [ ? ? ] events ]. cbn in *.
  rewrite E, length_take. lia.
Qed.



(** *** Enrich and Publish *)

(** The Enrich stage returns a summary whatever the detector does. *)
Lemma run_yolo_enrichment_returns HAS_LOADER HAS_YOLO PROJECT_ROOT w dbt_result :
  ∃ s, run_yolo_enrichment HAS_LOADER HAS_YOLO PROJECT_ROOT w dbt_result = Ok s.
Proof.
  unfold run_yolo_enrichment, catch.
  destruct HAS_YOLO; cbn [negb]; [ | eauto ].
  destruct (images_dir_exists w); cbn [negb]; [ | eauto ].
  match goal with |- ∃ s, match ?body with _ => _ end = _ => destruct body end;
    eauto.
Qed.

Lemma run_yolo_enrichment_skipped HAS_LOADER HAS_YOLO PROJECT_ROOT w dbt_result :
  HAS_YOLO = false ∨ images_dir_exists w = false →
  ∃ reason,
    run_yolo_enrichment HAS_LOADER HAS_YOLO PROJECT_ROOT w dbt_result
    = Ok (skipped reason).
Proof.
  intros H. unfold run_yolo_enrichment.
  destruct HAS_YOLO; cbn [negb]; [ | eauto ].
  destruct H as [ H | H ]; [ done | ]. rewrite H. cbn [negb]. eauto.
Qed.

(** C6, as far as the stage functions go: when the detector module or the
    images directory is missing, the Enrich stage does not raise, whatever
    the Transform stage handed over: it returns a summary whose status
    ([yolo_status]) is "skipped", with [detected_images] 0 and no category;
    and the Publish stage, given that summary, returns one that reports
    that status and zero processed images.  Whether a run gets from the one
    stage to the other is up to the job that chains them, whose body ends
    in [return api_started]. *)
Theorem enrich_skipped_then_publish (HAS_LOADER HAS_YOLO : bool) (PROJECT_ROOT : string)
        (w : yolo_world) (dbt_result : gmap string pyval) :
  HAS_YOLO = false ∨ images_dir_exists w = false →
  ∃ enriched published : gmap string pyval,
    run_yolo_enrichment HAS_LOADER HAS_YOLO PROJECT_ROOT w dbt_result = Ok enriched
    ∧ enriched !! "yolo_status" = Some (VStr "skipped")
    ∧ enriched !! "detected_images" = Some (VInt 0)
    ∧ enriched !! "category_counts" = Some (VDict ∅)
    ∧ start_fastapi enriched = Ok published
    ∧ published !! "api_status" = Some (VStr "ready")
    ∧ published !! "total_processed" = Some (VInt 0)
    ∧ published !! "yolo_status" = Some (VStr "skipped").
Proof.
  intros Hmissing.
  destruct (run_yolo_enrichment_skipped HAS_LOADER HAS_YOLO PROJECT_ROOT
              w dbt_result Hmissing) as (reason & Hy).
  exists (skipped reason). eexists.
  split_and!; [ exact Hy | by simplify_map_eq | by simplify_map_eq
              | by simplify_map_eq | reflexivity | .. ].
  - by simplify_map_eq.
  - unfold get, skipped. by simplify_map_eq.
  - unfold get, skipped. by simplify_map_eq.
Qed.

Lemma enrich_skipped_then_publish_witness :
  ∃ enriched published : gmap string pyval,
    run_yolo_enrichment true true "/opt/pipeline" no_images ∅ = Ok enriched
    ∧ enriched !! "yolo_status" = Some (VStr "skipped")
    ∧ start_fastapi enriched = Ok published
    ∧ published !! "total_processed" = Some (VInt 0)
    ∧ published !! "yolo_status" = Some (VStr "skipped").
Proof.
  destruct (enrich_skipped_then_publish true true "/opt/pipeline" no_images ∅
              (or_intror eq_refl))
    as (enriched & published & Hy & Hs & _ & _ & Hp & _ & Hn & Hps).
  exists enriched, published.
  split; [ exact Hy | ]. split; [ exact Hs | ]. split; [ exact Hp | ].
  split; [ exact Hn | exact Hps ].
Defined.

End PipelineSpec.

(** * Further properties *)

(** ** The record normalizer, continued *)

Module NormalizerMore.

Import Loader Samples Cases NormalizerFacts.

Section WithDigitBound.

Variable mx : nat.

Lemma rename_key_none (r : gmap string pyval) kv k :
  r !! k = None → k ≠ kv.2 → rename_key r kv !! k = None.
Proof.
  intros H Hk. unfold rename_key. destruct (r !! kv.1); [ | done ].
  rewrite lookup_insert_ne by done.
  destruct (decide (kv.1 = k)) as [ -> | ].
  - apply lookup_delete_eq.
  - by rewrite lookup_delete_ne.
Qed.

Lemma rename_key_source (r : gmap string pyval) kv :
  kv.1 ≠ kv.2 → rename_key r kv !! kv.1 = None.
Proof.
  intros Hk. unfold rename_key. destruct (r !! kv.1) eqn:E; [ | done ].
  rewrite lookup_insert_ne by done. apply lookup_delete_eq.
Qed.

Lemma fold_rename_none kvs (r : gmap string pyval) k :
  Forall (fun kv => k ≠ kv.2) kvs →
  r !! k = None ∨ k ∈ kvs.*1 →
  fold_left rename_key kvs r !! k = None.
Proof.
  intros H. revert r. induction H as [ | kv kvs Hk _ IH ]; intros r Hr.
  - destruct Hr as [ Hr | Hr ]; [ done | by apply elem_of_nil in Hr ].
  - cbn [fold_left]. apply IH. rewrite fmap_cons in Hr.
    destruct Hr as [ Hr | [ -> | Hr ]%elem_of_cons ].
    + left. by apply rename_key_none.
    + left. by apply rename_key_source.
    + by right.
Qed.

Lemma fold_rename_target kvs (r : gmap string pyval) src tgt x :
  NoDup (kvs.*1 ++ kvs.*2) →
  (src, tgt) ∈ kvs →
  r !! src = Some x →
  fold_left rename_key kvs r !! tgt = Some x.
Proof.
  revert r. induction kvs as [ | kv kvs IH ]; intros r Hnd Hin Hr.
  - by apply elem_of_nil in Hin.
  - cbn [fold_left].
    assert (NoDup (kvs.*1 ++ kvs.*2)) as Hnd'.
    { rewrite !fmap_cons in Hnd. cbn in Hnd.
      apply NoDup_cons in Hnd as [ _ Hnd ].
      apply NoDup_app in Hnd as (H1 & H2 & H3).
      apply NoDup_cons in H3 as [ _ H3 ].
      apply NoDup_app. split; [ done | ]. split; [ | done ].
      intros y Hy Hy'. apply (H2 y Hy). by right. }
    apply elem_of_cons in Hin as [ <- | Hin ].
    + rewrite fold_rename_other.
      * unfold rename_key. cbn. rewrite Hr. apply lookup_insert_eq.
      * rewrite !fmap_cons in Hnd. cbn in Hnd.
        apply Forall_forall. intros kv' Hkv'. split; intros ->.
        -- apply NoDup_cons in Hnd as [ _ Hnd ].
           apply NoDup_app in Hnd as (H1 & H2 & H3).
           apply (H2 kv'.1); [ by apply list_elem_of_fmap_2 | by left ].
        -- apply NoDup_cons in Hnd as [ _ Hnd ].
           apply NoDup_app in Hnd as (H1 & H2 & H3).
           apply NoDup_cons in H3 as [ H3 _ ]. apply H3.
           by apply list_elem_of_fmap_2.
    + apply IH; [ done | done | ].
      rewrite rename_key_other; [ done | | ].
      * intros ->. rewrite !fmap_cons in Hnd. cbn in Hnd.
        apply NoDup_cons in Hnd as [ Hnd _ ]. apply Hnd.
        apply elem_of_app. left.
        by apply (list_elem_of_fmap_2 fst _ (kv.1, tgt)).
      * intros ->. rewrite !fmap_cons in Hnd. cbn in Hnd.
        apply NoDup_cons in Hnd as [ _ Hnd ].
        apply NoDup_app in Hnd as (H1 & H2 & H3).
        apply (H2 kv.2); [ | by left ].
        by apply (list_elem_of_fmap_2 fst _ (kv.2, tgt)).
Qed.

Lemma mapping_NoDup : NoDup (mapping.*1 ++ mapping.*2).
Proof. apply (bool_decide_unpack _). by vm_compute. Qed.

Lemma blank_blank v : blank (blank v) = blank v.
Proof.
  destruct v as [ | | | | s | | ]; try done. cbn.
  by destruct (String.eqb s EmptyString) eqn:E; cbn; rewrite ?E.
Qed.

Lemma blank_to_none_lookup (r r' : gmap string pyval) f k :
  blank_to_none r f = Ok r' →
  r' !! k = if decide (k = f) then blank <$> (r !! k) else r !! k.
Proof.
  unfold blank_to_none. destruct (r !! f) as [ v | ] eqn:E; [ | done ].
  intros H. case_decide as Hk.
  - subst k. rewrite E. cbn.
    destruct v as [ | | | | s | | ]; simplify_eq; try done. cbn.
    destruct (String.eqb s EmptyString); [ by rewrite lookup_insert_eq | done ].
  - destruct v as [ | | | | s | | ]; simplify_eq; try done.
    destruct (String.eqb s EmptyString); [ by rewrite lookup_insert_ne | done ].
Qed.

Lemma foldM_blank_lookup fs (r r' : gmap string pyval) k :
  foldM blank_to_none r fs = Ok r' →
  r' !! k = if decide (k ∈ fs) then blank <$> (r !! k) else r !! k.
Proof.
  revert r. induction fs as [ | f fs IH ]; intros r; cbn [foldM].
  - intros [= <-]. rewrite decide_False; [ done | apply not_elem_of_nil ].
  - destruct (blank_to_none r f) as [ r1 | ] eqn:E; [ | done ].
    rewrite WarehouseFacts.result_bind_ok. intros H.
    rewrite (IH _ H), (blank_to_none_lookup _ _ _ k E).
    destruct (decide (k ∈ fs)) as [ Hin | Hin ];
      destruct (decide (k = f)) as [ Hk | Hk ];
      destruct (decide (k ∈ f :: fs)) as [ Hc | Hc ];
      try done;
      try (exfalso; apply Hc, elem_of_cons; by auto).
    + destruct (r !! k); cbn; [ by rewrite blank_blank | done ].
    + apply elem_of_cons in Hc as [ -> | ? ]; done.
Qed.

(** The record returned for [d], key by key. *)
Lemma normalize_dict_lookup (d r : gmap string pyval) k :
  normalize_dict mx d = Ok r →
  k ∉ int_fields →
  r !! k =
  let v := fold_left rename_key mapping d !! k in
  let v := if decide (k ∈ required_keys) then Some (default VNone v) else v in
  if decide (k ∈ ts_fields) then blank <$> v else v.
Proof.
  unfold normalize_dict.
  set (r1 := fold_left rename_key mapping d).
  set (r2 := fold_left ensure_key required_keys r1).
  destruct (foldM (convert_int mx) r2 int_fields) as [ r3 | e ] eqn:E3; [ | done ].
  intros E4 Hk. change (foldM blank_to_none r3 ts_fields = Ok r) in E4.
  rewrite (foldM_blank_lookup _ _ _ k E4).
  apply foldM_convert_shape in E3 as (_ & C2 & _).
  rewrite (C2 k Hk). unfold r2. by rewrite fold_ensure_lookup.
Qed.

End WithDigitBound.

(** X1: normalizing a record that is already normalized returns it
    unchanged. *)
Theorem normalize_dict_idempotent (mx : nat) (d r : gmap string pyval) :
  normalize_dict mx d = Ok r → normalize_dict mx r = Ok r.
Proof.
  intros E.
  destruct (normalize_dict_shape mx d r E) as [ Hkeys Hints ].
  assert (fold_left rename_key mapping r = r) as E1.
  { assert (∀ kvs, Forall (fun kv : string * string => r !! kv.1 = None) kvs →
                   fold_left rename_key kvs r = r) as Hfold.
    { intros kvs H. induction H as [ | kv kvs Hkv _ IH ]; [ done | ].
      cbn [fold_left]. unfold rename_key at 2. by rewrite Hkv. }
    apply Hfold. apply Forall_forall. intros kv Hkv.
    assert ((kv.1 ∉ int_fields) ∧ (kv.1 ∉ required_keys) ∧ (kv.1 ∉ ts_fields))
      as (H1 & H2 & H3).
    { revert Hkv. unfold mapping. rewrite !elem_of_cons, elem_of_nil.
      intros [ -> | [ -> | [ -> | [ -> | [] ] ] ] ]; cbn;
        split_and!; apply (bool_decide_unpack _); by vm_compute. }
    rewrite (normalize_dict_lookup mx d r _ E H1). cbn zeta.
    rewrite decide_False by done. rewrite decide_False by done.
    apply fold_rename_none.
    - revert Hkv. unfold mapping. rewrite !elem_of_cons, elem_of_nil.
      intros [ -> | [ -> | [ -> | [ -> | [] ] ] ] ]; cbn;
        repeat constructor; discriminate.
    - right. by apply list_elem_of_fmap_2. }
  assert (fold_left ensure_key required_keys r = r) as E2.
  { assert (∀ keys, Forall (fun key => is_Some (r !! key)) keys →
                    fold_left ensure_key keys r = r) as Hfold.
    { intros keys H. induction H as [ | key keys [ v Hv ] _ IH ]; [ done | ].
      cbn [fold_left]. unfold ensure_key at 2. rewrite Hv.
      destruct v; cbn; try done. by rewrite insert_id. }
    apply Hfold. apply Forall_forall. intros key Hkey. by apply Hkeys. }
  assert (foldM (convert_int mx) r int_fields = Ok r) as E3.
  { assert (∀ fs, Forall (fun f => ∃ n, r !! f = Some (VInt n)) fs →
                  foldM (convert_int mx) r fs = Ok r) as Hfold.
    { intros fs H. induction H as [ | f fs [ n Hn ] _ IH ]; [ done | ].
      cbn [foldM]. unfold convert_int at 2. rewrite Hn. cbn.
      by rewrite insert_id. }
    apply Hfold. apply Forall_forall. intros f Hf. by apply Hints. }
  assert (foldM blank_to_none r ts_fields = Ok r) as E4.
  { assert (∀ fs, Forall (fun f => ∃ v, r !! f = Some v ∧ blank v = v) fs →
                  foldM blank_to_none r fs = Ok r) as Hfold.
    { intros fs H. induction H as [ | f fs (v & Hv & Hb) _ IH ]; [ done | ].
      cbn [foldM]. unfold blank_to_none at 2. rewrite Hv.
      destruct v as [ | | | | s | | ]; try done.
      cbn in Hb. destruct (String.eqb s EmptyString); [ done | done ]. }
    apply Hfold. apply Forall_forall. intros f Hf.
    assert ((f ∉ int_fields) ∧ f ∈ required_keys) as [ H1 H2 ].
    { revert Hf. unfold ts_fields. rewrite !elem_of_cons, elem_of_nil.
      intros [ -> | [ -> | [] ] ]; split; apply (bool_decide_unpack _); by vm_compute. }
    pose proof (normalize_dict_lookup mx d r f E H1) as Hr. cbn zeta in Hr.
    rewrite decide_True in Hr by done. rewrite decide_True in Hr by done.
    cbn in Hr. eexists. split; [ exact Hr | apply blank_blank ]. }
  unfold normalize_dict. rewrite E1, E2, E3. exact E4.
Qed.

Lemma normalize_dict_idempotent_witness :
  normalize_dict default_max_str_digits blank_record = Ok blank_record.
Proof.
  apply (normalize_dict_idempotent default_max_str_digits ∅ blank_record).
  vm_compute. reflexivity.
Defined.

End NormalizerMore.

Module NormalizerMore2.

Import Loader Samples Cases NormalizerFacts NormalizerMore.

Lemma blank_not_empty v : blank v ≠ VStr EmptyString.
Proof.
  destruct v as [ | | | | s | | ]; try done. cbn.
  destruct (String.eqb s EmptyString) eqn:E; [ done | ].
  intros [= ->]. by rewrite String.eqb_refl in E.
Qed.

Lemma mapping_source_outside kv :
  kv ∈ mapping →
  (kv.1 ∉ int_fields) ∧ (kv.1 ∉ required_keys) ∧ (kv.1 ∉ ts_fields)
  ∧ Forall (fun kv' : string * string => kv.1 ≠ kv'.2) mapping.
Proof.
  unfold mapping. rewrite !elem_of_cons, elem_of_nil.
  intros [ -> | [ -> | [ -> | [ -> | [] ] ] ] ]; cbn;
    (split_and!; [ apply (bool_decide_unpack _); by vm_compute ..
                 | repeat constructor; discriminate ]).
Qed.

Lemma mapping_target_inside kv :
  kv ∈ mapping → (kv.2 ∉ int_fields) ∧ kv.2 ∈ required_keys.
Proof.
  unfold mapping. rewrite !elem_of_cons, elem_of_nil.
  intros [ -> | [ -> | [ -> | [ -> | [] ] ] ] ]; cbn;
    split; apply (bool_decide_unpack _); by vm_compute.
Qed.

(** X2: the rename table is applied before the gaps are filled: none of
    the four old names (text, file_path, date, url) is a key of the result,
    and the value an old name had is what the new name holds, replacing any
    value given under the new name (an empty date becomes null). *)
Theorem normalize_dict_renames (mx : nat) (d r : gmap string pyval) src tgt :
  normalize_dict mx d = Ok r →
  (src, tgt) ∈ mapping →
  r !! src = None
  ∧ ∀ x, d !! src = Some x →
         r !! tgt = Some (if decide (tgt ∈ ts_fields) then blank x else x).
Proof.
  intros E Hin.
  destruct (mapping_source_outside _ Hin) as (S1 & S2 & S3 & S4).
  destruct (mapping_target_inside _ Hin) as (T1 & T2). cbn [fst snd] in *.
  split.
  - rewrite (normalize_dict_lookup mx d r src E S1). cbn zeta.
    rewrite decide_False by done. rewrite decide_False by done.
    apply fold_rename_none; [ done | ]. right.
    by apply (list_elem_of_fmap_2 fst _ (src, tgt)).
  - intros x Hx.
    rewrite (normalize_dict_lookup mx d r tgt E T1). cbn zeta.
    rewrite (fold_rename_target mapping d src tgt x mapping_NoDup Hin Hx).
    rewrite (decide_True (P := tgt ∈ required_keys)) by exact T2.
    cbn. by case_decide.
Qed.

Lemma normalize_dict_renames_witness :
  normalize_dict default_max_str_digits raw_post = Ok normalized_post
  ∧ normalized_post !! "text" = None
  ∧ normalized_post !! "message_text" = Some (VStr "hi")
  ∧ normalized_post !! "date" = None
  ∧ normalized_post !! "message_date" = Some VNone.
Proof.
  assert (normalize_dict default_max_str_digits raw_post = Ok normalized_post)
    as E by (vm_compute; reflexivity).
  destruct (normalize_dict_renames default_max_str_digits raw_post normalized_post
              "text" "message_text" E ltac:(in_list)) as [ H1 H2 ].
  destruct (normalize_dict_renames default_max_str_digits raw_post normalized_post
              "date" "message_date" E ltac:(in_list)) as [ H3 H4 ].
  split_and!; [ exact E | exact H1 | | exact H3 | ].
  - by rewrite (H2 (VStr "hi") eq_refl).
  - by rewrite (H4 (VStr EmptyString) eq_refl).
Defined.

(** X3: in a normalized record the two timestamp fields, message_date and
    scraped_at, are present and never the empty string. *)
Theorem normalize_dict_timestamps (mx : nat) (d r : gmap string pyval) f :
  normalize_dict mx d = Ok r →
  f ∈ ts_fields →
  ∃ v, r !! f = Some v ∧ v ≠ VStr EmptyString.
Proof.
  intros E Hf.
  assert ((f ∉ int_fields) ∧ f ∈ required_keys) as [ H1 H2 ].
  { revert Hf. unfold ts_fields. rewrite !elem_of_cons, elem_of_nil.
    intros [ -> | [ -> | [] ] ]; split; apply (bool_decide_unpack _); by vm_compute. }
  pose proof (normalize_dict_lookup mx d r f E H1) as Hr. cbn zeta in Hr.
  rewrite decide_True in Hr by done. rewrite decide_True in Hr by done.
  set (v0 := fold_left rename_key mapping d !! f) in *.
  cbn in Hr. eexists. split; [ exact Hr | apply blank_not_empty ].
Qed.

Lemma normalize_dict_timestamps_witness :
  ∃ v, normalized_post !! "message_date" = Some v ∧ v ≠ VStr EmptyString.
Proof.
  destruct (normalize_dict_timestamps default_max_str_digits raw_post normalized_post
              "message_date" ltac:(vm_compute; reflexivity) ltac:(in_list))
    as (v & Hv & Hne).
  exists v. split; [ exact Hv | exact Hne ].
Defined.

(** X4: the normalizer keeps what it does not know: a key that is neither
    one of the thirteen required keys nor one of the four renamed ones has,
    in the result, exactly the value it had in the input. *)
Theorem normalize_dict_keeps_other_keys (mx : nat) (d r : gmap string pyval) k :
  normalize_dict mx d = Ok r →
  k ∉ required_keys →
  k ∉ mapping.*1 →
  r !! k = d !! k.
Proof.
  intros E Hreq Hsrc.
  assert (k ∉ int_fields) as H1.
  { intros H. by apply Hreq, int_field_required. }
  assert (k ∉ ts_fields) as H2.
  { intros H. apply Hreq. revert H. unfold ts_fields.
    rewrite !elem_of_cons, elem_of_nil.
    intros [ -> | [ -> | [] ] ]; apply (bool_decide_unpack _); by vm_compute. }
  rewrite (normalize_dict_lookup mx d r k E H1). cbn zeta.
  rewrite decide_False by done. rewrite decide_False by done.
  apply fold_rename_other. apply Forall_forall. intros kv Hkv. split.
  - intros ->. apply Hsrc. by apply list_elem_of_fmap_2.
  - intros ->. apply Hreq. by apply mapping_target_inside.
Qed.

Lemma normalize_dict_keeps_other_keys_witness :
  normalized_post !! "lang" = Some (VStr "am")
  ∧ normalized_post !! "edit_date" = Some VNone.
Proof.
  assert (normalize_dict default_max_str_digits raw_post = Ok normalized_post)
    as E by (vm_compute; reflexivity).
  split.
  - rewrite (normalize_dict_keeps_other_keys default_max_str_digits raw_post
               normalized_post "lang" E); [ reflexivity | | ];
      apply (bool_decide_unpack _); by vm_compute.
  - rewrite (normalize_dict_keeps_other_keys default_max_str_digits raw_post
               normalized_post "edit_date" E); [ reflexivity | | ];
      apply (bool_decide_unpack _); by vm_compute.
Defined.

End NormalizerMore2.

(** ** Reading the input files *)

Module ReadingSpec.

Import Loader Samples Cases WarehouseFacts.

Lemma result_bind_ret {E A} (r : result E A) : r ≫= (fun a => Ok a) = r.
Proof. by destruct r. Qed.

Lemma normalize_items_dicts mx items :
  normalize_items mx items = normalize_rows mx (dicts items).
Proof.
  induction items as [ | v items IH ]; [ done | ].
  destruct v; cbn [normalize_items dicts omap list_omap normalize_rows]; try exact IH.
  fold (dicts items). cbn [normalize_rows]. by rewrite IH.
Qed.

(** X5: [load_json] treats a single JSON object as a list with that one
    object, and from a JSON array it normalizes the objects, in order, and
    skips every item that is not an object. *)
Theorem load_json_objects_only (mx : nat) (f : file) :
  (∀ d, json_data f = Ok (VDict d) → load_json mx f = normalize_rows mx [ d ])
  ∧ (∀ items, json_data f = Ok (VList items) →
              load_json mx f = normalize_rows mx (dicts items)).
Proof.
  split.
  - intros d E. unfold load_json. rewrite E, result_bind_ok.
    by rewrite normalize_items_dicts.
  - intros items E. unfold load_json. rewrite E, result_bind_ok.
    apply normalize_items_dicts.
Qed.

Lemma load_json_objects_only_witness :
  load_json default_max_str_digits mixed_items = Ok [ blank_record; blank_record ].
Proof.
  destruct (load_json_objects_only default_max_str_digits mixed_items) as [ _ H ].
  rewrite (H _ eq_refl). vm_compute. reflexivity.
Defined.

(** X6: [load_records] reads only the files whose name ends in [.json] or
    [.csv]; any other file under the data path is ignored, whatever it
    holds. *)
Theorem load_records_ignores_other_files (mx : nat) (files : list file) :
  load_records mx files = load_records mx (List.filter is_data_file files).
Proof.
  induction files as [ | f files IH ]; [ done | ].
  cbn [load_records List.filter]. unfold is_data_file at 1.
  destruct (endswith (file_name f) ".json") eqn:Ej; cbn [orb].
  - cbn [load_records]. rewrite Ej. by rewrite IH.
  - destruct (endswith (file_name f) ".csv") eqn:Ec.
    + cbn [load_records]. rewrite Ej, Ec. by rewrite IH.
    + rewrite result_bind_ok, <- IH. cbn [app]. apply result_bind_ret.
Qed.

End ReadingSpec.

(** ** The warehouse loader, continued *)

Module WarehouseMore.

Import Loader Samples Cases WarehouseFacts.

Lemma execute_batch_prefix (table : list row)
      (batch : list (gmap string pyval)) (table' : list row) :
  execute_batch SQL table batch = Ok table' → ∃ added, table' = table ++ added.
Proof.
  revert table. induction batch as [ | rec recs IH ]; intros table.
  - intros [= <-]. exists []. by rewrite app_nil_r.
  - destruct (bind_params rec) as [ row | e ] eqn:E.
    2:{ unfold execute_batch. cbn [foldM]. by rewrite E. }
    rewrite (execute_batch_cons _ _ _ _ E). intros H.
    destruct (IH _ H) as (added & ->).
    destruct (has_key table (message_id row)).
    + by exists added.
    + exists (row :: added). by rewrite <- app_assoc.
Qed.

(** X7: a load only appends: the committed rows stay where and as they
    are, and every appended row is a record of the batch whose
    [message_id] was not in the table before the load. *)
Theorem execute_batch_appends (table : list row)
        (batch : list (gmap string pyval)) (table' : list row) :
  execute_batch SQL table batch = Ok table' →
  ∃ added,
    table' = table ++ added
    ∧ ∀ r, r ∈ added →
           has_key table (message_id r) = false
           ∧ ∃ record, record ∈ batch ∧ bind_params record = Ok r.
Proof.
  revert table. induction batch as [ | rec recs IH ]; intros table.
  - intros [= <-]. exists []. split; [ by rewrite app_nil_r | ].
    intros r Hr. by apply elem_of_nil in Hr.
  - destruct (bind_params rec) as [ row | e ] eqn:E.
    2:{ unfold execute_batch. cbn [foldM]. by rewrite E. }
    rewrite (execute_batch_cons _ _ _ _ E). intros H.
    destruct (IH _ H) as (added & -> & Hadded).
    destruct (has_key table (message_id row)) eqn:Ek.
    + exists added. split; [ done | ]. intros r Hr.
      destruct (Hadded r Hr) as (Hfresh & record & Hin & Hbind).
      split; [ done | ]. exists record. split; [ by right | done ].
    + exists (row :: added). split; [ by rewrite <- app_assoc | ].
      intros r [ -> | Hr ]%elem_of_cons.
      * split; [ done | ]. exists rec. split; [ by left | done ].
      * destruct (Hadded r Hr) as (Hfresh & record & Hin & Hbind).
        split.
        -- rewrite has_key_snoc in Hfresh. by apply orb_false_iff in Hfresh as [ ? _ ].
        -- exists record. split; [ by right | done ].
Qed.

Lemma execute_batch_appends_witness :
  ∃ added,
    execute_batch SQL [ row_of first_seven ] [ blank_record; second_seven ]
    = Ok ([ row_of first_seven ] ++ added)
    ∧ length added = 1%nat.
Proof.
  destruct (execute_batch_appends [ row_of first_seven ]
              [ blank_record; second_seven ]
              [ row_of first_seven; row_of blank_record ]
              ltac:(vm_compute; reflexivity)) as (added & E & _).
  exists added. split.
  - rewrite <- E. vm_compute. reflexivity.
  - apply (f_equal length) in E. rewrite length_app in E. cbn in E. lia.
Defined.

(** X8: among records with the same [message_id] the first one wins: when
    a record's key is neither in the table nor carried by an earlier record
    of the batch, its row is in the table after the load, whatever records
    with that key come later. *)
Theorem execute_batch_first_wins (table : list row)
        (earlier later : list (gmap string pyval)) (record : gmap string pyval)
        (r : row) (table' : list row) :
  execute_batch SQL table (earlier ++ record :: later) = Ok table' →
  bind_params record = Ok r →
  has_key table (message_id r) = false →
  (∀ rec' r', rec' ∈ earlier → bind_params rec' = Ok r' →
              message_id r' ≠ message_id r) →
  r ∈ table'.
Proof.
  revert table. induction earlier as [ | rec recs IH ]; intros table H E Hk Hearlier.
  - cbn [app] in H. rewrite (execute_batch_cons _ _ _ _ E), Hk in H.
    destruct (execute_batch_prefix _ _ _ H) as (added & ->).
    apply elem_of_app. left. apply elem_of_app. right. by left.
  - cbn [app] in H. destruct (bind_params rec) as [ row | e ] eqn:E'.
    2:{ unfold execute_batch in H. cbn [foldM] in H. by rewrite E' in H. }
    rewrite (execute_batch_cons _ _ _ _ E') in H.
    apply (IH _ H E).
    + destruct (has_key table (message_id row)); [ done | ].
      rewrite has_key_snoc, Hk. cbn. apply Z.eqb_neq.
      apply (Hearlier rec row); [ by left | done ].
    + intros rec' r' Hin. apply Hearlier. by right.
Qed.

Lemma execute_batch_first_wins_witness :
  ∃ table',
    execute_batch SQL [] [ first_seven; second_seven ] = Ok table'
    ∧ row_of first_seven ∈ table'
    ∧ length table' = 1%nat.
Proof.
  exists [ row_of first_seven ].
  assert (execute_batch SQL [] ([] ++ first_seven :: [ second_seven ])
          = Ok [ row_of first_seven ]) as E by (vm_compute; reflexivity).
  split; [ exact E | ]. split; [ | reflexivity ].
  apply (execute_batch_first_wins [] [] [ second_seven ] first_seven
           (row_of first_seven) _ E).
  - vm_compute. reflexivity.
  - reflexivity.
  - intros rec' r' Hin%elem_of_nil. destruct Hin.
Defined.

(** When no record is read, [main] reports that, leaves the table as
    it is and does not need the database; when records are read and the
    database does not accept the connection, [main] raises. *)
Theorem main_without_records_or_database (mx : nat) (files : list file)
        (db_up : bool) (table : list row) (records : list (gmap string pyval)) :
  load_records mx files = Ok records →
  (records = [] → main mx files db_up table = Ok (table, NoRecordsFound))
  ∧ (records ≠ [] → db_up = false →
     main mx files db_up table = Raise (OtherError "psycopg2.OperationalError")).
Proof.
  intros E. unfold main. rewrite E, result_bind_ok. split.
  - by intros ->.
  - intros Hne ->. by destruct records.
Qed.

Lemma main_without_records_or_database_witness :
  main default_max_str_digits [ log_file ] false [] = Ok ([], NoRecordsFound).
Proof.
  destruct (main_without_records_or_database default_max_str_digits
              [ log_file ] false [] [] eq_refl) as [ H _ ].
  exact (H eq_refl).
Defined.

End WarehouseMore.

(** ** The manifest writer, continued *)

Module ManifestMore.

Import Datalake Samples ManifestSpec.

(** X9: a manifest is overwritten wholesale: writing a second manifest
    for the same date leaves the disk as if only the second had been
    written, with nothing of the first one merged in; and a write changes no
    file but the manifest. *)
Theorem write_manifest_overwrites base_path date_str
        (counts1 counts2 : gmap string Z) extra1 extra2 run1 run2 (d : disk) :
  (write_manifest base_path date_str counts2 extra2 run2
     (write_manifest base_path date_str counts1 extra1 run1 d).1).1
  = (write_manifest base_path date_str counts2 extra2 run2 d).1
  ∧ ∀ path,
      path ≠ (write_manifest base_path date_str counts1 extra1 run1 d).2 →
      files (write_manifest base_path date_str counts1 extra1 run1 d).1 !! path
      = files d !! path.
Proof.
  split.
  - unfold write_manifest, ensure_dir. cbn. f_equal.
    + by rewrite (assoc_L (∪)), (idemp_L (∪)).
    + apply insert_insert_eq.
  - intros path Hpath. unfold write_manifest in *. cbn in *.
    by rewrite lookup_insert_ne.
Qed.

End ManifestMore.

(** ** The combined export *)

Module CombinedCsvSpec.

Import Datalake CombinedCsv Samples Cases.

Lemma str_le_total : Total str_le.
Proof. intros a b. apply String.leb_total. Qed.

Lemma fieldnames_of_sorted (row : gmap string pyval) :
  Sorted str_le (fieldnames_of row).
Proof. unfold fieldnames_of. apply (@Sorted_merge_sort _ _ _ str_le_total). Qed.

Lemma fieldnames_of_keys (row : gmap string pyval) key :
  key ∈ fieldnames_of row ↔ is_Some (row !! key).
Proof.
  unfold fieldnames_of. rewrite merge_sort_Permutation.
  rewrite elem_of_elements. apply elem_of_dom.
Qed.

Lemma fieldnames_of_NoDup (row : gmap string pyval) : NoDup (fieldnames_of row).
Proof.
  unfold fieldnames_of. rewrite merge_sort_Permutation. apply NoDup_elements.
Qed.

Lemma fieldnames_of_set (row : gmap string pyval) :
  list_to_set (fieldnames_of row) = dom row.
Proof.
  apply set_eq. intros key.
  rewrite elem_of_list_to_set, fieldnames_of_keys. by rewrite elem_of_dom.
Qed.

Lemma dict_to_list_ok (first rowdict : gmap string pyval) :
  dom rowdict ⊆ dom first →
  dict_to_list (fieldnames_of first) rowdict
  = Ok (line_of (fieldnames_of first) rowdict).
Proof.
  intros H. unfold dict_to_list. rewrite fieldnames_of_set.
  by rewrite bool_decide_eq_true_2.
Qed.

Lemma dict_to_list_extra (first rowdict : gmap string pyval) :
  ¬ dom rowdict ⊆ dom first →
  dict_to_list (fieldnames_of first) rowdict = Raise ValueError.
Proof.
  intros H. unfold dict_to_list. rewrite fieldnames_of_set.
  by rewrite bool_decide_eq_false_2.
Qed.

Lemma writerows_ok (first : gmap string pyval) rows written :
  Forall (fun rowdict => dom rowdict ⊆ dom first) rows →
  writerows (fieldnames_of first) rows written
  = (written ++ (line_of (fieldnames_of first) <$> rows), None).
Proof.
  intros H. revert written. induction H as [ | rowdict rows Hrow _ IH ];
    intros written; cbn [writerows].
  - by rewrite app_nil_r.
  - rewrite (dict_to_list_ok _ _ Hrow), IH. by rewrite <- app_assoc.
Qed.

Lemma writerows_stops (first : gmap string pyval) good bad rest written :
  Forall (fun rowdict => dom rowdict ⊆ dom first) good →
  ¬ dom bad ⊆ dom first →
  writerows (fieldnames_of first) (good ++ bad :: rest) written
  = (written ++ (line_of (fieldnames_of first) <$> good), Some ValueError).
Proof.
  intros H Hbad. revert written. induction H as [ | rowdict rows Hrow _ IH ];
    intros written; cbn [writerows app].
  - rewrite (dict_to_list_extra _ _ Hbad). by rewrite app_nil_r.
  - rewrite (dict_to_list_ok _ _ Hrow), IH. by rewrite <- app_assoc.
Qed.

Lemma append_empty a b : a +:+ b = EmptyString → b = EmptyString.
Proof. destruct a; [ done | discriminate ]. Qed.

Lemma csv_path_not_empty out_dir :
  path_join out_dir [ "telegram_messages.csv" ] ≠ EmptyString.
Proof.
  unfold path_join, join2. cbn.
  destruct (String.eqb out_dir EmptyString || endswith out_dir "/");
    intros H; apply append_empty in H; try discriminate H.
Qed.

(** The export is skipped for an empty list of rows and only then:
    with no rows the empty path is returned and nothing on disk changes;
    with at least one row the call never returns the empty path. *)
Theorem write_combined_csv_empty_guard base_path date_str
        (rows : list (gmap string pyval)) (l : lake) :
  (rows = [] → write_combined_csv base_path date_str rows l = (l, Ok EmptyString))
  ∧ ((write_combined_csv base_path date_str rows l).2 = Ok EmptyString → rows = []).
Proof.
  split; [ by intros -> | ].
  destruct rows as [ | first rest ]; [ done | ].
  unfold write_combined_csv.
  destruct (writerows _ _ _) as [ lines [ e | ] ]; cbn; [ done | ].
  intros [= H]. by apply csv_path_not_empty in H.
Qed.

(** X10: when no row has a key the first row lacks, the export is written
    under the processed partition: its header is the first row's keys in
    sorted order, without repetition, and it has one line per row, holding
    the row's values in the header's order, with the empty string for a key
    the row lacks; the path of that file is returned and the JSON side of
    the disk keeps its files. *)
Theorem write_combined_csv_rows base_path date_str
        (first : gmap string pyval) (rest : list (gmap string pyval)) (l : lake) :
  Forall (fun rowdict => dom rowdict ⊆ dom first) rest →
  let path :=
    path_join (processed_partition_dir base_path date_str) [ "telegram_messages.csv" ] in
  let header := fieldnames_of first in
  let l' := (write_combined_csv base_path date_str (first :: rest) l).1 in
  (write_combined_csv base_path date_str (first :: rest) l).2 = Ok path
  ∧ lake_csv l' !! path
    = Some (CsvFile header (line_of header <$> first :: rest))
  ∧ Sorted str_le header
  ∧ NoDup header
  ∧ (∀ key, key ∈ header ↔ is_Some (first !! key))
  ∧ files (lake_disk l') = files (lake_disk l).
Proof.
  intros Hrest path header l'.
  assert (Forall (fun rowdict => dom rowdict ⊆ dom first) (first :: rest)) as Hall
    by (by constructor).
  unfold l', write_combined_csv.
  rewrite (writerows_ok first (first :: rest) [] Hall). cbn [fst snd app].
  split_and!; try done.
  - apply lookup_insert_eq.
  - apply fieldnames_of_sorted.
  - apply fieldnames_of_NoDup.
  - apply fieldnames_of_keys.
Qed.

Lemma write_combined_csv_rows_witness :
  (write_combined_csv "data" "2026-01-16" [ row_ba; row_a ] empty_lake).2
  = Ok "data/processed/telegram_messages/2026-01-16/telegram_messages.csv"
  ∧ lake_csv (write_combined_csv "data" "2026-01-16" [ row_ba; row_a ] empty_lake).1
      !! "data/processed/telegram_messages/2026-01-16/telegram_messages.csv"
    = Some (CsvFile [ "a"; "b" ]
                    [ [ VInt 2; VInt 1 ]; [ VInt 3; VStr EmptyString ] ]).
Proof.
  assert (Forall (fun rowdict : gmap string pyval => dom rowdict ⊆ dom row_ba)
                 [ row_a ]) as H.
  { constructor; [ | constructor ]. apply (bool_decide_unpack _). by vm_compute. }
  destruct (write_combined_csv_rows "data" "2026-01-16" row_ba [ row_a ] empty_lake H)
    as (E1 & E2 & _).
  split; [ exact E1 | ]. etrans; [ exact E2 | ]. vm_compute. reflexivity.
Defined.

(** X11: a row with a key the first row lacks stops the export with a
    [ValueError]: the file is left with the header and the lines of the rows
    before that row, and no path is returned. *)
Theorem write_combined_csv_extra_key base_path date_str
        (first : gmap string pyval) (good : list (gmap string pyval))
        (bad : gmap string pyval) (later : list (gmap string pyval)) (l : lake) :
  Forall (fun rowdict => dom rowdict ⊆ dom first) good →
  ¬ dom bad ⊆ dom first →
  let path :=
    path_join (processed_partition_dir base_path date_str) [ "telegram_messages.csv" ] in
  let header := fieldnames_of first in
  (write_combined_csv base_path date_str (first :: good ++ bad :: later) l).2
  = Raise ValueError
  ∧ lake_csv (write_combined_csv base_path date_str
                (first :: good ++ bad :: later) l).1 !! path
    = Some (CsvFile header (line_of header <$> first :: good)).
Proof.
  intros Hgood Hbad path header.
  assert (Forall (fun rowdict => dom rowdict ⊆ dom first) (first :: good)) as Hall
    by (by constructor).
  unfold write_combined_csv.
  change (first :: good ++ bad :: later) with ((first :: good) ++ bad :: later).
  cbn [app].
  change (first :: good ++ bad :: later) with ((first :: good) ++ bad :: later).
  rewrite (writerows_stops first (first :: good) bad later [] Hall Hbad).
  cbn [fst snd app]. split; [ done | apply lookup_insert_eq ].
Qed.

Lemma write_combined_csv_extra_key_witness :
  (write_combined_csv "data" "2026-01-16" [ row_ba; row_a; row_ac; row_a ]
                      empty_lake).2
  = Raise ValueError
  ∧ lake_csv (write_combined_csv "data" "2026-01-16"
                [ row_ba; row_a; row_ac; row_a ] empty_lake).1
      !! "data/processed/telegram_messages/2026-01-16/telegram_messages.csv"
    = Some (CsvFile [ "a"; "b" ]
                    [ [ VInt 2; VInt 1 ]; [ VInt 3; VStr EmptyString ] ]).
Proof.
  assert (Forall (fun rowdict : gmap string pyval => dom rowdict ⊆ dom row_ba)
                 [ row_a ]) as H.
  { constructor; [ | constructor ]. apply (bool_decide_unpack _). by vm_compute. }
  assert (¬ dom row_ac ⊆ dom row_ba) as Hbad.
  { apply (bool_decide_unpack _). by vm_compute. }
  destruct (write_combined_csv_extra_key "data" "2026-01-16" row_ba [ row_a ]
              row_ac [ row_a ] empty_lake H Hbad) as (E1 & E2).
  split; [ exact E1 | ]. etrans; [ exact E2 | ]. vm_compute. reflexivity.
Defined.

End CombinedCsvSpec.

(** ** The channel scraper, continued *)

Module ScraperMore.

Import Scraper Samples Cases ScraperSpec.

Lemma sanitize_char_valid c : existsb (Ascii.eqb (sanitize_char c)) invalid = false.
Proof.
  unfold sanitize_char. destruct (existsb (Ascii.eqb c) invalid) eqn:E; [ | exact E ].
  by vm_compute.
Qed.

Lemma sanitize_char_idempotent c : sanitize_char (sanitize_char c) = sanitize_char c.
Proof. unfold sanitize_char at 1. by rewrite sanitize_char_valid. Qed.

Lemma sanitize_filename_chars name :
  list_ascii_of_string (sanitize_filename name)
  = firstn 200 (map sanitize_char (list_ascii_of_string name)).
Proof. unfold sanitize_filename. apply list_ascii_of_string_of_list_ascii. Qed.

Lemma string_length_chars s : String.length s = length (list_ascii_of_string s).
Proof. induction s as [ | c s IH ]; cbn; [ done | by rewrite IH ]. Qed.

(** X12: a sanitized file name has at most 200 characters, none of which is
    one of the nine invalid characters, and sanitizing it again changes
    nothing. *)
Theorem sanitize_filename_safe (name : string) :
  (String.length (sanitize_filename name) ≤ 200)%nat
  ∧ (∀ c, c ∈ list_ascii_of_string (sanitize_filename name) → c ∉ invalid)
  ∧ sanitize_filename (sanitize_filename name) = sanitize_filename name.
Proof.
  split_and!.
  - rewrite string_length_chars, sanitize_filename_chars, length_take. lia.
  - intros c Hc Hinv. rewrite sanitize_filename_chars in Hc.
    apply elem_of_take in Hc as (i & Hi & _).
    apply list_lookup_fmap_Some_1 in Hi as (c0 & -> & _).
    pose proof (sanitize_char_valid c0) as Hvalid.
    assert (existsb (Ascii.eqb (sanitize_char c0)) invalid = true) as Hyes;
      [ | congruence ].
    apply existsb_exists. exists (sanitize_char c0). split.
    + by apply list_elem_of_In.
    + apply Ascii.eqb_refl.
  - unfold sanitize_filename at 1. rewrite sanitize_filename_chars.
    unfold sanitize_filename. f_equal.
    rewrite <- firstn_map, map_map, firstn_firstn. f_equal.
    apply map_ext. intros c. apply sanitize_char_idempotent.
Qed.

Lemma classify_values attributes : classify attributes ≠ OTHER.
Proof.
  induction attributes as [ | [ file_name | ] attributes IH ];
    cbn [classify]; [ done | | done ].
  destruct (endswith_any (lower file_name) [ ".mp4"; ".mkv" ]); [ done | ].
  destruct (endswith_any (lower file_name) [ ".mp3"; ".wav" ]); done.
Qed.

(** X13: media detection answers with no type exactly for a post without
    media or with media that is neither a photo nor a document, and the type
    it answers with is never [OTHER]. *)
Theorem detect_media_type_values (m : media) :
  (detect_media_type m = Ok None ↔ m = NoMedia ∨ m = MessageMediaOther)
  ∧ ∀ mt, detect_media_type m = Ok (Some mt) → mt ≠ OTHER.
Proof.
  split.
  - destruct m as [ | | [ attributes | ] | ]; cbn; split; try done;
      try (by intros [ ? | ? ]); auto.
  - intros mt. destruct m as [ | | [ attributes | ] | ]; cbn; try done.
    + by intros [= <-].
    + intros [= <-]. apply classify_values.
Qed.

Lemma detect_media_type_values_witness :
  detect_media_type
    (MessageMediaDocument (Some [ DocumentAttributeOther;
                                  DocumentAttributeFilename "Clip.MP4" ]))
  = Ok (Some VIDEO)
  ∧ VIDEO ≠ OTHER.
Proof.
  split; [ reflexivity | ].
  destruct (detect_media_type_values
              (MessageMediaDocument (Some [ DocumentAttributeOther;
                                            DocumentAttributeFilename "Clip.MP4" ])))
    as [ _ H ].
  exact (H VIDEO eq_refl).
Defined.

Lemma enumerate_bound c channel e image_dir steps :
  ∀ limit p,
    (length (messages (enumerate c channel e image_dir limit steps p).1)
     ≤ length (messages p) + limit)%nat.
Proof.
  induction steps as [ | s steps IH ]; intros limit p.
  - destruct limit; cbn; lia.
  - destruct limit as [ | limit ]; [ cbn; lia | ].
    destruct s as [ msg clock | err ]; cbn [enumerate]; [ | cbn; lia ].
    destruct (build_message c channel e image_dir msg clock) as [ m | ].
    + etrans; [ apply IH | ]. cbn. rewrite length_app. cbn. lia.
    + etrans; [ apply IH | ]. lia.
Qed.

(** X14: [scrape_channel] never returns more than [SCRAPE_LIMIT] (200)
    messages for a channel. *)
Theorem scrape_channel_bounded c channel base_path naps msgs :
  scrape_channel c channel base_path = (naps, Ok msgs) →
  (length msgs ≤ SCRAPE_LIMIT)%nat.
Proof.
  unfold scrape_channel.
  destruct (get_entity c channel) as [ e | err ].
  - pose proof (enumerate_bound c channel e
                  (Datalake.path_join base_path [ "raw"; "images"; sanitize_filename channel ])
                  (iter_messages c e) SCRAPE_LIMIT
                  {| messages := []; sleeps := [] |}) as Hb.
    destruct (enumerate _ _ _ _ _ _ _) as [ p [ err | ] ]; cbn in Hb.
    + destruct err; cbn; intros [= _ <-]; exact Hb.
    + intros [= _ <-]. exact Hb.
  - destruct err; cbn; intros [= _ <-]; cbn; lia.
Qed.

Lemma scrape_channel_bounded_witness :
  ∃ naps msgs,
    scrape_channel three_channels "@open" "data" = (naps, Ok msgs)
    ∧ (length msgs ≤ SCRAPE_LIMIT)%nat.
Proof.
  eexists _, _. split; [ vm_compute; reflexivity | ].
  eapply (scrape_channel_bounded three_channels "@open" "data").
  vm_compute. reflexivity.
Defined.

Lemma enumerate_yields c channel e image_dir steps :
  only_yields steps →
  ∀ limit p,
    enumerate c channel e image_dir limit steps p
    = ({| messages := messages p ++ built c channel e image_dir (firstn limit steps);
          sleeps := sleeps p
                    ++ replicate (length (built c channel e image_dir (firstn limit steps)))
                                 MESSAGE_DELAY |}, None).
Proof.
  intros H. induction H as [ | s steps (msg & clock & ->) _ IH ]; intros limit p.
  - destruct limit, p; cbn; by rewrite !app_nil_r.
  - destruct limit as [ | limit ].
    { destruct p; cbn; by rewrite !app_nil_r. }
    cbn [enumerate firstn]. unfold built at 1 2. cbn [omap list_omap].
    fold (built c channel e image_dir (firstn limit steps)).
    destruct (build_message c channel e image_dir msg clock) as [ m | ].
    + rewrite IH. cbn. by rewrite <- !app_assoc.
    + by rewrite IH.
Qed.

(** X15: for a channel whose enumeration raises nothing, [scrape_channel]
    returns, in the order of the enumeration, the message of every post
    among the first 200 whose record can be built; a post whose record
    cannot be built is skipped without stopping the others, and the scraper
    sleeps [MESSAGE_DELAY] once per message returned. *)
Theorem scrape_channel_collects c channel base_path e :
  get_entity c channel = Ok e →
  only_yields (iter_messages c e) →
  let msgs :=
    built c channel e (image_dir_of base_path channel)
          (firstn SCRAPE_LIMIT (iter_messages c e)) in
  scrape_channel c channel base_path
  = (replicate (length msgs) MESSAGE_DELAY, Ok msgs).
Proof.
  intros He Hy msgs. unfold scrape_channel. rewrite He.
  rewrite (enumerate_yields c channel e _ _ Hy). reflexivity.
Qed.

Lemma scrape_channel_collects_witness :
  ∃ m1 m2,
    scrape_channel three_channels "@open" "data"
    = ([ MESSAGE_DELAY; MESSAGE_DELAY ], Ok [ m1; m2 ])
    ∧ message_id m1 = 3 ∧ message_id m2 = 2.
Proof.
  assert (only_yields (iter_messages three_channels named_entity)) as Hy.
  { repeat constructor; by eexists _, _. }
  pose proof (scrape_channel_collects three_channels "@open" "data" named_entity
                eq_refl Hy) as E.
  eexists _, _. split; [ exact E | ]. split; reflexivity.
Defined.

(** X16: a channel that cannot be accessed is not an error: when resolving
    the channel raises [ChannelPrivateError] or [UsernameNotOccupiedError]
    the scraper returns the empty list without sleeping, and when the
    enumeration raises one of them it returns the messages collected so far,
    without raising and without a further sleep. *)
Theorem scrape_channel_access_denied c channel base_path err :
  is_access_error err = true →
  (get_entity c channel = Raise err →
   scrape_channel c channel base_path = ([], Ok []))
  ∧ ∀ e before rest,
      get_entity c channel = Ok e →
      iter_messages c e = before ++ IterRaise err :: rest →
      only_yields before →
      (length before < SCRAPE_LIMIT)%nat →
      let msgs := built c channel e (image_dir_of base_path channel) before in
      scrape_channel c channel base_path
      = (replicate (length msgs) MESSAGE_DELAY, Ok msgs).
Proof.
  intros Herr. split.
  - intros E. unfold scrape_channel. rewrite E. by destruct err.
  - intros e before rest He Hsteps Hy Hlen msgs.
    unfold scrape_channel. rewrite He, Hsteps.
    destruct (enumerate_until_raise c channel e (image_dir_of base_path channel)
                before err rest Hy SCRAPE_LIMIT start Hlen) as [ E1 _ ].
    unfold image_dir_of, start in E1. rewrite E1.
    rewrite (enumerate_yields c channel e _ _ Hy).
    rewrite firstn_all2 by lia. by destruct err.
Qed.

Lemma scrape_channel_access_denied_witness :
  scrape_channel three_channels "@private" "data" = ([], Ok [])
  ∧ ∃ m, scrape_channel closing_client "@closing" "data"
         = ([ MESSAGE_DELAY ], Ok [ m ]).
Proof.
  destruct (scrape_channel_access_denied three_channels "@private" "data"
              ChannelPrivateError eq_refl) as [ H1 _ ].
  destruct (scrape_channel_access_denied closing_client "@closing" "data"
              ChannelPrivateError eq_refl) as [ _ H2 ].
  split; [ exact (H1 eq_refl) | ].
  assert (only_yields [ Yield post_one "2026-01-16T12:00:00" ]) as Hy.
  { repeat constructor; by eexists _, _. }
  eexists.
  exact (H2 named_entity [ Yield post_one "2026-01-16T12:00:00" ] []
            eq_refl eq_refl Hy ltac:(vm_compute; lia)).
Defined.

(** X17: any other exception escapes [scrape_channel], whether it is raised
    while the channel is resolved or by the enumeration, and the caller then
    gets none of the messages collected before it. *)
Theorem scrape_channel_propagates c channel base_path err :
  is_handled err = false →
  (get_entity c channel = Raise err →
   (scrape_channel c channel base_path).2 = Raise err)
  ∧ ∀ e before rest,
      get_entity c channel = Ok e →
      iter_messages c e = before ++ IterRaise err :: rest →
      only_yields before →
      (length before < SCRAPE_LIMIT)%nat →
      (scrape_channel c channel base_path).2 = Raise err.
Proof.
  intros Herr. split.
  - intros E. unfold scrape_channel. rewrite E. by destruct err.
  - intros e before rest He Hsteps Hy Hlen.
    unfold scrape_channel. rewrite He, Hsteps.
    destruct (enumerate_until_raise c channel e (image_dir_of base_path channel)
                before err rest Hy SCRAPE_LIMIT start Hlen) as [ E1 _ ].
    unfold image_dir_of, start in E1. rewrite E1. by destruct err.
Qed.

Lemma scrape_channel_propagates_witness :
  (scrape_channel broken_client "@broken" "data").2
  = Raise (OtherError "connection reset").
Proof.
  destruct (scrape_channel_propagates broken_client "@broken" "data"
              (OtherError "connection reset") eq_refl) as [ _ H ].
  assert (only_yields [ Yield post_one "2026-01-16T12:00:00" ]) as Hy.
  { repeat constructor; by eexists _, _. }
  exact (H named_entity [ Yield post_one "2026-01-16T12:00:00" ]
           [ Yield post_two "2026-01-16T12:00:02" ]
           eq_refl eq_refl Hy ltac:(vm_compute; lia)).
Defined.

(** X18: a failed download does not lose the post: when the media type of a
    post is detected and the download raises, the message is still emitted,
    with that media type and without a file path. *)
Theorem build_message_download_fails c channel e image_dir msg clock mt err :
  detect_media_type (post_media msg) = Ok (Some mt) →
  client_download_media c msg image_dir = Raise err →
  ∃ m, build_message c channel e image_dir msg clock = Ok m
       ∧ file_path m = None
       ∧ media_type m = Some (MediaType_value mt)
       ∧ message_id m = post_id msg.
Proof.
  intros Hmt Hdl. unfold build_message. rewrite Hmt. cbn.
  eexists. split; [ reflexivity | ]. cbn. split; [ | done ].
  unfold download_media. rewrite Hdl. by destruct (post_media msg).
Qed.

Lemma build_message_download_fails_witness :
  ∃ m, build_message three_channels "@open" named_entity "data/raw/images/@open"
                     photo_post "2026-01-16T12:00:00" = Ok m
       ∧ file_path m = None
       ∧ media_type m = Some "photo".
Proof.
  destruct (build_message_download_fails three_channels "@open" named_entity
              "data/raw/images/@open" photo_post "2026-01-16T12:00:00"
              PHOTO (OtherError "timeout") eq_refl eq_refl)
    as (m & E & Hp & Ht & _).
  exists m. split; [ exact E | ]. split; [ exact Hp | exact Ht ].
Defined.

End ScraperMore.

(** ** The run over all channels *)

Module RunSpec.

Import Datalake Scraper CombinedCsv Run Samples Cases.

Lemma scrape_one_returns c base_path today st channel :
  returns c base_path channel →
  ∃ naps,
    scrape_one c base_path today st channel
    = ({| run_lake :=
            match scraped c base_path channel with
            | [] => run_lake st
            | _ => write_channel_json base_path today channel
                     (scraped c base_path channel) (run_lake st)
            end;
          run_sleeps := run_sleeps st ++ naps ++ [ CHANNEL_DELAY ];
          all_counts :=
            <[ channel := Z.of_nat (length (scraped c base_path channel)) ]>
              (all_counts st);
          combined_rows :=
            combined_rows st ++ (to_dict <$> scraped c base_path channel) |}, None).
Proof.
  intros [ msgs E ]. unfold scrape_one, scraped.
  destruct (scrape_channel c channel base_path) as [ naps r ]. cbn in E. subst r.
  cbn. by exists naps.
Qed.

Lemma write_channel_json_csv base_path today channel msgs l :
  lake_csv (write_channel_json base_path today channel msgs l) = lake_csv l.
Proof. done. Qed.

Lemma write_channel_json_files base_path today channel msgs l path :
  files (lake_disk (write_channel_json base_path today channel msgs l)) !! path
  = if decide (path = json_path_of base_path today channel)
    then Some (channel_json msgs)
    else files (lake_disk l) !! path.
Proof.
  unfold write_channel_json, json_path_of, channel_json. cbn.
  case_decide as H.
  - subst path. apply lookup_insert_eq.
  - by rewrite lookup_insert_ne.
Qed.

(** What the loop over the channels leaves behind when no channel raises. *)
Lemma scrape_all_returns c base_path today channels :
  Forall (returns c base_path) channels →
  ∀ st,
    (scrape_all c base_path today channels st).2 = None
    ∧ combined_rows (scrape_all c base_path today channels st).1
      = combined_rows st ++ (to_dict <$> all_scraped c base_path channels)
    ∧ lake_csv (run_lake (scrape_all c base_path today channels st).1)
      = lake_csv (run_lake st)
    ∧ (∀ channel,
         all_counts (scrape_all c base_path today channels st).1 !! channel
         = if decide (channel ∈ channels)
           then Some (Z.of_nat (length (scraped c base_path channel)))
           else all_counts st !! channel).
Proof.
  intros H. induction H as [ | ch channels Hch _ IH ]; intros st.
  - cbn. rewrite app_nil_r. split_and!; try done.
    all: intros channel; rewrite decide_False; [ done | apply not_elem_of_nil ].
  - destruct (scrape_one_returns c base_path today st ch Hch) as [ naps E ].
    cbn [scrape_all]. rewrite E.
    destruct (IH {| run_lake :=
                      match scraped c base_path ch with
                      | [] => run_lake st
                      | _ => write_channel_json base_path today ch
                               (scraped c base_path ch) (run_lake st)
                      end;
                    run_sleeps := run_sleeps st ++ naps ++ [ CHANNEL_DELAY ];
                    all_counts :=
                      <[ ch := Z.of_nat (length (scraped c base_path ch)) ]>
                        (all_counts st);
                    combined_rows :=
                      combined_rows st ++ (to_dict <$> scraped c base_path ch) |})
      as (I1 & I2 & I3 & I4).
    split_and!.
    + exact I1.
    + rewrite I2. cbn. unfold all_scraped. cbn.
      by rewrite fmap_app, app_assoc.
    + rewrite I3. cbn. by destruct (scraped c base_path ch).
    + intros channel. rewrite I4. cbn.
      destruct (decide (channel ∈ channels)) as [ Hin | Hin ].
      * rewrite decide_True; [ done | by right ].
      * destruct (decide (channel = ch)) as [ -> | Hne ].
        -- rewrite decide_True by (by left). apply lookup_insert_eq.
        -- rewrite decide_False.
           ++ by rewrite lookup_insert_ne.
           ++ intros [ ? | ? ]%elem_of_cons; done.
Qed.

(** Only the JSON files of the channels are written by the loop. *)
Lemma scrape_all_files c base_path today channels :
  ∀ st path,
    (∀ channel, channel ∈ channels → path ≠ json_path_of base_path today channel) →
    files (lake_disk (run_lake (scrape_all c base_path today channels st).1)) !! path
    = files (lake_disk (run_lake st)) !! path.
Proof.
  induction channels as [ | ch channels IH ]; intros st path Hpath; [ done | ].
  cbn [scrape_all]. unfold scrape_one.
  destruct (scrape_channel c ch base_path) as [ naps [ msgs | err ] ]; [ | done ].
  rewrite IH by (intros channel Hin; apply Hpath; by right). cbn.
  destruct msgs as [ | m msgs ]; [ done | ].
  rewrite write_channel_json_files.
  rewrite decide_False; [ done | ]. apply Hpath. by left.
Qed.

Lemma scrape_all_csv c base_path today channels :
  ∀ st,
    lake_csv (run_lake (scrape_all c base_path today channels st).1)
    = lake_csv (run_lake st).
Proof.
  induction channels as [ | ch channels IH ]; intros st; [ done | ].
  cbn [scrape_all]. unfold scrape_one.
  destruct (scrape_channel c ch base_path) as [ naps [ msgs | err ] ]; [ | done ].
  rewrite IH. cbn. by destruct msgs.
Qed.

(** The first channel that raises ends the loop with its exception; by
    then only the JSON files of the channels before it are written. *)
Lemma scrape_all_raises c base_path today before channel after err :
  Forall (returns c base_path) before →
  (scrape_channel c channel base_path).2 = Raise err →
  ∀ st,
    (scrape_all c base_path today (before ++ channel :: after) st).2 = Some err
    ∧ ∀ path,
        (∀ ch, ch ∈ before → path ≠ json_path_of base_path today ch) →
        files (lake_disk (run_lake
                 (scrape_all c base_path today (before ++ channel :: after) st).1))
          !! path
        = files (lake_disk (run_lake st)) !! path.
Proof.
  intros H Herr. induction H as [ | ch channels Hch _ IH ]; intros st.
  - cbn [app scrape_all]. unfold scrape_one.
    destruct (scrape_channel c channel base_path) as [ naps r ]. cbn in Herr.
    subst r. by cbn.
  - destruct (scrape_one_returns c base_path today st ch Hch) as [ naps E ].
    cbn [app scrape_all]. rewrite E.
    destruct (IH {| run_lake :=
                      match scraped c base_path ch with
                      | [] => run_lake st
                      | _ => write_channel_json base_path today ch
                               (scraped c base_path ch) (run_lake st)
                      end;
                    run_sleeps := run_sleeps st ++ naps ++ [ CHANNEL_DELAY ];
                    all_counts :=
                      <[ ch := Z.of_nat (length (scraped c base_path ch)) ]>
                        (all_counts st);
                    combined_rows :=
                      combined_rows st ++ (to_dict <$> scraped c base_path ch) |})
      as [ I1 I2 ].
    split; [ exact I1 | ].
    intros path Hpath. rewrite I2 by (intros ch' Hin; apply Hpath; by right).
    cbn. destruct (scraped c base_path ch) as [ | m msgs ]; [ done | ].
    rewrite write_channel_json_files.
    rewrite decide_False; [ done | ]. apply Hpath. by left.
Qed.

(** X19: an exception that escapes [scrape_channel] for one channel ends
    the run with that exception: the channels after it are not scraped, the
    combined export is not written, and the only files written are the JSON
    files of the channels before it, so no manifest is written either. *)
Theorem run_scraper_aborts c before channel after base_path today run_utc l err :
  Forall (returns c base_path) before →
  (scrape_channel c channel base_path).2 = Raise err →
  let out := run_scraper c (before ++ channel :: after) base_path today run_utc l in
  out.2 = Raise err
  ∧ lake_csv out.1.1 = lake_csv l
  ∧ ∀ path,
      (∀ ch, ch ∈ before → path ≠ json_path_of base_path today ch) →
      files (lake_disk out.1.1) !! path = files (lake_disk l) !! path.
Proof.
  intros Hbefore Herr out. unfold out, run_scraper.
  destruct (scrape_all_raises c base_path today before channel after err
              Hbefore Herr (run_start l)) as [ E Hfiles ].
  pose proof (scrape_all_csv c base_path today (before ++ channel :: after)
                (run_start l)) as Ecsv.
  unfold run_start in *.
  destruct (scrape_all c base_path today (before ++ channel :: after) _)
    as [ st r ] eqn:Eall.
  cbn in E. subst r. cbn in *. split; [ done | ]. split; [ exact Ecsv | exact Hfiles ].
Qed.

Lemma dom_to_dict m m' : dom (to_dict m) = dom (to_dict m').
Proof. unfold to_dict. by rewrite !dom_insert_L. Qed.

Lemma all_scraped_cons c base_path ch channels :
  all_scraped c base_path (ch :: channels)
  = scraped c base_path ch ++ all_scraped c base_path channels.
Proof. done. Qed.

(** With every channel listed once, the counts add up to the number of
    messages. *)
Lemma scrape_all_sum c base_path today channels :
  NoDup channels →
  Forall (returns c base_path) channels →
  ∀ st,
    (∀ ch, ch ∈ channels → all_counts st !! ch = None) →
    sum_values (all_counts (scrape_all c base_path today channels st).1)
    = sum_values (all_counts st)
      + Z.of_nat (length (all_scraped c base_path channels)).
Proof.
  intros Hnd. induction Hnd as [ | ch channels Hch Hnd IH ]; intros Hret st Hfresh.
  - cbn. lia.
  - apply Forall_cons in Hret as [ Hret1 Hret ].
    destruct (scrape_one_returns c base_path today st ch Hret1) as [ naps E ].
    cbn [scrape_all]. rewrite E, all_scraped_cons, length_app.
    rewrite IH; [ | done | ].
    + cbn [fst all_counts].
      rewrite ManifestSpec.sum_values_insert by (apply Hfresh; by left). lia.
    + intros ch' Hin. cbn. rewrite lookup_insert_ne by (intros ->; done).
      apply Hfresh. by right.
Qed.

(** X20: when every channel is listed once and none raises, the run
    returns and what it writes agrees: the manifest's [channels] gives every
    channel the number of messages scraped from it (0 for a channel without
    messages), its [total_messages] is the number of all messages, and the
    combined export has exactly that many lines; with no message at all no
    export is written. *)
Theorem run_scraper_consistent c channels base_path today run_utc l :
  NoDup channels →
  Forall (returns c base_path) channels →
  let out := run_scraper c channels base_path today run_utc l in
  let msgs := all_scraped c base_path channels in
  out.2 = Ok ()
  ∧ (∃ (payload : gmap string pyval) (counts : gmap string Z),
        files (lake_disk out.1.1) !! manifest_path_of base_path today
        = Some (VDict payload)
        ∧ payload !! "total_messages" = Some (VInt (Z.of_nat (length msgs)))
        ∧ payload !! "channels" = Some (VDict (VInt <$> counts))
        ∧ ∀ ch, counts !! ch
                = if decide (ch ∈ channels)
                  then Some (Z.of_nat (length (scraped c base_path ch)))
                  else None)
  ∧ (msgs = [] → lake_csv out.1.1 = lake_csv l)
  ∧ (msgs ≠ [] →
     ∃ f, lake_csv out.1.1 !! csv_path_of base_path today = Some f
          ∧ length (csv_lines f) = length msgs).
Proof.
  intros Hnd Hret out msgs. unfold out, run_scraper.
  destruct (scrape_all_returns c base_path today channels Hret (run_start l))
    as (E1 & E2 & E3 & E4).
  pose proof (scrape_all_sum c base_path today channels Hnd Hret (run_start l)
                ltac:(intros; apply lookup_empty)) as Esum.
  unfold run_start in *. fold msgs in E2.
  destruct (scrape_all c base_path today channels _) as [ st r ].
  cbn in E1, E2, E3, E4, Esum. subst r. rewrite E2. cbn [app].
  assert (∃ l1 p,
            write_combined_csv base_path today (to_dict <$> msgs) (run_lake st)
            = (l1, Ok p)
            ∧ files (lake_disk l1) = files (lake_disk (run_lake st))
            ∧ (msgs = [] → lake_csv l1 = lake_csv l)
            ∧ (msgs ≠ [] →
               ∃ f, lake_csv l1 !! csv_path_of base_path today = Some f
                    ∧ length (csv_lines f) = length msgs))
    as (l1 & p & Ecsv & Hfiles & Hnone & Hsome).
  { destruct msgs as [ | m rest ] eqn:Em.
    - eexists _, _. cbn. split_and!; [ reflexivity | done | done | done ].
    - assert (Forall (fun rowdict : gmap string pyval => dom rowdict ⊆ dom (to_dict m))
                     (to_dict <$> m :: rest)) as Hall.
      { apply Forall_fmap, Forall_forall. intros m' _. cbn.
        by rewrite (dom_to_dict m' m). }
      unfold write_combined_csv. rewrite fmap_cons in Hall |- *.
      rewrite (CombinedCsvSpec.writerows_ok (to_dict m) _ [] Hall).
      eexists _, _. split; [ reflexivity | ]. cbn. split_and!; [ done | done | ].
      intros _. eexists. split; [ apply lookup_insert_eq | ].
      cbn. by rewrite !length_fmap. }
  rewrite Ecsv. cbn. split; [ done | ]. split; [ | by split ].
  exists (manifest_payload today run_utc (all_counts st) None), (all_counts st).
  split_and!.
  - apply lookup_insert_eq.
  - unfold manifest_payload, update_with. rewrite Esum.
    rewrite ManifestSpec.sum_values_empty. by simplify_map_eq.
  - unfold manifest_payload, update_with. by simplify_map_eq.
  - intros ch. rewrite E4. case_decide; [ done | apply lookup_empty ].
Qed.

Lemma run_scraper_consistent_witness :
  ∃ payload : gmap string pyval,
    (run_scraper three_channels [ "@open"; "@private" ] "data" "2026-01-16"
                 "2026-01-16T12:00:09+00:00" empty_lake).2 = Ok ()
    ∧ files (lake_disk (run_scraper three_channels [ "@open"; "@private" ] "data"
                          "2026-01-16" "2026-01-16T12:00:09+00:00" empty_lake).1.1)
        !! manifest_path_of "data" "2026-01-16"
      = Some (VDict payload)
    ∧ payload !! "total_messages" = Some (VInt 2).
Proof.
  assert (NoDup [ "@open"; "@private" ]) as Hnd
    by (apply (bool_decide_unpack _); by vm_compute).
  assert (Forall (returns three_channels "data") [ "@open"; "@private" ]) as Hret.
  { repeat constructor; eexists; vm_compute; reflexivity. }
  destruct (run_scraper_consistent three_channels [ "@open"; "@private" ] "data"
              "2026-01-16" "2026-01-16T12:00:09+00:00" empty_lake Hnd Hret)
    as (E & (payload & counts & Hfile & Htotal & _) & _).
  exists payload. split; [ exact E | ]. split; [ exact Hfile | ].
  rewrite Htotal. reflexivity.
Defined.

(** After the loop, a channel's JSON file holds its messages, provided no
    other channel of the run is written to the same path. *)
Lemma scrape_all_channel_file c base_path today channels :
  NoDup (json_path_of base_path today <$> channels) →
  Forall (returns c base_path) channels →
  ∀ st ch,
    ch ∈ channels →
    files (lake_disk (run_lake (scrape_all c base_path today channels st).1))
      !! json_path_of base_path today ch
    = match scraped c base_path ch with
      | [] => files (lake_disk (run_lake st)) !! json_path_of base_path today ch
      | msgs => Some (channel_json msgs)
      end.
Proof.
  induction channels as [ | ch0 channels IH ]; intros Hnd Hret st ch Hin.
  - by apply elem_of_nil in Hin.
  - rewrite fmap_cons in Hnd. apply NoDup_cons in Hnd as [ Hfresh Hnd ].
    apply Forall_cons in Hret as [ Hret0 Hret ].
    destruct (scrape_one_returns c base_path today st ch0 Hret0) as [ naps E ].
    cbn [scrape_all]. rewrite E.
    destruct (decide (json_path_of base_path today ch = json_path_of base_path today ch0))
      as [ Heq | Hne ].
    + assert (ch = ch0) as ->.
      { apply elem_of_cons in Hin as [ ? | Hin ]; [ done | ].
        exfalso. apply Hfresh. rewrite <- Heq. by apply list_elem_of_fmap_2. }
      rewrite scrape_all_files.
      * cbn. destruct (scraped c base_path ch0) as [ | m msgs ]; [ done | ].
        rewrite write_channel_json_files. by rewrite decide_True.
      * intros ch' Hin' Heq'. apply Hfresh. rewrite Heq'.
        by apply list_elem_of_fmap_2.
    + apply elem_of_cons in Hin as [ -> | Hin ]; [ done | ].
      rewrite (IH Hnd Hret _ ch Hin). cbn.
      destruct (scraped c base_path ch) as [ | m msgs ]; [ | done ].
      destruct (scraped c base_path ch0) as [ | m0 msgs0 ]; [ done | ].
      rewrite write_channel_json_files. by rewrite decide_False.
Qed.

(** X21: when the channels of a run are written to different paths, none
    of them the manifest's, and none raises, a channel with at least one
    message has, after the run, a JSON file holding exactly its messages in
    order, and a channel without messages gets no file written (its path
    holds what it held before). *)
Theorem run_scraper_channel_files c channels base_path today run_utc l ch :
  NoDup (json_path_of base_path today <$> channels) →
  Forall (returns c base_path) channels →
  ch ∈ channels →
  json_path_of base_path today ch ≠ manifest_path_of base_path today →
  files (lake_disk (run_scraper c channels base_path today run_utc l).1.1)
    !! json_path_of base_path today ch
  = match scraped c base_path ch with
    | [] => files (lake_disk l) !! json_path_of base_path today ch
    | msgs => Some (channel_json msgs)
    end.
Proof.
  intros Hnd Hret Hin Hmanifest. unfold run_scraper.
  destruct (scrape_all_returns c base_path today channels Hret (run_start l))
    as (E1 & _).
  pose proof (scrape_all_channel_file c base_path today channels Hnd Hret
                (run_start l) ch Hin) as Efile.
  unfold run_start in *.
  destruct (scrape_all c base_path today channels _) as [ st r ].
  cbn in E1, Efile. subst r.
  assert (∀ rows,
            (∃ l1 p, write_combined_csv base_path today rows (run_lake st) = (l1, Ok p)
                     ∧ files (lake_disk l1) = files (lake_disk (run_lake st)))
            ∨ ∃ l1 e, write_combined_csv base_path today rows (run_lake st)
                      = (l1, Raise e)
                      ∧ files (lake_disk l1) = files (lake_disk (run_lake st)))
    as Hcsv.
  { intros rows. unfold write_combined_csv. destruct rows as [ | first rest ].
    - left. by eexists _, _.
    - destruct (writerows _ _ _) as [ lines [ e | ] ];
        [ right | left ]; by eexists _, _. }
  destruct (Hcsv (combined_rows st)) as [ (l1 & p & -> & Hf) | (l1 & e & -> & Hf) ];
    cbn [fst snd lake_disk].
  - unfold write_manifest. cbn [fst snd files lake_disk].
    fold (manifest_path_of base_path today).
    rewrite lookup_insert_ne by (intros H; apply Hmanifest; by rewrite <- H).
    unfold ensure_dir. cbn [files]. by rewrite Hf.
  - by rewrite Hf.
Qed.

Lemma run_scraper_channel_files_witness :
  files (lake_disk (run_scraper three_channels [ "@open"; "@private" ] "data"
                      "2026-01-16" "2026-01-16T12:00:09+00:00" empty_lake).1.1)
    !! "data/raw/telegram_messages/2026-01-16/@private.json" = None
  ∧ is_Some
      (files (lake_disk (run_scraper three_channels [ "@open"; "@private" ] "data"
                           "2026-01-16" "2026-01-16T12:00:09+00:00" empty_lake).1.1)
         !! "data/raw/telegram_messages/2026-01-16/@open.json").
Proof.
  assert (NoDup (json_path_of "data" "2026-01-16" <$> [ "@open"; "@private" ])) as Hnd
    by (apply (bool_decide_unpack _); by vm_compute).
  assert (Forall (returns three_channels "data") [ "@open"; "@private" ]) as Hret.
  { repeat constructor; eexists; vm_compute; reflexivity. }
  split.
  - etrans.
    + exact (run_scraper_channel_files three_channels [ "@open"; "@private" ] "data"
               "2026-01-16" "2026-01-16T12:00:09+00:00" empty_lake "@private"
               Hnd Hret ltac:(in_list) ltac:(vm_compute; discriminate)).
    + reflexivity.
  - eexists. etrans.
    + exact (run_scraper_channel_files three_channels [ "@open"; "@private" ] "data"
               "2026-01-16" "2026-01-16T12:00:09+00:00" empty_lake "@open"
               Hnd Hret ltac:(in_list) ltac:(vm_compute; discriminate)).
    + vm_compute. reflexivity.
Defined.

Lemma run_scraper_aborts_witness :
  (run_scraper broken_client [ "@broken"; "@next" ] "data" "2026-01-16"
               "2026-01-16T12:00:09+00:00" empty_lake).2
  = Raise (OtherError "connection reset")
  ∧ files (lake_disk (run_scraper broken_client [ "@broken"; "@next" ] "data"
                        "2026-01-16" "2026-01-16T12:00:09+00:00" empty_lake).1.1)
      !! manifest_path_of "data" "2026-01-16" = None.
Proof.
  destruct (run_scraper_aborts broken_client [] "@broken" [ "@next" ] "data"
              "2026-01-16" "2026-01-16T12:00:09+00:00" empty_lake
              (OtherError "connection reset")
              ltac:(constructor) ltac:(vm_compute; reflexivity))
    as (E & _ & Hfiles).
  split; [ exact E | ].
  etrans; [ apply Hfiles | reflexivity ].
  intros ch Hin. by apply elem_of_nil in Hin.
Defined.

End RunSpec.

(** ** The pipeline, continued *)

Module PipelineMore.

Import Pipeline Requirements Samples Cases PipelineSpec.

(** X22: the Transform stage reports success exactly when the working
    directory could be changed, [dbt run] and [dbt docs generate] exited
    with 0 and [dbt test] could be started; the exit status of [dbt test]
    plays no part. *)
Theorem transform_success_iff PROJECT_ROOT w (load_result s : gmap string pyval) :
  run_dbt_transformations PROJECT_ROOT w load_result = Ok s →
  (s !! "dbt_status" = Some (VStr "success")
   ↔ chdir w (Datalake.path_join PROJECT_ROOT [ "medical_warehouse" ]) = Ok ()
     ∧ subprocess_run w [ "dbt"; "run" ] = Ok 0
     ∧ (∃ returncode, subprocess_run w [ "dbt"; "test" ] = Ok returncode)
     ∧ subprocess_run w [ "dbt"; "docs"; "generate" ] = Ok 0).
Proof.
  unfold run_dbt_transformations, try_finally, catch, commands.
  destruct (getcwd w) as [ original_dir | e ]; [ | done ].
  rewrite WarehouseFacts.result_bind_ok.
  destruct (chdir_back w original_dir) as [ [] | e ]; [ | done ].
  destruct (chdir w _) as [ [] | e ]; cbn -[insert].
  2:{ intros [= <-]. split; [ by simplify_map_eq | by intros (? & _) ]. }
  destruct (subprocess_run w [ "dbt"; "run" ]) as [ rc1 | e ]; cbn -[insert].
  2:{ intros [= <-]. split; [ by simplify_map_eq | by intros (_ & ? & _) ]. }
  destruct (rc1 =? 0) eqn:E1; cbn -[insert].
  2:{ intros [= <-]. split; [ by simplify_map_eq | ].
      intros (_ & [= ->] & _). done. }
  apply Z.eqb_eq in E1 as ->.
  destruct (subprocess_run w [ "dbt"; "test" ]) as [ rc2 | e ]; cbn -[insert].
  2:{ intros [= <-]. split; [ by simplify_map_eq | by intros (_ & _ & [ ? ? ] & _) ]. }
  assert (∀ r : result string unit,
            (if negb (rc2 =? 0) then r else r) = r) as Hif
    by (intros r; by destruct (rc2 =? 0)).
  rewrite Hif.
  destruct (subprocess_run w [ "dbt"; "docs"; "generate" ]) as [ rc3 | e ]; cbn -[insert].
  2:{ intros [= <-]. split; [ by simplify_map_eq | by intros (_ & _ & _ & ?) ]. }
  destruct (rc3 =? 0) eqn:E3; cbn -[insert].
  - apply Z.eqb_eq in E3 as ->. intros [= <-].
    split; [ eauto 10 | by simplify_map_eq ].
  - intros [= <-]. split; [ by simplify_map_eq | ].
    intros (_ & _ & _ & [= ->]). done.
Qed.

Lemma transform_success_iff_witness :
  ∃ s : gmap string pyval,
    run_dbt_transformations "/opt/pipeline" tests_fail ∅ = Ok s
    ∧ s !! "dbt_status" = Some (VStr "success").
Proof.
  eexists. split; [ reflexivity | ].
  apply (transform_success_iff "/opt/pipeline" tests_fail ∅ _ eq_refl).
  split_and!; try reflexivity. by exists 1.
Defined.

(** X23: the Scrape stage returns a summary only when the scraper module
    is there and its run returned; [scraped_files] then counts every JSON
    file under the raw directory, while [file_list] names the first ten of
    them at most. *)
Theorem scrape_summary HAS_SCRAPER PROJECT_ROOT mx w (s : gmap string pyval) :
  scrape_telegram_data HAS_SCRAPER PROJECT_ROOT mx w = Ok s →
  HAS_SCRAPER = true
  ∧ scraper_run w = Ok ()
  ∧ ∃ listed : list string,
      s !! "file_list" = Some (VList (VStr <$> listed))
      ∧ (length listed ≤ 10)%nat
      ∧ (raw_dir_exists w = true →
         s !! "scraped_files" = Some (VInt (Z.of_nat (length (raw_dir_rglob_json w))))
         ∧ listed = firstn 10 (raw_dir_rglob_json w))
      ∧ (raw_dir_exists w = false →
         s !! "scraped_files" = Some (VInt 0)
         ∧ s !! "output_dir" = Some VNone
         ∧ listed = []).
Proof.
  unfold scrape_telegram_data.
  destruct HAS_SCRAPER; cbn [negb]; [ | done ].
  destruct (getenv w "Tg_API_ID") as [ id | ]; [ | done ].
  destruct (int_of_string mx id) as [ n | ]; [ | done ].
  rewrite WarehouseFacts.result_bind_ok.
  destruct (_ || _); [ done | ].
  destruct (scraper_run w) as [ [] | e ]; [ | done ].
  rewrite WarehouseFacts.result_bind_ok.
  destruct (raw_dir_exists w); intros [= <-]; (split; [ done | ]); (split; [ done | ]).
  - exists (firstn 10 (raw_dir_rglob_json w)).
    split; [ by simplify_map_eq | ]. split; [ rewrite length_take; lia | ].
    split; [ intros _; split; [ by simplify_map_eq | done ] | done ].
  - exists []. split; [ by simplify_map_eq | ]. split; [ cbn; lia | ].
    split; [ done | ]. intros _. split_and!; [ by simplify_map_eq .. | done ].
Qed.

Lemma scrape_summary_witness :
  ∃ (s : gmap string pyval) (listed : list string),
    scrape_telegram_data true "/opt/pipeline" default_max_str_digits scrape_twelve = Ok s
    ∧ s !! "scraped_files" = Some (VInt 12)
    ∧ s !! "file_list" = Some (VList (VStr <$> listed))
    ∧ length listed = 10%nat.
Proof.
  destruct (scrape_summary true "/opt/pipeline" default_max_str_digits scrape_twelve
              _ eq_refl) as (_ & _ & listed & Hlist & _ & Hex & _).
  destruct (Hex eq_refl) as [ Hn -> ].
  eexists _, _. split; [ reflexivity | ]. split; [ exact Hn | ].
  split; [ exact Hlist | reflexivity ].
Defined.

(** X24: the Transform stage lets no failure of its commands out: it
    raises exactly when [os.getcwd()] raises before the [try], or when the
    [os.chdir(original_dir)] of the [finally] clause raises, and then with
    that exception; whatever the first [chdir] and the dbt commands do, it
    otherwise returns a summary. *)
Theorem transform_raises_iff PROJECT_ROOT w (load_result : gmap string pyval) (e : string) :
  run_dbt_transformations PROJECT_ROOT w load_result = Raise e
  ↔ getcwd w = Raise e
    ∨ ∃ original_dir, getcwd w = Ok original_dir
                      ∧ chdir_back w original_dir = Raise e.
Proof.
  unfold run_dbt_transformations, try_finally.
  destruct (getcwd w) as [ original_dir | e0 ].
  - rewrite WarehouseFacts.result_bind_ok.
    destruct (chdir_back w original_dir) as [ [] | e1 ] eqn:Hback.
    + split.
      * unfold catch.
        destruct (chdir w _) as [ [] | ? ]; cbn -[run_commands insert];
          [ destruct (run_commands w commands) as [ [] | ? ]; cbn -[insert] | ];
          done.
      * intros [ H | (d & [= <-] & H) ]; [ done | ]. congruence.
    + split.
      * intros [= <-]. right. by exists original_dir.
      * intros [ H | (d & [= <-] & H) ]; [ done | ]. congruence.
  - split.
    + intros [= <-]. by left.
    + intros [ [= <-] | (d & H & _) ]; done.
Qed.

(** X25: the Enrich stage counts what the detector found whatever the dbt
    run for the detections says: once the detector, the saving and the
    loading of the results have gone through and the dbt command could be
    started, the summary is a success with [detected_images] the number of
    rows of the detector's frame, for every exit status of dbt. *)
Theorem enrich_counts_detections HAS_LOADER PROJECT_ROOT w
        (dbt_result : gmap string pyval) results_df returncode :
  images_dir_exists w = true →
  process_directory w (Datalake.path_join PROJECT_ROOT [ "data"; "raw"; "images" ])
  = Ok results_df →
  save_results w = Ok () →
  load_yolo_results w results_df = Ok () →
  dbt_run_select w = Ok returncode →
  ∃ s : gmap string pyval,
    run_yolo_enrichment HAS_LOADER true PROJECT_ROOT w dbt_result = Ok s
    ∧ s !! "yolo_status" = Some (VStr "success")
    ∧ s !! "detected_images" = Some (VInt (df_len results_df)).
Proof.
  intros Hdir Hdf Hsave Hload Hdbt. unfold run_yolo_enrichment, catch.
  cbn [negb]. rewrite Hdir. cbn [negb].
  rewrite Hdf, WarehouseFacts.result_bind_ok, Hsave, WarehouseFacts.result_bind_ok.
  destruct HAS_LOADER;
    [ rewrite Hload, WarehouseFacts.result_bind_ok, Hdbt | ];
    cbn -[insert];
    (eexists; split; [ reflexivity | ]; split; by simplify_map_eq).
Qed.

Lemma enrich_counts_detections_witness :
  ∃ s : gmap string pyval,
    run_yolo_enrichment true true "/opt/pipeline" (yolo_detects 2) ∅ = Ok s
    ∧ s !! "yolo_status" = Some (VStr "success")
    ∧ s !! "detected_images" = Some (VInt 2).
Proof.
  exact (enrich_counts_detections true "/opt/pipeline" (yolo_detects 2) ∅
           two_detections 2 eq_refl eq_refl eq_refl eq_refl eq_refl).
Defined.

(** X26: the Publish stage reports what the Enrich stage found: for every
    summary the Enrich stage can return, [total_processed] is its
    [detected_images], and [yolo_status] and [category_counts] are copied;
    the defaults of the lookups are never used. *)
Theorem publish_mirrors_enrich HAS_LOADER HAS_YOLO PROJECT_ROOT w
        (dbt_result enriched : gmap string pyval) :
  run_yolo_enrichment HAS_LOADER HAS_YOLO PROJECT_ROOT w dbt_result = Ok enriched →
  ∃ published : gmap string pyval,
    start_fastapi enriched = Ok published
    ∧ is_Some (enriched !! "detected_images")
    ∧ published !! "total_processed" = enriched !! "detected_images"
    ∧ published !! "yolo_status" = enriched !! "yolo_status"
    ∧ published !! "category_counts" = enriched !! "category_counts".
Proof.
  intros E.
  assert (is_Some (enriched !! "detected_images")
          ∧ is_Some (enriched !! "yolo_status")
          ∧ is_Some (enriched !! "category_counts")) as ([ v1 H1 ] & [ v2 H2 ] & [ v3 H3 ]).
  { revert E. unfold run_yolo_enrichment, catch, skipped.
    destruct HAS_YOLO; cbn [negb];
      [ | intros [= <-]; split_and!; eexists; by simplify_map_eq ].
    destruct (images_dir_exists w); cbn [negb];
      [ | intros [= <-]; split_and!; eexists; by simplify_map_eq ].
    destruct (process_directory w _) as [ df | e ]; cbn -[insert];
      [ destruct (save_results w) as [ [] | e ]; cbn -[insert];
        [ destruct HAS_LOADER; cbn -[insert];
          [ destruct (load_yolo_results w df) as [ [] | e ]; cbn -[insert];
            [ destruct (dbt_run_select w) as [ rc | e ]; cbn -[insert] | ] | ] | ] | ];
      intros [= <-]; split_and!; eexists; by simplify_map_eq. }
  eexists. split; [ reflexivity | ]. split; [ by eexists | ].
  unfold get. rewrite H1, H2, H3. split_and!; by simplify_map_eq.
Qed.

Lemma publish_mirrors_enrich_witness :
  ∃ published : gmap string pyval,
    start_fastapi (skipped "Images directory not found") = Ok published
    ∧ published !! "total_processed" = Some (VInt 0).
Proof.
  destruct (publish_mirrors_enrich true true "/opt/pipeline" no_images ∅
              (skipped "Images directory not found") eq_refl)
    as (published & E & _ & Ht & _).
  exists published. split; [ exact E | ]. rewrite Ht. reflexivity.
Defined.

(** [check_requirements] answers [requirements_met] exactly when its
    list of missing modules is empty, and that list names, in the order
    scraper, loader, detector, the modules whose import failed. *)
Theorem check_requirements_consistent (HAS_SCRAPER HAS_LOADER HAS_YOLO : bool) :
  let s := check_requirements HAS_SCRAPER HAS_LOADER HAS_YOLO in
  let missing := missing_modules HAS_SCRAPER HAS_LOADER HAS_YOLO in
  s !! "missing" = Some (VList (VStr <$> missing))
  ∧ (s !! "requirements_met" = Some (VBool true) ↔ missing = [])
  ∧ ("TelegramScraper" ∈ missing ↔ HAS_SCRAPER = false)
  ∧ ("DataLoader" ∈ missing ↔ HAS_LOADER = false)
  ∧ ("YOLODetector" ∈ missing ↔ HAS_YOLO = false).
Proof.
  intros s missing. unfold s, missing, check_requirements, missing_modules, requirements.
  split; [ by simplify_map_eq | ].
  destruct HAS_SCRAPER, HAS_LOADER, HAS_YOLO; cbn -[insert];
    (split; [ split; [ intros H; by simplify_map_eq | intros H; by simplify_map_eq ] | ]);
    rewrite ?elem_of_cons, ?elem_of_nil; split_and!; split; intros H;
    repeat match goal with
           | H : _ ∨ _ |- _ => destruct H
           | H : False |- _ => destruct H
           end;
    try done; auto.
Qed.

End PipelineMore.

(** ** The image index *)

Module DetectObjectsSpec.

Import DetectObjects Samples Cases.

Lemma index_file_lookup root (index : gmap string string) f k :
  index_file root index f !! k
  = if decide (k = f) then
      if is_image k then Some (Datalake.join2 root k) else index !! k
    else index !! k.
Proof.
  unfold index_file, is_image. case_decide as Hk.
  - subst k. destruct (endswith_any _ _); [ apply lookup_insert_eq | done ].
  - destruct (endswith_any _ _); [ by rewrite lookup_insert_ne | done ].
Qed.

Lemma index_dir_lookup (index : gmap string string) root files k :
  index_dir index (root, files) !! k
  = if bool_decide (k ∈ files) && is_image k
    then Some (Datalake.join2 root k)
    else index !! k.
Proof.
  unfold index_dir. cbn [fst snd]. revert index.
  induction files as [ | f files IH ]; intros index.
  - cbn [fold_left]. rewrite bool_decide_eq_false_2; [ done | apply not_elem_of_nil ].
  - cbn [fold_left]. rewrite IH, index_file_lookup.
    destruct (decide (k = f)) as [ -> | Hne ].
    + rewrite (bool_decide_eq_true_2 (f ∈ f :: files)) by (by left).
      destruct (is_image f); [ | by rewrite !andb_false_r ].
      by destruct (bool_decide (f ∈ files)).
    + assert (bool_decide (k ∈ f :: files) = bool_decide (k ∈ files)) as ->; [ | done ].
      apply bool_decide_ext. rewrite elem_of_cons.
      split; [ by intros [ ? | ? ] | by right ].
Qed.

Lemma holder_cons root files walk k :
  holder ((root, files) :: walk) k
  = match holder walk k with
    | Some r => Some r
    | None => if bool_decide (k ∈ files) then Some root else None
    end.
Proof.
  unfold holder. cbn [List.filter snd].
  destruct (bool_decide (k ∈ files)).
  - destruct (List.filter _ walk) as [ | e es ]; [ done | ].
    change (last ((root, files) :: e :: es)) with (last (e :: es)).
    destruct (last (e :: es)) eqn:E; [ done | ].
    by apply last_None in E.
  - by destruct (last (List.filter _ walk)).
Qed.

Lemma fold_index_lookup walk (index : gmap string string) k :
  fold_left index_dir walk index !! k
  = if is_image k then
      match holder walk k with
      | Some root => Some (Datalake.join2 root k)
      | None => index !! k
      end
    else index !! k.
Proof.
  revert index. induction walk as [ | [ root files ] walk IH ]; intros index.
  - cbn [fold_left]. change (holder [] k) with (@None string).
    by destruct (is_image k).
  - cbn [fold_left]. rewrite IH, holder_cons, index_dir_lookup.
    destruct (is_image k); [ | by rewrite andb_false_r ].
    rewrite andb_true_r.
    destruct (holder walk k); [ done | ].
    by destruct (bool_decide (k ∈ files)).
Qed.

(** X28: the image index has an entry for a file name exactly when the
    name ends, in any letter case, in [.jpg], [.jpeg] or [.png] and some
    directory of the walk lists it; the entry is the path of the file in the
    last such directory, so of two images with the same name in different
    directories only the later one can be found. *)
Theorem build_image_index_lookup (walk : list (string * list string)) (f : string) :
  build_image_index walk !! f
  = if is_image f
    then (fun root => Datalake.join2 root f) <$> holder walk f
    else None.
Proof.
  unfold build_image_index. rewrite fold_index_lookup.
  destruct (is_image f); [ | apply lookup_empty ].
  destruct (holder walk f); [ done | apply lookup_empty ].
Qed.

End DetectObjectsSpec.

(** ** Loading the detections *)

Module DetectionsSpec.

Import Detections Samples Cases.

Lemma execute_batch_snoc table records :
  ∀ table',
    execute_batch table records = Ok table' →
    ∃ added,
      table' = table ++ added
      ∧ length added = length records
      ∧ ∀ other, execute_batch other records = Ok (other ++ added).
Proof.
  revert table. induction records as [ | record records IH ]; intros table table'.
  - intros [= <-]. exists []. rewrite app_nil_r. split_and!; try done.
    intros other. by rewrite app_nil_r.
  - unfold execute_batch. cbn [foldM].
    destruct (bind_params record) as [ r | e ] eqn:E; [ | done ].
    rewrite !WarehouseFacts.result_bind_ok. intros H.
    destruct (IH _ _ H) as (added & -> & Hlen & Hother).
    exists (r :: added). split_and!.
    + by rewrite <- app_assoc.
    + cbn. by rewrite Hlen.
    + intros other. rewrite !WarehouseFacts.result_bind_ok.
      etrans; [ exact (Hother (other ++ [ r ])) | ]. by rewrite <- app_assoc.
Qed.

Lemma omap_length_le {A B} (f : A → option B) (l : list A) :
  (length (omap f l) ≤ length l)%nat.
Proof.
  induction l as [ | a l IH ]; [ done | ].
  cbn. destruct (f a); cbn; lia.
Qed.

Section WithClock.

Variable to_datetime : pyval → option string.
Variable date_of : string → string.

(** X29: the detections loader reports exactly the rows it inserts: rows
    whose [detected_at] cannot be read as a timestamp are dropped before the
    load, every remaining row is appended to the table, and the number
    printed is the number of rows appended. *)
Theorem detections_main_counts (df : frame) (table table' : list row) (n : nat) :
  main to_datetime date_of (Ok df) true table = Ok (table', n) →
  n = length (omap (prepare to_datetime date_of) (rows df))
  ∧ (n ≤ length (rows df))%nat
  ∧ ∃ added, table' = table ++ added ∧ length added = n.
Proof.
  unfold main. rewrite WarehouseFacts.result_bind_ok.
  case_bool_decide; [ | done ].
  destruct (execute_batch table _) as [ t | e ] eqn:E; [ | done ].
  rewrite WarehouseFacts.result_bind_ok. intros [= <- <-].
  destruct (execute_batch_snoc _ _ _ E) as (added & -> & Hlen & _).
  split; [ done | ]. split; [ apply omap_length_le | ].
  by exists added.
Qed.

(** X30: the detections table has no key: running the loader again on the
    same file appends the same rows once more, after the rows of the first
    run, and reports the same number, so after two runs the table has grown
    by twice the number reported. *)
Theorem detections_main_twice (df : frame) (table once : list row) (n : nat) :
  main to_datetime date_of (Ok df) true table = Ok (once, n) →
  ∃ added,
    once = table ++ added
    ∧ length added = n
    ∧ main to_datetime date_of (Ok df) true once = Ok (table ++ added ++ added, n).
Proof.
  unfold main. rewrite !WarehouseFacts.result_bind_ok.
  case_bool_decide; [ | done ].
  destruct (execute_batch table _) as [ t | e ] eqn:E; [ | done ].
  rewrite WarehouseFacts.result_bind_ok. intros [= <- <-].
  destruct (execute_batch_snoc _ _ _ E) as (added & -> & Hlen & Hother).
  exists added. split; [ done | ]. split; [ done | ].
  rewrite (Hother (table ++ added)), WarehouseFacts.result_bind_ok.
  by rewrite <- app_assoc.
Qed.

End WithClock.

Lemma detections_main_counts_witness :
  ∃ table',
    main sample_to_datetime sample_date_of (Ok detections_frame) true []
    = Ok (table', 2%nat)
    ∧ length table' = 2%nat.
Proof.
  assert (∃ table', main sample_to_datetime sample_date_of (Ok detections_frame) true []
                    = Ok (table', 2%nat)) as [ table' E ]
    by (eexists; vm_compute; reflexivity).
  destruct (detections_main_counts sample_to_datetime sample_date_of
              detections_frame [] table' 2 E) as (_ & _ & added & -> & Hlen).
  exists added. split; [ exact E | exact Hlen ].
Defined.

Lemma detections_main_twice_witness :
  ∃ once twice,
    main sample_to_datetime sample_date_of (Ok detections_frame) true []
    = Ok (once, 2%nat)
    ∧ main sample_to_datetime sample_date_of (Ok detections_frame) true once
      = Ok (twice, 2%nat)
    ∧ length twice = 4%nat.
Proof.
  assert (∃ once, main sample_to_datetime sample_date_of (Ok detections_frame) true []
                  = Ok (once, 2%nat)) as [ once E ]
    by (eexists; vm_compute; reflexivity).
  destruct (detections_main_twice sample_to_datetime sample_date_of
              detections_frame [] once 2 E) as (added & -> & Hlen & E2).
  exists ([] ++ added), ([] ++ added ++ added).
  split; [ exact E | ]. split; [ exact E2 | ].
  cbn [app]. rewrite length_app, Hlen. reflexivity.
Defined.

End DetectionsSpec.
